(** * cartService: the coupon engine, embedded and verified

    A shallow embedding of the discount engine of the cartService
    repository (TypeScript): the three coupon strategies
    ([CartWiseHandler], [ProductWiseHandler], [BxGyHandler]), the strategy
    registry ([CartFactory]) and the two orchestrators of [CartService]
    ([findApplicableCoupons], [applyCoupon]).

    Conventions of the embedding.
    - Amounts, prices and quantities that enter the engine are integers
      (minor currency units), so they are [Z]; on integers [Math.floor] is
      the identity and [Math.floor(x / 100)] is [x / 100] in [Z].
    - The engine computes in double-precision numbers, which are exact on
      integers up to [Number.MAX_SAFE_INTEGER] and not beyond.  The
      properties that bound, add up or compare computed amounts state this
      range as a hypothesis ([maxSafeInteger]).
    - Numbers the engine computes can leave the integers in one place only,
      the division of [calculateBxGyParams], which yields [Infinity] or
      [NaN] for a zero divisor.  Computed numbers are therefore [jsnum].
    - A JavaScript exception is the [Throws] outcome.
    - In-place mutation of the cart is the new state of the cart object. *)

From Stdlib Require Import ZArith Lia Permutation Sorted.
From stdpp Require Import base option list strings gmap.

Local Open Scope string_scope.
Local Open Scope list_scope.
Local Open Scope Z_scope.

(** ** JavaScript numbers reachable by the engine *)

Inductive jsnum : Type :=
| Num (z : Z)
| PInf
| NInf
| NaN.

Module JS.

Definition neg (a : jsnum) : jsnum :=
  match a with
  | Num z => Num (- z)
  | PInf => NInf
  | NInf => PInf
  | NaN => NaN
  end.

Definition add (a b : jsnum) : jsnum :=
  match a, b with
  | NaN, _ | _, NaN => NaN
  | Num x, Num y => Num (x + y)
  | PInf, NInf | NInf, PInf => NaN
  | PInf, _ | _, PInf => PInf
  | NInf, _ | _, NInf => NInf
  end.

Definition sub (a b : jsnum) : jsnum := add a (neg b).

(** Sign of an infinite product: [Infinity * 0] is [NaN]. *)
Definition scaleInf (positive : bool) (z : Z) : jsnum :=
  if z =? 0 then NaN
  else if Bool.eqb positive (0 <? z) then PInf else NInf.

Definition mul (a b : jsnum) : jsnum :=
  match a, b with
  | NaN, _ | _, NaN => NaN
  | Num x, Num y => Num (x * y)
  | PInf, Num z | Num z, PInf => scaleInf true z
  | NInf, Num z | Num z, NInf => scaleInf false z
  | PInf, PInf | NInf, NInf => PInf
  | PInf, NInf | NInf, PInf => NInf
  end.

(** [Math.min(a, b)] *)
Definition min (a b : jsnum) : jsnum :=
  match a, b with
  | NaN, _ | _, NaN => NaN
  | NInf, _ | _, NInf => NInf
  | PInf, x | x, PInf => x
  | Num x, Num y => Num (Z.min x y)
  end.

(** [Math.floor(a)]: every [jsnum] is integral or not finite. *)
Definition floor (a : jsnum) : jsnum := a.

(** [Math.floor(a / b)] on two integers. *)
Definition floorDiv (a b : Z) : jsnum :=
  if b =? 0 then
    (if a =? 0 then NaN else if 0 <? a then PInf else NInf)
  else Num (a / b).

(** [a === 0] *)
Definition isZero (a : jsnum) : bool :=
  match a with Num z => z =? 0 | _ => false end.

(** [a <= 0] *)
Definition leZero (a : jsnum) : bool :=
  match a with
  | Num z => z <=? 0
  | NInf => true
  | PInf | NaN => false
  end.

(** [a > 0] *)
Definition gtZero (a : jsnum) : bool :=
  match a with
  | Num z => 0 <? z
  | PInf => true
  | NInf | NaN => false
  end.

(** Truthiness of an optional number: [undefined], [0] are falsy. *)
Definition truthy (o : option Z) : bool :=
  match o with
  | Some z => negb (z =? 0)
  | None => false
  end.

(** Truthiness of an optional string: [undefined] and the empty string
    are falsy. *)
Definition truthyString (o : option string) : bool :=
  match o with
  | Some s => negb (String.eqb s "")
  | None => false
  end.

(** [arr.includes(x)] on strings *)
Definition includes (arr : list string) (x : string) : bool :=
  existsb (String.eqb x) arr.

End JS.

(** ** Outcomes: a value, or a thrown exception with its message *)

Inductive outcome (A : Type) : Type :=
| Returns (a : A)
| Throws (message : string).
Arguments Returns {A} a.
Arguments Throws {A} message.

Definition bind {A B : Type} (m : outcome A) (k : A -> outcome B) : outcome B :=
  match m with
  | Returns a => k a
  | Throws e => Throws e
  end.

Notation "'let*' x ':=' m 'in' k" := (bind m (fun x => k))
  (at level 10, x name, m at level 100, k at level 200).

(** ** Data model (types/product.type.ts, cart.type.ts, coupon.type.ts) *)

(** The fields [subtotal], [discount] and [isFree] of the source type are
    never read or written by the engine and are left out. *)
Record CartItem : Type := {
  product_id : string;
  quantity : Z;
  price : Z;
  category : option string;
  total_discount : option jsnum;
  final_price : option jsnum;
  freeQuantity : option jsnum;
  appliedCouponIds : option (list string)
}.

Record Cart : Type := {
  items : list CartItem;
  totalAmount : Z;
  discountedAmount : option jsnum;
  subTotal : option jsnum
}.

Record CartWiseConditions : Type := {
  minCartValue : Z;
  maxCartValue : option Z;
  minItems : option Z
}.

Record ProductWiseConditions : Type := {
  productIds : option (list string);
  categories : option (list string);
  minQuantity : option Z
}.

Module BxGyProduct.
Record t : Type := { productId : string; quantity : Z }.
End BxGyProduct.

Record BxGyConditions : Type := {
  buyProducts : list BxGyProduct.t;
  getProducts : list BxGyProduct.t;
  repetitionLimit : Z
}.

Inductive CouponConditions : Type :=
| CartWiseC (c : CartWiseConditions)
| ProductWiseC (c : ProductWiseConditions)
| BxGyC (c : BxGyConditions).

Inductive DiscountDetails : Type :=
| percentage (value : Z) (maxDiscount : option Z)
| fixed (value : Z)
| freeProduct
| discountedProduct.

Module Coupon.
(** [expiryDate] is an instant in milliseconds. *)
Record t : Type := {
  id : string;
  name : string;
  type : string;
  isActive : bool;
  expiryDate : option Z;
  usageLimit : option Z;
  usedCount : Z;
  conditions : CouponConditions;
  discountDetails : DiscountDetails
}.

Definition withUsedCount (c : t) (n : Z) : t :=
  {| id := id c; name := name c; type := type c; isActive := isActive c;
     expiryDate := expiryDate c; usageLimit := usageLimit c;
     usedCount := n; conditions := conditions c;
     discountDetails := discountDetails c |}.
End Coupon.

Module ApplicableCoupons.
Record t : Type := { id : string; discount : jsnum; type : string }.
End ApplicableCoupons.

(** The casts [coupon.conditions as XConditions] are unchecked: on a payload
    of another shape every property read yields [undefined]. *)
Definition asCartWise (c : CouponConditions) : option CartWiseConditions :=
  match c with CartWiseC x => Some x | _ => None end.

Definition asProductWise (c : CouponConditions) : option ProductWiseConditions :=
  match c with ProductWiseC x => Some x | _ => None end.

Definition asBxGy (c : CouponConditions) : option BxGyConditions :=
  match c with BxGyC x => Some x | _ => None end.

(** Mutations of the cart object. *)
Definition setTotals (cart : Cart) (discounted sub : jsnum) : Cart :=
  {| items := items cart; totalAmount := totalAmount cart;
     discountedAmount := Some discounted; subTotal := Some sub |}.

Definition setItems (cart : Cart) (its : list CartItem) : Cart :=
  {| items := its; totalAmount := totalAmount cart;
     discountedAmount := discountedAmount cart; subTotal := subTotal cart |}.

(** [if (!item.appliedCouponIds) item.appliedCouponIds = [];
     item.appliedCouponIds.push(id)] *)
Definition pushCouponId (ids : option (list string)) (couponId : string)
  : option (list string) :=
  match ids with
  | Some l => Some (l ++ [couponId])
  | None => Some [couponId]
  end.

(** The loop [for (const coupon of coupons) { ...continue... push }]:
    [step] is one iteration, [None] standing for [continue]. *)
Fixpoint collect {A B : Type} (step : A -> option B) (l : list A) : list B :=
  match l with
  | [] => []
  | x :: rest =>
      match step x with
      | Some y => y :: collect step rest
      | None => collect step rest
      end
  end.

(** ** The strategy interface (handlers/couponInterface.ts) *)

Record CouponStrategy : Type := mkStrategy {
  isApplicable : Cart -> list Coupon.t -> outcome (list ApplicableCoupons.t);
  calculateDiscount : Cart -> Coupon.t -> outcome jsnum;
  applyDiscount : Cart -> Coupon.t -> outcome Cart
}.

(** ** CartWiseHandler (handlers/cartwise.handler.ts)

    The repository holds a second revision whose [isApplicable] also skips
    inactive and expired coupons; [calculateDiscount] and [applyDiscount]
    are the same in both. *)

Module CartWiseHandler.

Definition calculateDiscount (cart : Cart) (coupon : Coupon.t) : Z :=
  match Coupon.discountDetails coupon with
  | percentage _ maxDiscount =>
      let calculatedDiscount := totalAmount cart / 100 in
      if JS.truthy maxDiscount
      then Z.min (default 0 maxDiscount) calculatedDiscount
      else calculatedDiscount
  | fixed value => value
  | _ => 0
  end.

(** One iteration of the loop of [isApplicable]. *)
Definition candidate (cart : Cart) (coupon : Coupon.t)
  : option ApplicableCoupons.t :=
  let totalAmount := totalAmount cart in
  let rejected :=
    match asCartWise (Coupon.conditions coupon) with
    | Some conditions =>
        (totalAmount <? minCartValue conditions)
        || (JS.truthy (maxCartValue conditions)
            && (default 0 (maxCartValue conditions) <? totalAmount))
        || (JS.truthy (minItems conditions)
            && (Z.of_nat (length (items cart)) <? default 0 (minItems conditions)))
    | None => false
    end in
  if rejected then None
  else
    let discount := calculateDiscount cart coupon in
    if discount <=? 0 then None
    else Some {| ApplicableCoupons.id := Coupon.id coupon;
                 ApplicableCoupons.discount := Num discount;
                 ApplicableCoupons.type := "cart" |}.

Definition isApplicable (cart : Cart) (coupons : list Coupon.t)
  : list ApplicableCoupons.t :=
  match items cart with
  | [] => []
  | _ => collect (candidate cart) coupons
  end.

Definition applyDiscount (cart : Cart) (coupon : Coupon.t) : Cart :=
  let discount := calculateDiscount cart coupon in
  setTotals cart (Num discount) (Num (totalAmount cart - discount)).

Definition strategy : CouponStrategy :=
  mkStrategy
    (fun cart coupons => Returns (isApplicable cart coupons))
    (fun cart coupon => Returns (Num (calculateDiscount cart coupon)))
    (fun cart coupon => Returns (applyDiscount cart coupon)).

End CartWiseHandler.

(** ** ProductWiseHandler (handlers/productwise.handler.ts)

    The repository holds two revisions of this handler.  They differ in one
    point only, the test that decides whether a cart item is concerned by the
    coupon: one revision looks at [conditions.productIds] alone, the other
    one also at [conditions.categories].  Both are embedded, selected by
    [revision]. *)

Module ProductWiseHandler.

Inductive revision : Type :=
| ProductIdsOnly
| ProductIdsOrCategories.

(** [conditions.productIds && conditions.productIds.includes(item.product_id)] *)
Definition isProductMatch (conditions : option ProductWiseConditions)
    (item : CartItem) : bool :=
  match conditions with
  | Some c =>
      match productIds c with
      | Some ids => JS.includes ids (product_id item)
      | None => false
      end
  | None => false
  end.

(** [conditions.categories && item.category &&
     conditions.categories.includes(item.category)] *)
Definition isCategoryMatch (conditions : option ProductWiseConditions)
    (item : CartItem) : bool :=
  match conditions with
  | Some c =>
      match categories c with
      | Some cats =>
          JS.truthyString (category item)
          && JS.includes cats (default "" (category item))
      | None => false
      end
  | None => false
  end.

Definition matched (rev : revision) (conditions : option ProductWiseConditions)
    (item : CartItem) : bool :=
  match rev with
  | ProductIdsOnly => isProductMatch conditions item
  | ProductIdsOrCategories =>
      isProductMatch conditions item || isCategoryMatch conditions item
  end.

(** The discount of one concerned item, as both [calculateDiscount] and
    [applyDiscount] compute it. *)
Definition itemDiscount (discountDetails : DiscountDetails) (item : CartItem) : Z :=
  let itemTotal := price item * quantity item in
  match discountDetails with
  | percentage value maxDiscount =>
      let d := (itemTotal * value) / 100 in
      if JS.truthy maxDiscount then Z.min d (default 0 maxDiscount) else d
  | fixed value => value * quantity item
  | _ => 0
  end.

Definition calculateDiscount (rev : revision) (cart : Cart) (coupon : Coupon.t) : Z :=
  let conditions := asProductWise (Coupon.conditions coupon) in
  let discountDetails := Coupon.discountDetails coupon in
  fold_left
    (fun totalDiscount item =>
       if matched rev conditions item
       then totalDiscount + itemDiscount discountDetails item
       else totalDiscount)
    (items cart) 0.

(** The inner loop of [isApplicable]:
    [(hasApplicableProducts, totalQuantityOfApplicableProducts)]. *)
Definition scanItems (rev : revision) (conditions : option ProductWiseConditions)
    (its : list CartItem) : bool * Z :=
  fold_left
    (fun acc item =>
       if matched rev conditions item
       then (true, snd acc + quantity item)
       else acc)
    its (false, 0).

Definition candidate (rev : revision) (cart : Cart) (coupon : Coupon.t)
  : option ApplicableCoupons.t :=
  let conditions := asProductWise (Coupon.conditions coupon) in
  let '(hasApplicableProducts, totalQuantityOfApplicableProducts) :=
    scanItems rev conditions (items cart) in
  let minQ := conditions ≫= minQuantity in
  if negb hasApplicableProducts then None
  else if JS.truthy minQ
          && (totalQuantityOfApplicableProducts <? default 0 minQ) then None
  else
    let discount := calculateDiscount rev cart coupon in
    if discount <=? 0 then None
    else Some {| ApplicableCoupons.id := Coupon.id coupon;
                 ApplicableCoupons.discount := Num discount;
                 ApplicableCoupons.type := "product" |}.

Definition isApplicable (rev : revision) (cart : Cart) (coupons : list Coupon.t)
  : list ApplicableCoupons.t :=
  match items cart with
  | [] => []
  | _ => collect (candidate rev cart) coupons
  end.

(** The writes of [applyDiscount] to one concerned item. *)
Definition discountItem (discountDetails : DiscountDetails) (couponId : string)
    (item : CartItem) : CartItem :=
  let itemTotal := price item * quantity item in
  let d := itemDiscount discountDetails item in
  {| product_id := product_id item; quantity := quantity item;
     price := price item; category := category item;
     total_discount := Some (Num d);
     final_price := Some (Num (itemTotal - d));
     freeQuantity := freeQuantity item;
     appliedCouponIds := pushCouponId (appliedCouponIds item) couponId |}.

(** The loop of [applyDiscount]: the items after the loop and the
    accumulated [totalDiscount]. *)
Fixpoint applyItems (rev : revision) (conditions : option ProductWiseConditions)
    (discountDetails : DiscountDetails) (couponId : string)
    (its : list CartItem) (totalDiscount : Z) : list CartItem * Z :=
  match its with
  | [] => ([], totalDiscount)
  | item :: rest =>
      if matched rev conditions item then
        let r := applyItems rev conditions discountDetails couponId rest
                   (totalDiscount + itemDiscount discountDetails item) in
        (discountItem discountDetails couponId item :: fst r, snd r)
      else
        let r := applyItems rev conditions discountDetails couponId rest
                   totalDiscount in
        (item :: fst r, snd r)
  end.

Definition applyDiscount (rev : revision) (cart : Cart) (coupon : Coupon.t) : Cart :=
  let conditions := asProductWise (Coupon.conditions coupon) in
  let r := applyItems rev conditions (Coupon.discountDetails coupon)
             (Coupon.id coupon) (items cart) 0 in
  setTotals (setItems cart (fst r)) (Num (snd r))
    (Num (totalAmount cart - snd r)).

Definition strategy (rev : revision) : CouponStrategy :=
  mkStrategy
    (fun cart coupons => Returns (isApplicable rev cart coupons))
    (fun cart coupon => Returns (Num (calculateDiscount rev cart coupon)))
    (fun cart coupon => Returns (applyDiscount rev cart coupon)).

End ProductWiseHandler.

(** ** BxGyHandler (handlers/BxGy.handler.ts) *)

Module BxGyHandler.

Record params : Type := {
  requiredBuyQuantity : Z;
  totalBuyQuantityInCart : Z;
  actualRepetitions : jsnum;
  requiredGetQuantity : Z
}.

(** [cart.items.find(item => item.product_id === productId)] *)
Definition findItem (its : list CartItem) (productId : string) : option CartItem :=
  List.find (fun item => String.eqb (product_id item) productId) its.

(** [products.reduce((sum, p) => sum + p.quantity, 0)] *)
Definition sumQuantity (products : list BxGyProduct.t) : Z :=
  fold_left (fun sum p => sum + BxGyProduct.quantity p) products 0.

(** The loops that add up the cart quantity of the listed products. *)
Definition quantityInCart (its : list CartItem) (products : list BxGyProduct.t) : Z :=
  fold_left
    (fun total p =>
       match findItem its (BxGyProduct.productId p) with
       | Some cartItem => total + quantity cartItem
       | None => total
       end)
    products 0.

Definition calculateBxGyParams (cart : Cart) (conditions : BxGyConditions) : params :=
  let requiredBuyQuantity := sumQuantity (buyProducts conditions) in
  let totalBuyQuantityInCart := quantityInCart (items cart) (buyProducts conditions) in
  let maxPossibleRepetitions :=
    JS.floorDiv totalBuyQuantityInCart requiredBuyQuantity in
  let actualRepetitions :=
    JS.min maxPossibleRepetitions (Num (repetitionLimit conditions)) in
  let requiredGetQuantity := sumQuantity (getProducts conditions) in
  {| requiredBuyQuantity := requiredBuyQuantity;
     totalBuyQuantityInCart := totalBuyQuantityInCart;
     actualRepetitions := actualRepetitions;
     requiredGetQuantity := requiredGetQuantity |}.

(** The loop of [calculateDiscount] over [getProducts], from the state
    [(totalDiscount, remainingFreeQuantity)]. *)
Fixpoint discountLoop (its : list CartItem) (gets : list BxGyProduct.t)
    (totalDiscount remainingFreeQuantity : jsnum) : jsnum :=
  match gets with
  | [] => totalDiscount
  | getProduct :: rest =>
      if JS.isZero remainingFreeQuantity then totalDiscount
      else
        match findItem its (BxGyProduct.productId getProduct) with
        | None => discountLoop its rest totalDiscount remainingFreeQuantity
        | Some cartItem =>
            let freeQuantity :=
              JS.min (Num (quantity cartItem)) remainingFreeQuantity in
            discountLoop its rest
              (JS.add totalDiscount (JS.mul freeQuantity (Num (price cartItem))))
              (JS.sub remainingFreeQuantity freeQuantity)
        end
  end.

(** [calculateDiscount] once [coupon.conditions] is read. *)
Definition discountOf (cart : Cart) (conditions : BxGyConditions) : jsnum :=
  let params := calculateBxGyParams cart conditions in
  if JS.isZero (actualRepetitions params) then Num 0
  else
    JS.floor
      (discountLoop (items cart) (getProducts conditions) (Num 0)
         (JS.mul (actualRepetitions params) (Num (requiredGetQuantity params)))).

(** Reading [conditions.buyProducts.reduce] on a payload of another shape
    throws. *)
Definition typeError : string :=
  "TypeError: Cannot read properties of undefined (reading 'reduce')".

Definition bxgyConditions (coupon : Coupon.t) : outcome BxGyConditions :=
  match asBxGy (Coupon.conditions coupon) with
  | Some c => Returns c
  | None => Throws typeError
  end.

Definition calculateDiscount (cart : Cart) (coupon : Coupon.t) : outcome jsnum :=
  let* conditions := bxgyConditions coupon in
  Returns (discountOf cart conditions).

(** One iteration of the loop of [isApplicable]. *)
Definition candidate (cart : Cart) (coupon : Coupon.t) (conditions : BxGyConditions)
  : option ApplicableCoupons.t :=
  let params := calculateBxGyParams cart conditions in
  if totalBuyQuantityInCart params <? requiredBuyQuantity params then None
  else if JS.isZero (actualRepetitions params) then None
  else
    let totalGetQuantityInCart :=
      quantityInCart (items cart) (getProducts conditions) in
    let freeQuantity :=
      JS.min (Num totalGetQuantityInCart)
        (JS.mul (actualRepetitions params) (Num (requiredGetQuantity params))) in
    if JS.isZero freeQuantity then None
    else
      let discount := discountOf cart conditions in
      if JS.leZero discount then None
      else Some {| ApplicableCoupons.id := Coupon.id coupon;
                   ApplicableCoupons.discount := discount;
                   ApplicableCoupons.type := "BxGy" |}.

Fixpoint candidates (cart : Cart) (coupons : list Coupon.t)
  : outcome (list ApplicableCoupons.t) :=
  match coupons with
  | [] => Returns []
  | coupon :: rest =>
      let* conditions := bxgyConditions coupon in
      let* applicable := candidates cart rest in
      Returns (match candidate cart coupon conditions with
               | Some a => a :: applicable
               | None => applicable
               end)
  end.

Definition isApplicable (cart : Cart) (coupons : list Coupon.t)
  : outcome (list ApplicableCoupons.t) :=
  match items cart with
  | [] => Returns []
  | _ => candidates cart coupons
  end.

(** The writes of [applyDiscount] to the cart item of a get product. *)
Definition grant (freeQty itemDiscount : jsnum) (couponId : string)
    (cartItem : CartItem) : CartItem :=
  {| product_id := product_id cartItem; quantity := quantity cartItem;
     price := price cartItem; category := category cartItem;
     total_discount := Some (JS.floor itemDiscount);
     final_price :=
       Some (JS.sub (Num (quantity cartItem * price cartItem))
               (JS.floor itemDiscount));
     freeQuantity := Some freeQty;
     appliedCouponIds := pushCouponId (appliedCouponIds cartItem) couponId |}.

(** Mutation of the object that [find] returned: the first item of the
    cart with this product identifier. *)
Fixpoint updateFirst (productId : string) (f : CartItem -> CartItem)
    (its : list CartItem) : list CartItem :=
  match its with
  | [] => []
  | item :: rest =>
      if String.eqb (product_id item) productId then f item :: rest
      else item :: updateFirst productId f rest
  end.

(** The loop of [applyDiscount]: the items after the loop and the
    accumulated [totalDiscount]. *)
Fixpoint applyLoop (couponId : string) (gets : list BxGyProduct.t)
    (its : list CartItem) (totalDiscount remainingFreeQuantity : jsnum)
  : list CartItem * jsnum :=
  match gets with
  | [] => (its, totalDiscount)
  | getProduct :: rest =>
      if JS.isZero remainingFreeQuantity then (its, totalDiscount)
      else
        match findItem its (BxGyProduct.productId getProduct) with
        | None => applyLoop couponId rest its totalDiscount remainingFreeQuantity
        | Some cartItem =>
            let freeQty :=
              JS.min (Num (quantity cartItem)) remainingFreeQuantity in
            let itemDiscount := JS.mul freeQty (Num (price cartItem)) in
            applyLoop couponId rest
              (updateFirst (BxGyProduct.productId getProduct)
                 (grant freeQty itemDiscount couponId) its)
              (JS.add totalDiscount itemDiscount)
              (JS.sub remainingFreeQuantity freeQty)
        end
  end.

(** [applyDiscount] once [coupon.conditions] is read. *)
Definition applyTo (cart : Cart) (couponId : string) (conditions : BxGyConditions)
  : Cart :=
  let params := calculateBxGyParams cart conditions in
  if JS.isZero (actualRepetitions params) then cart
  else
    let r := applyLoop couponId (getProducts conditions) (items cart) (Num 0)
               (JS.mul (actualRepetitions params)
                  (Num (requiredGetQuantity params))) in
    let discounted := JS.floor (snd r) in
    setTotals (setItems cart (fst r)) discounted
      (JS.sub (Num (totalAmount cart)) discounted).

Definition applyDiscount (cart : Cart) (coupon : Coupon.t) : outcome Cart :=
  let* conditions := bxgyConditions coupon in
  Returns (applyTo cart (Coupon.id coupon) conditions).

Definition strategy : CouponStrategy :=
  mkStrategy isApplicable calculateDiscount applyDiscount.

End BxGyHandler.

(** ** CartFactory (handlers/CartFactory.ts) *)

Module CartFactory.

Definition getStrategy (rev : ProductWiseHandler.revision) (type : string)
  : option CouponStrategy :=
  if String.eqb type "" then None
  else if String.eqb type "cart" then Some CartWiseHandler.strategy
  else if String.eqb type "product" then Some (ProductWiseHandler.strategy rev)
  else if String.eqb type "BxGy" then Some BxGyHandler.strategy
  else None.

End CartFactory.

(** ** CartService (services/cart.service.ts) *)

Module CartService.

(** *** The coupon gate *)

(** [coupon.expiryDate && new Date(coupon.expiryDate) < new Date()];
    [now] is the instant of the evaluation. *)
Definition expired (now : Z) (coupon : Coupon.t) : bool :=
  match Coupon.expiryDate coupon with
  | Some expiry => expiry <? now
  | None => false
  end.

(** [coupon.usageLimit && coupon.usedCount >= coupon.usageLimit] *)
Definition usageLimitReached (coupon : Coupon.t) : bool :=
  JS.truthy (Coupon.usageLimit coupon)
  && (default 0 (Coupon.usageLimit coupon) <=? Coupon.usedCount coupon).

Definition gate (now : Z) (coupon : Coupon.t) : bool :=
  if negb (Coupon.isActive coupon) then false
  else if expired now coupon then false
  else if usageLimitReached coupon then false
  else true.

(** [coupon.type === 'Product' ? 'product' : coupon.type] *)
Definition strategyType (coupon : Coupon.t) : string :=
  if String.eqb (Coupon.type coupon) "Product" then "product"
  else Coupon.type coupon.

(** *** Grouping by type

    [couponsByType] is an object literal with the own keys [cart],
    [product] and [BxGy], in this order.  Reading [couponsByType[type]]
    walks the prototype chain: for the name of a member of
    [Object.prototype] it yields that member, which is truthy and has no
    [push]. *)
Definition objectPrototypeProperties : list string :=
  [ "constructor"; "__proto__"; "hasOwnProperty"; "isPrototypeOf";
    "propertyIsEnumerable"; "toLocaleString"; "toString"; "valueOf";
    "__defineGetter__"; "__defineSetter__"; "__lookupGetter__";
    "__lookupSetter__" ].

Inductive property : Type :=
| Own (coupons : list Coupon.t)
| Inherited
| Undefined.

Definition initialGroups : list (string * list Coupon.t) :=
  [ ("cart", []); ("product", []); ("BxGy", []) ].

Definition getProperty (couponsByType : list (string * list Coupon.t))
    (type : string) : property :=
  match List.find (fun entry => String.eqb (fst entry) type) couponsByType with
  | Some entry => Own (snd entry)
  | None =>
      if JS.includes objectPrototypeProperties type then Inherited
      else Undefined
  end.

(** [couponsByType[type].push(coupon)] on an own key *)
Definition pushCoupon (type : string) (coupon : Coupon.t)
    (couponsByType : list (string * list Coupon.t))
  : list (string * list Coupon.t) :=
  List.map
    (fun entry =>
       if String.eqb (fst entry) type then (fst entry, snd entry ++ [coupon])
       else entry)
    couponsByType.

Definition pushError : string :=
  "TypeError: couponsByType[type].push is not a function".

Fixpoint groupByType (activeCoupons : list Coupon.t)
    (couponsByType : list (string * list Coupon.t))
  : outcome (list (string * list Coupon.t)) :=
  match activeCoupons with
  | [] => Returns couponsByType
  | coupon :: rest =>
      let type := strategyType coupon in
      match getProperty couponsByType type with
      | Own _ => groupByType rest (pushCoupon type coupon couponsByType)
      | Inherited => Throws pushError
      | Undefined => groupByType rest couponsByType
      end
  end.

(** *** Dispatch: the loop over [Object.entries(couponsByType)] *)
Fixpoint dispatch (rev : ProductWiseHandler.revision) (cart : Cart)
    (entries : list (string * list Coupon.t))
    (applicableCoupons : list ApplicableCoupons.t)
  : outcome (list ApplicableCoupons.t) :=
  match entries with
  | [] => Returns applicableCoupons
  | (type, coupons) :: rest =>
      match coupons with
      | [] => dispatch rev cart rest applicableCoupons
      | _ =>
          match CartFactory.getStrategy rev type with
          | None => dispatch rev cart rest applicableCoupons
          | Some strategy =>
              let* applicable := isApplicable strategy cart coupons in
              dispatch rev cart rest (applicableCoupons ++ applicable)
          end
      end
  end.

(** *** Ranking

    [applicableCoupons.sort((a, b) => b.discount - a.discount)].
    [Array.prototype.sort] is stable, so on discounts that the comparator
    orders consistently the result is the stable arrangement, which
    insertion from the right computes.  A comparator result [NaN] counts
    as [0]; with such a result the comparator is not consistent and the
    arrangement of the engine is its own, so the properties that depend
    on the order assume discounts that are numbers. *)
Definition compareFn (a b : ApplicableCoupons.t) : jsnum :=
  JS.sub (ApplicableCoupons.discount b) (ApplicableCoupons.discount a).

Fixpoint insertSorted (x : ApplicableCoupons.t) (sorted : list ApplicableCoupons.t)
  : list ApplicableCoupons.t :=
  match sorted with
  | [] => [x]
  | y :: rest =>
      if JS.gtZero (compareFn x y) then y :: insertSorted x rest
      else x :: sorted
  end.

Definition sort (l : list ApplicableCoupons.t) : list ApplicableCoupons.t :=
  fold_right insertSorted [] l.

(** [allCoupons] is what [getAllCoupons] resolved to. *)
Definition findApplicableCoupons (rev : ProductWiseHandler.revision) (now : Z)
    (allCoupons : list Coupon.t) (cart : Cart)
  : outcome (list ApplicableCoupons.t) :=
  let activeCoupons := List.filter (gate now) allCoupons in
  let* couponsByType := groupByType activeCoupons initialGroups in
  let* applicableCoupons := dispatch rev cart couponsByType [] in
  Returns (sort applicableCoupons).

(** *** Application

    The state a call of [applyCoupon] works on: the key-value backend, the
    cart object the caller passed, and the log of what was done to
    them. *)
Inductive event : Type :=
| ApplyDiscountCalled (couponId : string)
| RedisSet (key : string) (value : Coupon.t).

Record world : Type := {
  redis : gmap string Coupon.t;
  cartObject : Cart;
  log : list event
}.

Definition couponKey (id : string) : string := "coupon:" +:+ id.

Definition getCouponById (store : gmap string Coupon.t) (id : string)
  : option Coupon.t :=
  store !! couponKey id.

(** [updateCoupon]: a write only where the key is present. *)
Definition updateCoupon (w : world) (id : string) (coupon : Coupon.t) : world :=
  match getCouponById (redis w) id with
  | None => w
  | Some _ =>
      {| redis := <[couponKey id := coupon]> (redis w);
         cartObject := cartObject w;
         log := log w ++ [RedisSet (couponKey id) coupon] |}
  end.

Definition notFound (couponId : string) : string :=
  "Coupon with ID " +:+ couponId +:+ " not found".
Definition notActive : string := "Coupon is not active".
Definition hasExpired : string := "Coupon has expired".
Definition usageLimitExceeded : string := "Coupon usage limit exceeded".
Definition invalidType (type : string) : string :=
  "Invalid coupon type: " +:+ type.
Definition notApplicable : string := "Coupon is not applicable to this cart".

(** The cart object after [strategy.applyDiscount] ran on it. *)
Definition discountApplied (w : world) (couponId : string) (updatedCart : Cart)
  : world :=
  {| redis := redis w; cartObject := updatedCart;
     log := log w ++ [ApplyDiscountCalled couponId] |}.

Definition applyCoupon (rev : ProductWiseHandler.revision) (now : Z)
    (couponId : string) (w : world) : outcome Cart * world :=
  match getCouponById (redis w) couponId with
  | None => (Throws (notFound couponId), w)
  | Some coupon =>
      if negb (Coupon.isActive coupon) then (Throws notActive, w)
      else if expired now coupon then (Throws hasExpired, w)
      else if usageLimitReached coupon then (Throws usageLimitExceeded, w)
      else
        match CartFactory.getStrategy rev (strategyType coupon) with
        | None => (Throws (invalidType (Coupon.type coupon)), w)
        | Some strategy =>
            match isApplicable strategy (cartObject w) [coupon] with
            | Throws e => (Throws e, w)
            | Returns [] => (Throws notApplicable, w)
            | Returns (_ :: _) =>
                match applyDiscount strategy (cartObject w) coupon with
                | Throws e => (Throws e, w)
                | Returns updatedCart =>
                    let w1 := discountApplied w (Coupon.id coupon) updatedCart in
                    let coupon' :=
                      Coupon.withUsedCount coupon (Coupon.usedCount coupon + 1) in
                    (Returns updatedCart, updateCoupon w1 couponId coupon')
                end
            end
        end
  end.

(** [calculateCartTotal] *)
Definition calculateCartTotal (cart : Cart) : Z :=
  fold_left (fun total item => total + price item * quantity item)
    (items cart) 0.

End CartService.

(** ** CartService: the operations on the coupon store

    [createCoupon], [getAllCoupons], [updateCoupon] and [deleteCoupon] over
    the key-value backend; [JSON.stringify] and [JSON.parse] are taken as
    inverse to each other.  [getAllCoupons] is the revision that reads
    [keys('coupon:*')] and then every key; the order of the keys is the
    backend's. *)

Module CouponStore.

Definition createCoupon (store : gmap string Coupon.t) (coupon : Coupon.t)
  : Coupon.t * gmap string Coupon.t :=
  (coupon, <[CartService.couponKey (Coupon.id coupon) := coupon]> store).

(** [keys('coupon:*')] *)
Definition couponKeys (store : gmap string Coupon.t) : list (string * Coupon.t) :=
  List.filter (fun entry => String.prefix "coupon:" (fst entry))
    (map_to_list store).

Definition getAllCoupons (store : gmap string Coupon.t) : list Coupon.t :=
  List.map snd (couponKeys store).

Definition updateCoupon (store : gmap string Coupon.t) (id : string)
    (coupon : Coupon.t) : option Coupon.t * gmap string Coupon.t :=
  match CartService.getCouponById store id with
  | None => (None, store)
  | Some _ => (Some coupon, <[CartService.couponKey id := coupon]> store)
  end.

(** [del(key)] answers the number of keys it removed. *)
Definition deleteCoupon (store : gmap string Coupon.t) (id : string)
  : bool * gmap string Coupon.t :=
  match store !! CartService.couponKey id with
  | Some _ => (true, delete (CartService.couponKey id) store)
  | None => (false, store)
  end.

End CouponStore.

(** ** CartWiseHandler, the revision with the checks in the loop

    [isApplicable] of this revision skips inactive and expired coupons
    itself, before the checks that the other revision makes. *)

Module CartWiseHandlerInline.

Definition candidate (now : Z) (cart : Cart) (coupon : Coupon.t)
  : option ApplicableCoupons.t :=
  if negb (Coupon.isActive coupon) then None
  else if CartService.expired now coupon then None
  else CartWiseHandler.candidate cart coupon.

Definition isApplicable (now : Z) (cart : Cart) (coupons : list Coupon.t)
  : list ApplicableCoupons.t :=
  match items cart with
  | [] => []
  | _ => collect (candidate now cart) coupons
  end.

End CartWiseHandlerInline.

(** ** CartService.getAllCoupons, the revision that pops the list [keys]

    This revision reads [keys('*')] once and then, in a [do ... while]
    loop on the length of that array, pops the backend list named [keys]
    and reads the key it popped.  The backend holds a string (a stored
    coupon) or a list under a key; a command on a value of the other kind is
    refused.  [fuel] bounds the number of iterations that are run. *)

Module GetAllCouponsLpop.

Inductive value : Type :=
| StringValue (coupon : Coupon.t)
| ListValue (elements : list string).

Definition wrongType : string :=
  "WRONGTYPE Operation against a key holding the wrong kind of value".

(** [lpop(key)]: the backend removes a list that becomes empty. *)
Definition lpop (backend : gmap string value) (key : string)
  : outcome (option string * gmap string value) :=
  match backend !! key with
  | None => Returns (None, backend)
  | Some (StringValue _) => Throws wrongType
  | Some (ListValue []) => Returns (None, backend)
  | Some (ListValue [element]) => Returns (Some element, delete key backend)
  | Some (ListValue (element :: rest)) =>
      Returns (Some element, <[key := ListValue rest]> backend)
  end.

(** [get(key)] *)
Definition get (backend : gmap string value) (key : string)
  : outcome (option Coupon.t) :=
  match backend !! key with
  | None => Returns None
  | Some (StringValue coupon) => Returns (Some coupon)
  | Some (ListValue _) => Throws wrongType
  end.

(** The body of the loop. *)
Definition body (backend : gmap string value) (coupons : list Coupon.t)
  : outcome (list Coupon.t * gmap string value) :=
  let* popped := lpop backend "keys" in
  match fst popped with
  | Some key =>
      if String.eqb key "" then Returns (coupons, snd popped)
      else
        let* data := get (snd popped) key in
        match data with
        | Some coupon => Returns (coupons ++ [coupon], snd popped)
        | None => Returns (coupons, snd popped)
        end
  | None => Returns (coupons, snd popped)
  end.

Inductive run (A : Type) : Type :=
| Finished (result : outcome A)
| StillRunning.
Arguments Finished {A} result.
Arguments StillRunning {A}.

(** [do { body } while (keys.length > 0)]: [keys] is never assigned. *)
Fixpoint loop (fuel : nat) (keys : list string) (backend : gmap string value)
    (coupons : list Coupon.t) : run (list Coupon.t * gmap string value) :=
  match fuel with
  | O => StillRunning
  | S fuel' =>
      match body backend coupons with
      | Throws e => Finished (Throws e)
      | Returns (coupons', backend') =>
          match keys with
          | [] => Finished (Returns (coupons', backend'))
          | _ :: _ => loop fuel' keys backend' coupons'
          end
      end
  end.

Definition getAllCoupons (fuel : nat) (backend : gmap string value)
  : run (list Coupon.t * gmap string value) :=
  loop fuel (List.map fst (map_to_list backend)) backend [].

End GetAllCouponsLpop.

(** ** Carts and coupons of the documented scenarios *)

Module Scenario.

Definition item (productId : string) (qty unitPrice : Z) (cat : option string)
  : CartItem :=
  {| product_id := productId; quantity := qty; price := unitPrice;
     category := cat; total_discount := None; final_price := None;
     freeQuantity := None; appliedCouponIds := None |}.

Definition cart (its : list CartItem) (total : Z) : Cart :=
  {| items := its; totalAmount := total;
     discountedAmount := None; subTotal := None |}.

Definition coupon (couponId type : string) (conditions : CouponConditions)
    (details : DiscountDetails) : Coupon.t :=
  {| Coupon.id := couponId; Coupon.name := couponId; Coupon.type := type;
     Coupon.isActive := true; Coupon.expiryDate := None;
     Coupon.usageLimit := None; Coupon.usedCount := 0;
     Coupon.conditions := conditions; Coupon.discountDetails := details |}.

Definition minCart (least : Z) : CouponConditions :=
  CartWiseC {| minCartValue := least; maxCartValue := None; minItems := None |}.

Definition buyGet (buy get : list (string * Z)) (limit : Z) : CouponConditions :=
  let entry p := {| BxGyProduct.productId := fst p;
                    BxGyProduct.quantity := snd p |} in
  BxGyC {| buyProducts := List.map entry buy;
           getProducts := List.map entry get;
           repetitionLimit := limit |}.

(** Scenario A: a cart of 500 and "10% off above 100". *)
Definition cartA : Cart := cart [item "P1" 1 500 None] 500.
Definition save10 : Coupon.t :=
  coupon "SAVE10" "cart" (minCart 100) (percentage 10 None).

(** A cart of 400 and "500 off". *)
Definition cart400 : Cart := cart [item "P1" 1 400 None] 400.
Definition flat500 : Coupon.t :=
  coupon "FLAT500" "cart" (minCart 0) (fixed 500).

(** A cart of 500 and "50 off". *)
Definition flat50 : Coupon.t :=
  coupon "FLAT50" "cart" (minCart 0) (fixed 50).

(** Scenario C: one laptop and "20% off Electronics". *)
Definition cartC : Cart :=
  cart [item "LAPTOP_001" 1 50000 (Some "Electronics")] 50000.
Definition laptop20 : Coupon.t :=
  coupon "LAPTOP20" "Product"
    (ProductWiseC {| productIds := None;
                     categories := Some ["Electronics"];
                     minQuantity := None |})
    (percentage 20 None).

(** Scenario D: buy 2 of A, get 1 of B, at most twice; A x 5 and B x 1. *)
Definition cartD : Cart :=
  cart [item "A" 5 100 None; item "B" 1 30 None] 530.
Definition buy2get1 : Coupon.t :=
  coupon "B2G1" "BxGy" (buyGet [("A", 2)] [("B", 1)] 2) freeProduct.

(** A buy requirement whose quantities add up to zero. *)
Definition buy0get1 : Coupon.t :=
  coupon "B0G1" "BxGy" (buyGet [("A", 0)] [("B", 1)] 1) freeProduct.
Definition buyNothing : Coupon.t :=
  coupon "NOBUY" "BxGy" (buyGet [] [("B", 1)] 1) freeProduct.

(** A stored coupon whose type tag is no strategy. *)
Definition unknownTag : Coupon.t :=
  coupon "U1" "voucher" (minCart 0) (fixed 50).
Definition constructorTag : Coupon.t :=
  coupon "U2" "constructor" (minCart 0) (fixed 50).

End Scenario.

(** * Vocabulary of the properties *)

(** ** What the loops of [BxGyHandler] read

    The product identifier, the quantity and the price of a cart item;
    [applyDiscount] writes none of the three. *)
Definition goods (item : CartItem) : string * Z * Z :=
  (product_id item, quantity item, price item).

(** ** Buy-X-get-Y: the algorithm in the words of the specification *)

Module BxGySpec.

(** The cart item of a product: its quantity and unit price, 0 if the
    product is absent. *)
Definition cartQuantity (its : list CartItem) (productId : string) : Z :=
  match List.find (fun item => String.eqb (product_id item) productId) its with
  | Some item => quantity item
  | None => 0
  end.

Definition unitPrice (its : list CartItem) (productId : string) : Z :=
  match List.find (fun item => String.eqb (product_id item) productId) its with
  | Some item => price item
  | None => 0
  end.

Fixpoint total {A : Type} (f : A -> Z) (l : list A) : Z :=
  match l with
  | [] => 0
  | x :: rest => f x + total f rest
  end.

Definition requiredBuyQty (c : BxGyConditions) : Z :=
  total BxGyProduct.quantity (buyProducts c).

Definition totalBuyQtyInCart (cart : Cart) (c : BxGyConditions) : Z :=
  total (fun p => cartQuantity (items cart) (BxGyProduct.productId p))
    (buyProducts c).

Definition maxRepetitions (cart : Cart) (c : BxGyConditions) : Z :=
  totalBuyQtyInCart cart c / requiredBuyQty c.

Definition actualRepetitions (cart : Cart) (c : BxGyConditions) : Z :=
  Z.min (maxRepetitions cart c) (repetitionLimit c).

Definition requiredGetQty (c : BxGyConditions) : Z :=
  total BxGyProduct.quantity (getProducts c).

Definition entitlement (cart : Cart) (c : BxGyConditions) : Z :=
  actualRepetitions cart c * requiredGetQty c.

(** The free quantity of each get entry, in declared order. *)
Fixpoint distribute (its : list CartItem) (gets : list BxGyProduct.t)
    (remaining : Z) : list (string * Z) :=
  match gets with
  | [] => []
  | g :: rest =>
      let granted :=
        Z.min remaining (cartQuantity its (BxGyProduct.productId g)) in
      (BxGyProduct.productId g, granted)
        :: distribute its rest (remaining - granted)
  end.

Definition value (its : list CartItem) (grants : list (string * Z)) : Z :=
  total (fun g => snd g * unitPrice its (fst g)) grants.

Definition discount (cart : Cart) (c : BxGyConditions) : Z :=
  value (items cart)
    (distribute (items cart) (getProducts c) (entitlement cart c)).

End BxGySpec.

(** What the loop of [ProductWiseHandler.applyDiscount] does to one item. *)
Definition touch (rev : ProductWiseHandler.revision)
    (conditions : option ProductWiseConditions)
    (discountDetails : DiscountDetails) (couponId : string)
    (item : CartItem) : CartItem :=
  if ProductWiseHandler.matched rev conditions item
  then ProductWiseHandler.discountItem discountDetails couponId item
  else item.

(** ** Discovery *)

(** The coupons of one group: those whose strategy type is the key. *)
Definition ofType (key : string) (coupons : list Coupon.t) : list Coupon.t :=
  List.filter (fun coupon => String.eqb key (CartService.strategyType coupon)) coupons.

(** The coupons that carry one of the given type tags.  The tags of the
    coupon type are [cart], [Product] and [BxGy]; the product strategy is
    registered under [product]. *)
Definition withTag (tags : list string) (coupons : list Coupon.t)
  : list Coupon.t :=
  List.filter (fun coupon => JS.includes tags (Coupon.type coupon)) coupons.

(** Two outcomes of discovery that agree up to the order of the
    candidates. *)
Definition sameCandidates (o1 o2 : outcome (list ApplicableCoupons.t)) : Prop :=
  match o1, o2 with
  | Returns l1, Returns l2 => Permutation l1 l2
  | Throws e1, Throws e2 => e1 = e2
  | _, _ => False
  end.

(** A type tag that names a member of [Object.prototype] is none of the
    three keys. *)
Definition inheritedName (coupon : Coupon.t) : bool :=
  JS.includes CartService.objectPrototypeProperties (Coupon.type coupon).

(** The discount of a candidate is a number. *)
Definition finiteDiscount (a : ApplicableCoupons.t) : Prop :=
  exists z, ApplicableCoupons.discount a = Num z.

(** [a] is ranked before [b]: its discount is at least as large. *)
Definition discountGe (a b : ApplicableCoupons.t) : Prop :=
  match ApplicableCoupons.discount a, ApplicableCoupons.discount b with
  | Num x, Num y => y <= x
  | _, _ => False
  end.

(** A coupon of type BxGy with the payload of its type and a buy
    requirement that is not zero. *)
Definition wellFormedBxGy (coupon : Coupon.t) : Prop :=
  Coupon.type coupon = "BxGy" ->
  exists c, Coupon.conditions coupon = BxGyC c /\ BxGySpec.requiredBuyQty c <> 0.

(** ** The cart after [applyDiscount] *)

(** [subTotal = totalAmount - discountedAmount] *)
Definition settled (cart : Cart) : Prop :=
  exists d,
    discountedAmount cart = Some d
    /\ subTotal cart = Some (JS.sub (Num (totalAmount cart)) d).

(** [final_price = quantity * price - total_discount] *)
Definition priced (item : CartItem) : Prop :=
  exists d,
    total_discount item = Some d
    /\ final_price item = Some (JS.sub (Num (quantity item * price item)) d).

(** An item after the application: not touched, or touched and priced. *)
Definition written (old new : CartItem) : Prop :=
  new = old \/ (goods new = goods old /\ priced new).

(** What an item records, the list of applied coupon identifiers apart. *)
Definition amounts (item : CartItem) : CartItem :=
  {| product_id := product_id item; quantity := quantity item;
     price := price item; category := category item;
     total_discount := total_discount item; final_price := final_price item;
     freeQuantity := freeQuantity item; appliedCouponIds := None |}.

Definition cartAmounts (cart : Cart) : Cart :=
  setItems cart (List.map amounts (items cart)).

(** The specification's account of a second invocation: the cart records
    twice the discount of one invocation. *)
Definition doubleCounts (strategy : CouponStrategy) (cart : Cart)
    (coupon : Coupon.t) : Prop :=
  forall once d,
    applyDiscount strategy cart coupon = Returns once ->
    discountedAmount once = Some (Num d) ->
    0 < d ->
    exists twice,
      applyDiscount strategy once coupon = Returns twice
      /\ discountedAmount twice = Some (Num (2 * d)).

(** The writes [(product, freeQuantity, itemDiscount)] that the loop of
    [applyDiscount] performs, in order.  They depend on the goods only. *)
Fixpoint plan (its : list CartItem) (gets : list BxGyProduct.t)
    (remaining : jsnum) : list (string * jsnum * jsnum) :=
  match gets with
  | [] => []
  | getProduct :: rest =>
      if JS.isZero remaining then []
      else
        match BxGyHandler.findItem its (BxGyProduct.productId getProduct) with
        | None => plan its rest remaining
        | Some cartItem =>
            let freeQty := JS.min (Num (quantity cartItem)) remaining in
            (BxGyProduct.productId getProduct, freeQty,
             JS.mul freeQty (Num (price cartItem)))
              :: plan its rest (JS.sub remaining freeQty)
        end
  end.

Definition perform (id : string) (w : string * jsnum * jsnum)
    (its : list CartItem) : list CartItem :=
  BxGyHandler.updateFirst (fst (fst w))
    (BxGyHandler.grant (snd (fst w)) (snd w) id) its.

Definition performAll (id : string) (ws : list (string * jsnum * jsnum))
    (its : list CartItem) : list CartItem :=
  fold_left (fun l w => perform id w l) ws its.

(** ** Eligibility, in words *)

(** The checks of [CartWiseHandler.isApplicable] on the cart. *)
Definition cartWiseEligible (cart : Cart) (coupon : Coupon.t) : Prop :=
  forall c,
    Coupon.conditions coupon = CartWiseC c ->
    minCartValue c <= totalAmount cart
    /\ (forall most, maxCartValue c = Some most -> most <> 0 ->
        totalAmount cart <= most)
    /\ (forall least, minItems c = Some least -> least <> 0 ->
        least <= Z.of_nat (length (items cart))).

(** The quantity and the sub-total of the items a ProductScoped coupon is
    concerned with. *)
Fixpoint matchedQuantity (rev : ProductWiseHandler.revision)
    (conditions : option ProductWiseConditions) (its : list CartItem) : Z :=
  match its with
  | [] => 0
  | item :: rest =>
      if ProductWiseHandler.matched rev conditions item
      then quantity item + matchedQuantity rev conditions rest
      else matchedQuantity rev conditions rest
  end.

Fixpoint matchedSubtotal (rev : ProductWiseHandler.revision)
    (conditions : option ProductWiseConditions) (its : list CartItem) : Z :=
  match its with
  | [] => 0
  | item :: rest =>
      if ProductWiseHandler.matched rev conditions item
      then price item * quantity item + matchedSubtotal rev conditions rest
      else matchedSubtotal rev conditions rest
  end.

(** The checks of [ProductWiseHandler.isApplicable] on the cart. *)
Definition productWiseEligible (rev : ProductWiseHandler.revision) (cart : Cart)
    (coupon : Coupon.t) : Prop :=
  let conditions := asProductWise (Coupon.conditions coupon) in
  (exists item,
     In item (items cart)
     /\ ProductWiseHandler.matched rev conditions item = true)
  /\ (forall c least,
        Coupon.conditions coupon = ProductWiseC c ->
        minQuantity c = Some least -> least <> 0 ->
        least <= matchedQuantity rev conditions (items cart)).

(** ** The usage counters of the store *)

Definition withinLimit (coupon : Coupon.t) : Prop :=
  forall limit,
    Coupon.usageLimit coupon = Some limit -> limit <> 0 ->
    Coupon.usedCount coupon <= limit.

Definition storeWithinLimits (store : gmap string Coupon.t) : Prop :=
  forall key coupon, store !! key = Some coupon -> withinLimit coupon.

(** ** Coupons on which the two revisions of [ProductWiseHandler] agree

    The conditions list no categories, or no item of the cart carries
    one: the category test of the later revision cannot succeed. *)
Definition withoutCategories (cart : Cart) (coupon : Coupon.t) : Prop :=
  (forall c, Coupon.conditions coupon = ProductWiseC c -> categories c = None)
  \/ Forall (fun item => category item = None) (items cart).

(** ** Buy-X-get-Y coupons among the candidates

    The payload of the coupon has the shape that [BxGyHandler] reads, and
    one iteration of the loop of its [isApplicable] on such a coupon. *)
Definition hasBxGyPayload (coupon : Coupon.t) : bool :=
  match Coupon.conditions coupon with
  | BxGyC _ => true
  | _ => false
  end.

Definition bxgyCandidate (cart : Cart) (coupon : Coupon.t)
  : option ApplicableCoupons.t :=
  asBxGy (Coupon.conditions coupon) ≫= BxGyHandler.candidate cart coupon.

(** ** Items after an application, with bounds

    A cart item of non-negative price and quantity. *)
Definition nonNegative (item : CartItem) : Prop :=
  0 <= price item /\ 0 <= quantity item.

(** [Number.MAX_SAFE_INTEGER]: up to it the sums, products and floored
    quotients that the code computes in double precision are the exact
    ones. *)
Definition maxSafeInteger : Z := 2 ^ 53 - 1.

(** A cart and a Buy-X-get-Y payload on which [BxGyHandler] computes
    exactly: prices and quantities are not negative, the total of the lines,
    the quantities that [calculateBxGyParams] adds up and divides, and the
    largest entitlement are safe integers, and the buy requirement is above
    zero. *)
Definition exactBxGy (cart : Cart) (c : BxGyConditions) : Prop :=
  Forall nonNegative (items cart)
  /\ CartService.calculateCartTotal cart <= maxSafeInteger
  /\ Forall (fun p => 0 <= BxGyProduct.quantity p) (buyProducts c)
  /\ Forall (fun p => 0 <= BxGyProduct.quantity p) (getProducts c)
  /\ 0 < BxGyHandler.sumQuantity (buyProducts c)
  /\ BxGyHandler.quantityInCart (items cart) (buyProducts c)
     + BxGyHandler.sumQuantity (buyProducts c) <= maxSafeInteger
  /\ 0 <= repetitionLimit c
  /\ repetitionLimit c * BxGyHandler.sumQuantity (getProducts c)
     <= maxSafeInteger.

(** An item after [ProductWiseHandler.applyDiscount]: not touched, or
    discounted by an amount between nothing and the price of the line. *)
Definition discountedWithin (old new : CartItem) : Prop :=
  new = old
  \/ (goods new = goods old
      /\ exists d,
           0 <= d <= price old * quantity old
           /\ total_discount new = Some (Num d)
           /\ final_price new = Some (Num (price old * quantity old - d))).

(** An item after [BxGyHandler.applyDiscount]: not touched, or granted a
    free quantity between nothing and the quantity of the line, at the price
    of the line. *)
Definition grantedWithin (old new : CartItem) : Prop :=
  new = old
  \/ (goods new = goods old
      /\ exists free,
           0 <= free <= quantity old
           /\ freeQuantity new = Some (Num free)
           /\ total_discount new = Some (Num (free * price old))
           /\ final_price new
              = Some (Num (quantity old * price old - free * price old))).

(** ** The store keeps each coupon under its own identifier *)
Definition keyedById (store : gmap string Coupon.t) : Prop :=
  forall id coupon,
    CartService.getCouponById store id = Some coupon -> Coupon.id coupon = id.

(** * Properties *)

(** Case analysis on every guard of a loop body. *)
Ltac case_guards :=
  repeat match goal with
         | |- context [if ?b then _ else _] => destruct b
         end.


(** ** CartWide discount *)

Lemma cartwise_percentage_uncapped (cart : Cart) (coupon : Coupon.t) (rate : Z) :
  Coupon.discountDetails coupon = percentage rate None ->
  CartWiseHandler.calculateDiscount cart coupon = totalAmount cart / 100.
Proof.
  intros Hd. unfold CartWiseHandler.calculateDiscount. now rewrite Hd.
Qed.

(** C1. The specification asks for [floor(T * r / 100)]: 50 on a cart of 500
    under a 10% coupon, sub-total 450.  [CartWiseHandler.calculateDiscount]
    never reads the rate: it returns [floor(T / 100)], here 5, and the
    applied cart has sub-total 495. *)
Theorem cartwise_percentage_ignores_rate :
  CartWiseHandler.calculateDiscount Scenario.cartA Scenario.save10 = 5
  /\ 500 * 10 / 100 = 50
  /\ subTotal (CartWiseHandler.applyDiscount Scenario.cartA Scenario.save10)
     = Some (Num 495)
  /\ forall cart rate rate',
       CartWiseHandler.calculateDiscount cart
         (Scenario.coupon "C" "cart" (Scenario.minCart 0) (percentage rate None))
       = CartWiseHandler.calculateDiscount cart
           (Scenario.coupon "C" "cart" (Scenario.minCart 0) (percentage rate' None)).
Proof.
  repeat split; reflexivity.
Qed.

(** C2. The specification asks for a discount that never exceeds the amount
    it is taken from.  A fixed CartWide discount is returned as it is: 500 on a
    cart of 400, and the applied cart has the sub-total -100.  A fixed
    ProductScoped discount of 100 per unit on one mouse of 50 is 100. *)
Theorem cartwise_fixed_discount_not_clamped :
  CartWiseHandler.calculateDiscount Scenario.cart400 Scenario.flat500 = 500
  /\ totalAmount Scenario.cart400 = 400
  /\ CartWiseHandler.isApplicable Scenario.cart400 [Scenario.flat500]
     = [ {| ApplicableCoupons.id := "FLAT500";
            ApplicableCoupons.discount := Num 500;
            ApplicableCoupons.type := "cart" |} ]
  /\ subTotal (CartWiseHandler.applyDiscount Scenario.cart400 Scenario.flat500)
     = Some (Num (-100))
  /\ forall rev,
       ProductWiseHandler.calculateDiscount rev
         (Scenario.cart [Scenario.item "MOUSE" 1 50 None] 50)
         (Scenario.coupon "MOUSE100" "Product"
            (ProductWiseC {| productIds := Some ["MOUSE"]; categories := None;
                             minQuantity := None |})
            (fixed 100))
       = 100.
Proof.
  repeat split; try reflexivity. now intros [].
Qed.

(** ** Buy-X-get-Y: the loops depend on the goods only *)

Section BxGyGoods.

Import BxGyHandler.

Lemma findItem_goods (its its' : list CartItem) (productId : string) :
  List.map goods its = List.map goods its' ->
  option_map goods (findItem its productId)
  = option_map goods (findItem its' productId).
Proof.
  revert its'. induction its as [|a its IH]; intros [|b its'] Heq;
    try discriminate; [reflexivity|].
  cbn in Heq. injection Heq as Hid Hqty Hprice Hrest.
  unfold findItem in *. cbn.
  rewrite Hid. destruct (String.eqb (product_id b) productId).
  - cbn. unfold goods. congruence.
  - now apply IH.
Qed.

Lemma updateFirst_goods (productId : string) (f : CartItem -> CartItem)
    (its : list CartItem) :
  (forall item, goods (f item) = goods item) ->
  List.map goods (updateFirst productId f its) = List.map goods its.
Proof.
  intros Hf. induction its as [|a its IH]; [reflexivity|].
  cbn. destruct (String.eqb (product_id a) productId); cbn.
  - now rewrite Hf.
  - now rewrite IH.
Qed.

Lemma grant_goods (freeQty itemDiscount : jsnum) (couponId : string)
    (item : CartItem) :
  goods (grant freeQty itemDiscount couponId item) = goods item.
Proof. reflexivity. Qed.

Lemma quantityInCart_goods (its its' : list CartItem)
    (products : list BxGyProduct.t) :
  List.map goods its = List.map goods its' ->
  quantityInCart its products = quantityInCart its' products.
Proof.
  intros Heq. unfold quantityInCart. generalize 0.
  induction products as [|p products IH]; intros acc; [reflexivity|].
  cbn. pose proof (findItem_goods its its' (BxGyProduct.productId p) Heq) as Hf.
  destruct (findItem its (BxGyProduct.productId p)) as [a|],
           (findItem its' (BxGyProduct.productId p)) as [b|];
    cbn in Hf; try discriminate.
  - injection Hf as Hab. unfold goods in Hab.
    replace (quantity b) with (quantity a) by congruence. apply IH.
  - apply IH.
Qed.

Lemma calculateBxGyParams_goods (cart cart' : Cart) (conditions : BxGyConditions) :
  List.map goods (items cart) = List.map goods (items cart') ->
  calculateBxGyParams cart conditions = calculateBxGyParams cart' conditions.
Proof.
  intros Heq. unfold calculateBxGyParams.
  now rewrite (quantityInCart_goods _ _ (buyProducts conditions) Heq).
Qed.

Lemma discountLoop_goods (its its' : list CartItem) (gets : list BxGyProduct.t)
    (totalDiscount remaining : jsnum) :
  List.map goods its = List.map goods its' ->
  discountLoop its gets totalDiscount remaining
  = discountLoop its' gets totalDiscount remaining.
Proof.
  intros Heq. revert totalDiscount remaining.
  induction gets as [|g gets IH]; intros t r; [reflexivity|].
  cbn. destruct (JS.isZero r); [reflexivity|].
  pose proof (findItem_goods its its' (BxGyProduct.productId g) Heq) as Hf.
  destruct (findItem its (BxGyProduct.productId g)) as [a|],
           (findItem its' (BxGyProduct.productId g)) as [b|];
    cbn in Hf; try discriminate.
  - injection Hf as Hab. unfold goods in Hab.
    replace (quantity b) with (quantity a) by congruence.
    replace (price b) with (price a) by congruence. apply IH.
  - apply IH.
Qed.

(** [applyDiscount] leaves the goods as they are and accumulates the
    amount that [calculateDiscount] computes. *)
Lemma applyLoop_goods (couponId : string) (gets : list BxGyProduct.t)
    (its : list CartItem) (totalDiscount remaining : jsnum) :
  List.map goods (fst (applyLoop couponId gets its totalDiscount remaining))
  = List.map goods its.
Proof.
  revert its totalDiscount remaining.
  induction gets as [|g gets IH]; intros its t r; [reflexivity|].
  cbn. destruct (JS.isZero r); [reflexivity|].
  destruct (findItem its (BxGyProduct.productId g)) as [a|]; [|apply IH].
  rewrite IH. apply updateFirst_goods. intros item. apply grant_goods.
Qed.

Lemma applyLoop_total (couponId : string) (gets : list BxGyProduct.t)
    (its : list CartItem) (totalDiscount remaining : jsnum) :
  snd (applyLoop couponId gets its totalDiscount remaining)
  = discountLoop its gets totalDiscount remaining.
Proof.
  revert its totalDiscount remaining.
  induction gets as [|g gets IH]; intros its t r; [reflexivity|].
  cbn. destruct (JS.isZero r); [reflexivity|].
  destruct (findItem its (BxGyProduct.productId g)) as [a|]; [|apply IH].
  rewrite IH. apply discountLoop_goods.
  apply updateFirst_goods. intros item. apply grant_goods.
Qed.

End BxGyGoods.


Section BxGyRefinement.

Import BxGyHandler.

Lemma sumQuantity_total (products : list BxGyProduct.t) :
  sumQuantity products = BxGySpec.total BxGyProduct.quantity products.
Proof.
  unfold sumQuantity.
  assert (H : forall acc,
    fold_left (fun sum p => sum + BxGyProduct.quantity p) products acc
    = acc + BxGySpec.total BxGyProduct.quantity products).
  { induction products as [|p products IH]; intros acc; cbn; [lia|].
    rewrite IH. lia. }
  rewrite H. lia.
Qed.

Lemma quantityInCart_total (its : list CartItem) (products : list BxGyProduct.t) :
  quantityInCart its products
  = BxGySpec.total
      (fun p => BxGySpec.cartQuantity its (BxGyProduct.productId p)) products.
Proof.
  unfold quantityInCart.
  assert (H : forall acc,
    fold_left
      (fun total p =>
         match findItem its (BxGyProduct.productId p) with
         | Some cartItem => total + quantity cartItem
         | None => total
         end) products acc
    = acc + BxGySpec.total
              (fun p => BxGySpec.cartQuantity its (BxGyProduct.productId p))
              products).
  { induction products as [|p products IH]; intros acc; cbn; [lia|].
    rewrite IH. unfold BxGySpec.cartQuantity, findItem.
    destruct (List.find _ its); lia. }
  rewrite H. lia.
Qed.

Lemma cartQuantity_nonneg (its : list CartItem) (productId : string) :
  Forall (fun item => 0 <= quantity item) its ->
  0 <= BxGySpec.cartQuantity its productId.
Proof.
  intros Hq. unfold BxGySpec.cartQuantity.
  destruct (List.find _ its) as [item|] eqn:Hfind; [|lia].
  apply find_some in Hfind as [Hin _].
  rewrite Forall_forall in Hq. apply Hq. now apply list_elem_of_In.
Qed.

Lemma total_cartQuantity_nonneg (its : list CartItem)
    (products : list BxGyProduct.t) :
  Forall (fun item => 0 <= quantity item) its ->
  0 <= BxGySpec.total
         (fun p => BxGySpec.cartQuantity its (BxGyProduct.productId p)) products.
Proof.
  intros Hq. induction products as [|p products IH]; cbn; [lia|].
  pose proof (cartQuantity_nonneg its (BxGyProduct.productId p) Hq). lia.
Qed.

(** Nothing is left to grant: every further entry receives 0. *)
Lemma value_distribute_zero (its : list CartItem) (gets : list BxGyProduct.t) :
  Forall (fun item => 0 <= quantity item) its ->
  BxGySpec.value its (BxGySpec.distribute its gets 0) = 0.
Proof.
  intros Hq. induction gets as [|g gets IH]; [reflexivity|].
  cbn. pose proof (cartQuantity_nonneg its (BxGyProduct.productId g) Hq) as Hc.
  rewrite Z.min_l by lia. rewrite Z.sub_0_r.
  unfold BxGySpec.value in IH. rewrite IH. lia.
Qed.

Lemma cart_item_found (its : list CartItem) (productId : string) (item : CartItem) :
  findItem its productId = Some item ->
  BxGySpec.cartQuantity its productId = quantity item
  /\ BxGySpec.unitPrice its productId = price item.
Proof.
  unfold findItem, BxGySpec.cartQuantity, BxGySpec.unitPrice.
  now intros ->.
Qed.

Lemma cart_item_absent (its : list CartItem) (productId : string) :
  findItem its productId = None ->
  BxGySpec.cartQuantity its productId = 0
  /\ BxGySpec.unitPrice its productId = 0.
Proof.
  unfold findItem, BxGySpec.cartQuantity, BxGySpec.unitPrice.
  now intros ->.
Qed.

Lemma value_cons (its : list CartItem) (productId : string) (granted : Z)
    (grants : list (string * Z)) :
  BxGySpec.value its ((productId, granted) :: grants)
  = granted * BxGySpec.unitPrice its productId + BxGySpec.value its grants.
Proof. reflexivity. Qed.

(** The loop of [calculateDiscount] grants what [distribute] grants. *)
Lemma discountLoop_distribute (its : list CartItem) (gets : list BxGyProduct.t)
    (acc remaining : Z) :
  Forall (fun item => 0 <= quantity item) its ->
  0 <= remaining ->
  discountLoop its gets (Num acc) (Num remaining)
  = Num (acc + BxGySpec.value its (BxGySpec.distribute its gets remaining)).
Proof.
  intros Hq. revert acc remaining.
  induction gets as [|g gets IH]; intros acc r Hr.
  - cbn. f_equal. lia.
  - cbn [discountLoop JS.isZero].
    destruct (r =? 0) eqn:Hzero.
    + apply Z.eqb_eq in Hzero. subst r.
      rewrite value_distribute_zero by assumption. f_equal. lia.
    + apply Z.eqb_neq in Hzero.
      cbn [BxGySpec.distribute]. rewrite value_cons.
      pose proof (cartQuantity_nonneg its (BxGyProduct.productId g) Hq) as Hc.
      destruct (findItem its (BxGyProduct.productId g)) as [item|] eqn:Hfind.
      * destruct (cart_item_found _ _ _ Hfind) as [Hqty Hprice].
        rewrite Hqty, Hprice in *.
        cbn [JS.min JS.mul JS.add JS.sub JS.neg].
        replace (r + - Z.min (quantity item) r)
          with (r - Z.min r (quantity item)) by lia.
        rewrite IH by lia. f_equal.
        rewrite (Z.min_comm (quantity item) r). lia.
      * destruct (cart_item_absent _ _ Hfind) as [Hqty Hprice].
        rewrite Hqty, Hprice.
        rewrite (Z.min_r r 0) by lia. rewrite Z.sub_0_r.
        rewrite IH by lia. f_equal; lia.
Qed.

Lemma actualRepetitions_spec (cart : Cart) (c : BxGyConditions) :
  BxGySpec.requiredBuyQty c <> 0 ->
  actualRepetitions (calculateBxGyParams cart c)
  = Num (BxGySpec.actualRepetitions cart c).
Proof.
  intros Hbuy. unfold calculateBxGyParams; cbn [actualRepetitions].
  unfold JS.floorDiv, BxGySpec.actualRepetitions, BxGySpec.maxRepetitions,
    BxGySpec.totalBuyQtyInCart.
  rewrite sumQuantity_total, quantityInCart_total.
  fold (BxGySpec.requiredBuyQty c).
  destruct (BxGySpec.requiredBuyQty c =? 0) eqn:Hz.
  - apply Z.eqb_eq in Hz. contradiction.
  - reflexivity.
Qed.

Lemma discountOf_spec (cart : Cart) (c : BxGyConditions) :
  0 < BxGySpec.requiredBuyQty c ->
  Forall (fun item => 0 <= quantity item) (items cart) ->
  0 <= repetitionLimit c ->
  0 <= BxGySpec.requiredGetQty c ->
  discountOf cart c = Num (BxGySpec.discount cart c).
Proof.
  intros Hbuy Hq Hlimit Hget.
  unfold discountOf. rewrite actualRepetitions_spec by lia.
  assert (Hrep : 0 <= BxGySpec.actualRepetitions cart c).
  { unfold BxGySpec.actualRepetitions, BxGySpec.maxRepetitions.
    apply Z.min_glb; [|assumption].
    apply Z.div_pos; [|assumption].
    apply total_cartQuantity_nonneg. assumption. }
  unfold BxGySpec.discount, BxGySpec.entitlement.
  cbn [JS.isZero requiredGetQuantity calculateBxGyParams].
  destruct (BxGySpec.actualRepetitions cart c =? 0) eqn:Hz.
  - apply Z.eqb_eq in Hz. rewrite Hz, Z.mul_0_l.
    now rewrite value_distribute_zero.
  - cbn [JS.mul JS.floor]. rewrite sumQuantity_total.
    fold (BxGySpec.requiredGetQty c).
    rewrite discountLoop_distribute by (assumption || nia).
    reflexivity.
Qed.

(** *** The free quantity written on the items *)







End BxGyRefinement.



(** C7. The specification asks that a coupon whose buy quantities add up to
    zero is never applicable.  [calculateBxGyParams] divides by that sum
    without a guard: with a buy product in the cart the quotient is [Infinity], the
    repetitions are the repetition limit, and [isApplicable] returns the
    coupon with the discount 30; with an empty buy list the quotient is
    [NaN], and the coupon is returned with the discount [NaN]. *)
Theorem bxgy_zero_buy_quantity_is_applicable :
  BxGyHandler.requiredBuyQuantity
    (BxGyHandler.calculateBxGyParams Scenario.cartD
       {| buyProducts := [ {| BxGyProduct.productId := "A";
                              BxGyProduct.quantity := 0 |} ];
          getProducts := [ {| BxGyProduct.productId := "B";
                              BxGyProduct.quantity := 1 |} ];
          repetitionLimit := 1 |}) = 0
  /\ BxGyHandler.isApplicable Scenario.cartD [Scenario.buy0get1]
     = Returns [ {| ApplicableCoupons.id := "B0G1";
                    ApplicableCoupons.discount := Num 30;
                    ApplicableCoupons.type := "BxGy" |} ]
  /\ BxGyHandler.isApplicable Scenario.cartD [Scenario.buyNothing]
     = Returns [ {| ApplicableCoupons.id := "NOBUY";
                    ApplicableCoupons.discount := NaN;
                    ApplicableCoupons.type := "BxGy" |} ].
Proof.
  repeat split; reflexivity.
Qed.

(** ** Product-scoped coupons *)

Section ProductWiseFacts.

Import ProductWiseHandler.

Variable rev : revision.
Variable conditions : option ProductWiseConditions.
Variable discountDetails : DiscountDetails.
Variable couponId : string.


Lemma applyItems_items (its : list CartItem) (acc : Z) :
  fst (applyItems rev conditions discountDetails couponId its acc)
  = List.map (touch rev conditions discountDetails couponId) its.
Proof.
  revert acc. induction its as [|item its IH]; intros acc; [reflexivity|].
  cbn. unfold touch at 1.
  destruct (matched rev conditions item); cbn; now rewrite IH.
Qed.

Lemma applyItems_total (its : list CartItem) (acc : Z) :
  snd (applyItems rev conditions discountDetails couponId its acc)
  = fold_left
      (fun totalDiscount item =>
         if matched rev conditions item
         then totalDiscount + itemDiscount discountDetails item
         else totalDiscount)
      its acc.
Proof.
  revert acc. induction its as [|item its IH]; intros acc; [reflexivity|].
  cbn. destruct (matched rev conditions item); cbn; now rewrite IH.
Qed.

(** The inner loop of [isApplicable] finds a concerned item exactly when
    there is one. *)
Lemma scanItems_found (its : list CartItem) :
  fst (scanItems rev conditions its) = existsb (matched rev conditions) its.
Proof.
  unfold scanItems.
  assert (H : forall acc,
    fst (fold_left
           (fun acc item =>
              if matched rev conditions item
              then (true, snd acc + quantity item) else acc)
           its acc)
    = fst acc || existsb (matched rev conditions) its).
  { induction its as [|item its IH]; intros acc; cbn.
    - now rewrite orb_false_r.
    - rewrite IH. destruct (matched rev conditions item); cbn.
      + now rewrite orb_true_r.
      + reflexivity. }
  now rewrite H.
Qed.

End ProductWiseFacts.

Lemma includes_In (arr : list string) (x : string) :
  JS.includes arr x = true <-> In x arr.
Proof.
  unfold JS.includes. rewrite existsb_exists. split.
  - intros (y & Hin & Heq). apply String.eqb_eq in Heq. now subst y.
  - intros Hin. exists x. split; [assumption|apply String.eqb_refl].
Qed.

(** C4. In the revision of [ProductWiseHandler] that reads
    [conditions.categories], a cart item (whose category tag, when it has
    one, is not the empty string) is concerned by a ProductScoped coupon
    exactly when its product identifier is among the coupon's product
    identifiers or its category is among the coupon's categories.  For one
    laptop of 50000 in "Electronics" under "20% off Electronics" the discount
    is 10000 and the final price 40000. *)
Theorem productwise_matches_product_or_category
    (coupon : Coupon.t) (conditions : ProductWiseConditions) (item : CartItem) :
  Coupon.conditions coupon = ProductWiseC conditions ->
  category item <> Some "" ->
  (ProductWiseHandler.matched ProductWiseHandler.ProductIdsOrCategories
     (asProductWise (Coupon.conditions coupon)) item = true
   <-> (exists ids,
          productIds conditions = Some ids /\ In (product_id item) ids)
       \/ (exists cats tag,
             categories conditions = Some cats
             /\ category item = Some tag /\ In tag cats))
  /\ ProductWiseHandler.isApplicable ProductWiseHandler.ProductIdsOrCategories
       Scenario.cartC [Scenario.laptop20]
     = [ {| ApplicableCoupons.id := "LAPTOP20";
            ApplicableCoupons.discount := Num 10000;
            ApplicableCoupons.type := "product" |} ]
  /\ ProductWiseHandler.calculateDiscount ProductWiseHandler.ProductIdsOrCategories
       Scenario.cartC Scenario.laptop20 = 10000
  /\ List.map final_price
       (items (ProductWiseHandler.applyDiscount
                 ProductWiseHandler.ProductIdsOrCategories
                 Scenario.cartC Scenario.laptop20))
     = [Some (Num 40000)].
Proof.
  intros Hc Htag. split; [|repeat split; reflexivity].
  rewrite Hc. cbn [asProductWise ProductWiseHandler.matched].
  unfold ProductWiseHandler.isProductMatch, ProductWiseHandler.isCategoryMatch.
  rewrite orb_true_iff. split.
  - intros [Hid | Hcat].
    + left. destruct (productIds conditions) as [ids|]; [|discriminate].
      exists ids. split; [reflexivity|now apply includes_In].
    + right. destruct (categories conditions) as [cats|]; [|discriminate].
      apply andb_true_iff in Hcat as [Htruthy Hin].
      destruct (category item) as [tag|]; [|discriminate].
      exists cats, tag. repeat split. now apply includes_In.
  - intros [(ids & Hids & Hin) | (cats & tag & Hcats & Hcat & Hin)].
    + left. rewrite Hids. now apply includes_In.
    + right. rewrite Hcats, Hcat. cbn [JS.truthyString default].
      apply andb_true_iff. split; [|now apply includes_In].
      apply negb_true_iff. apply String.eqb_neq. congruence.
Qed.

Lemma productwise_scenario_C :
  Coupon.conditions Scenario.laptop20
  = ProductWiseC {| productIds := None;
                    categories := Some ["Electronics"];
                    minQuantity := None |}
  /\ category (Scenario.item "LAPTOP_001" 1 50000 (Some "Electronics")) <> Some ""
  /\ ProductWiseHandler.matched ProductWiseHandler.ProductIdsOrCategories
       (asProductWise (Coupon.conditions Scenario.laptop20))
       (Scenario.item "LAPTOP_001" 1 50000 (Some "Electronics")) = true.
Proof.
  split; [reflexivity|]. split; [discriminate|].
  apply (productwise_matches_product_or_category Scenario.laptop20
           {| productIds := None; categories := Some ["Electronics"];
              minQuantity := None |}
           (Scenario.item "LAPTOP_001" 1 50000 (Some "Electronics"))
           eq_refl).
  - discriminate.
  - right. exists ["Electronics"], "Electronics".
    repeat split. now left.
Defined.

(** The other revision looks at product identifiers only: the same laptop
    is not concerned by the same coupon. *)
Lemma productwise_ids_only_ignores_category :
  ProductWiseHandler.isApplicable ProductWiseHandler.ProductIdsOnly
    Scenario.cartC [Scenario.laptop20] = []
  /\ ProductWiseHandler.calculateDiscount ProductWiseHandler.ProductIdsOnly
       Scenario.cartC Scenario.laptop20 = 0.
Proof. split; reflexivity. Qed.

(** ** Discovery *)

Section Discovery.

Import CartService.

Variable rev : ProductWiseHandler.revision.
Variable now : Z.
Variable cart : Cart.


Lemma expired_false (coupon : Coupon.t) :
  expired now coupon = false
  <-> forall expiry, Coupon.expiryDate coupon = Some expiry -> now <= expiry.
Proof.
  unfold expired. destruct (Coupon.expiryDate coupon) as [expiry|].
  - rewrite Z.ltb_ge. split.
    + now intros H e [= <-].
    + intros H. now apply H.
  - split; [intros _ e [=]|reflexivity].
Qed.

Lemma usageLimitReached_false (coupon : Coupon.t) :
  usageLimitReached coupon = false
  <-> forall limit, Coupon.usageLimit coupon = Some limit -> limit <> 0 ->
      Coupon.usedCount coupon < limit.
Proof.
  unfold usageLimitReached, JS.truthy.
  destruct (Coupon.usageLimit coupon) as [limit|]; cbv [default from_option id].
  - rewrite andb_false_iff, negb_false_iff, Z.eqb_eq, Z.leb_gt. split.
    + intros [Hz | Hlt] l [= <-] Hl; [contradiction|assumption].
    + intros H. destruct (Z.eq_dec limit 0) as [Hz|Hz]; [now left|].
      right. now apply H.
  - split; [intros _ l [=]|reflexivity].
Qed.

Lemma gate_spec (coupon : Coupon.t) :
  gate now coupon = true
  <-> Coupon.isActive coupon = true
      /\ (forall expiry, Coupon.expiryDate coupon = Some expiry -> now <= expiry)
      /\ (forall limit, Coupon.usageLimit coupon = Some limit -> limit <> 0 ->
          Coupon.usedCount coupon < limit).
Proof.
  rewrite <- expired_false, <- usageLimitReached_false. unfold gate.
  destruct (Coupon.isActive coupon), (expired now coupon),
    (usageLimitReached coupon); cbn; intuition discriminate.
Qed.

(** Grouping appends every coupon to the group of its strategy type and
    leaves out the coupons of any other type. *)
Lemma groupByType_groups (coupons carts products bxgys : list Coupon.t) :
  Forall (fun coupon => inheritedName coupon = false) coupons ->
  groupByType coupons [("cart", carts); ("product", products); ("BxGy", bxgys)]
  = Returns [ ("cart", carts ++ ofType "cart" coupons);
              ("product", products ++ ofType "product" coupons);
              ("BxGy", bxgys ++ ofType "BxGy" coupons) ].
Proof.
  intros Hnames. revert carts products bxgys.
  induction Hnames as [|coupon coupons Hname _ IH]; intros carts products bxgys.
  - cbn. now rewrite !app_nil_r.
  - cbn [groupByType]. unfold getProperty, pushCoupon, ofType.
    cbn [List.find List.filter List.map fst snd].
    destruct (String.eqb "cart" (strategyType coupon)) eqn:Hcart.
    { apply String.eqb_eq in Hcart. rewrite <- Hcart. cbn.
      rewrite IH. unfold ofType. now rewrite <- !app_assoc. }
    destruct (String.eqb "product" (strategyType coupon)) eqn:Hproduct.
    { apply String.eqb_eq in Hproduct. rewrite <- Hproduct. cbn.
      rewrite IH. unfold ofType. now rewrite <- !app_assoc. }
    destruct (String.eqb "BxGy" (strategyType coupon)) eqn:Hbxgy.
    { cbn.
      rewrite IH. unfold ofType. now rewrite <- !app_assoc. }
    assert (Htype : strategyType coupon = Coupon.type coupon).
    { unfold strategyType in *.
      destruct (String.eqb (Coupon.type coupon) "Product"); [discriminate|].
      reflexivity. }
    unfold inheritedName in Hname. rewrite Htype, Hname. apply IH.
Qed.

Lemma cartwise_no_coupons : CartWiseHandler.isApplicable cart [] = [].
Proof. unfold CartWiseHandler.isApplicable. now destruct (items cart). Qed.

Lemma productwise_no_coupons : ProductWiseHandler.isApplicable rev cart [] = [].
Proof. unfold ProductWiseHandler.isApplicable. now destruct (items cart). Qed.

Lemma bxgy_no_coupons : BxGyHandler.isApplicable cart [] = Returns [].
Proof. unfold BxGyHandler.isApplicable. now destruct (items cart). Qed.

Lemma getStrategy_cart :
  CartFactory.getStrategy rev "cart" = Some CartWiseHandler.strategy.
Proof. reflexivity. Qed.

Lemma getStrategy_product :
  CartFactory.getStrategy rev "product" = Some (ProductWiseHandler.strategy rev).
Proof. reflexivity. Qed.

Lemma getStrategy_BxGy :
  CartFactory.getStrategy rev "BxGy" = Some BxGyHandler.strategy.
Proof. reflexivity. Qed.

(** Dispatch concatenates what the three strategies return, in the order
    of the keys. *)
Lemma dispatch_groups (carts products bxgys : list Coupon.t)
    (found : list ApplicableCoupons.t) :
  BxGyHandler.isApplicable cart bxgys = Returns found ->
  dispatch rev cart
    [("cart", carts); ("product", products); ("BxGy", bxgys)] []
  = Returns (CartWiseHandler.isApplicable cart carts
             ++ ProductWiseHandler.isApplicable rev cart products
             ++ found).
Proof.
  intros Hfound.
  assert (Hb : forall acc,
    dispatch rev cart [("BxGy", bxgys)] acc = Returns (acc ++ found)).
  { intros acc. cbn [dispatch]. destruct bxgys as [|b bs].
    - rewrite bxgy_no_coupons in Hfound. injection Hfound as <-.
      now rewrite app_nil_r.
    - rewrite getStrategy_BxGy.
      cbn [isApplicable BxGyHandler.strategy]. now rewrite Hfound. }
  assert (Hp : forall acc,
    dispatch rev cart [("product", products); ("BxGy", bxgys)] acc
    = Returns (acc ++ ProductWiseHandler.isApplicable rev cart products ++ found)).
  { intros acc. destruct products as [|p ps].
    - rewrite productwise_no_coupons. apply Hb.
    - change (dispatch rev cart [("product", p :: ps); ("BxGy", bxgys)] acc)
        with (dispatch rev cart [("BxGy", bxgys)]
                (acc ++ ProductWiseHandler.isApplicable rev cart (p :: ps))).
      rewrite Hb. now rewrite <- app_assoc. }
  destruct carts as [|c cs].
  - rewrite cartwise_no_coupons. apply Hp.
  - change (dispatch rev cart
              [("cart", c :: cs); ("product", products); ("BxGy", bxgys)] [])
      with (dispatch rev cart [("product", products); ("BxGy", bxgys)]
              ([] ++ CartWiseHandler.isApplicable cart (c :: cs))).
    rewrite Hp. reflexivity.
Qed.

End Discovery.

(** *** Ranking *)


Lemma discountGe_trans (a b c : ApplicableCoupons.t) :
  discountGe a b -> discountGe b c -> discountGe a c.
Proof.
  unfold discountGe.
  destruct (ApplicableCoupons.discount a), (ApplicableCoupons.discount b),
    (ApplicableCoupons.discount c); try tauto; lia.
Qed.

Lemma insertSorted_permutation (x : ApplicableCoupons.t)
    (l : list ApplicableCoupons.t) :
  Permutation (CartService.insertSorted x l) (x :: l).
Proof.
  induction l as [|y l IH]; cbn; [reflexivity|].
  destruct (JS.gtZero (CartService.compareFn x y)); [|reflexivity].
  rewrite IH. apply perm_swap.
Qed.

Lemma sort_permutation (l : list ApplicableCoupons.t) :
  Permutation (CartService.sort l) l.
Proof.
  induction l as [|x l IH]; cbn; [reflexivity|].
  etransitivity; [apply insertSorted_permutation|]. now constructor.
Qed.

Lemma insertSorted_sorted (x : ApplicableCoupons.t)
    (l : list ApplicableCoupons.t) :
  finiteDiscount x -> Forall finiteDiscount l ->
  StronglySorted discountGe l ->
  StronglySorted discountGe (CartService.insertSorted x l).
Proof.
  intros [dx Hx] Hfinite Hsorted.
  induction Hsorted as [|y l Hl IH Hy]; cbn.
  - repeat constructor.
  - inversion Hfinite as [|? ? [dy Hdy] Hrest]; subst.
    unfold CartService.compareFn. rewrite Hx, Hdy.
    cbn [JS.sub JS.neg JS.add JS.gtZero].
    destruct (0 <? dy + - dx) eqn:Hcmp.
    + apply Z.ltb_lt in Hcmp. constructor; [now apply IH|].
      eapply Permutation_Forall;
        [symmetry; apply insertSorted_permutation|].
      constructor; [|assumption].
      unfold discountGe. rewrite Hx, Hdy. lia.
    + apply Z.ltb_ge in Hcmp.
      assert (Hxy : discountGe x y) by (unfold discountGe; rewrite Hx, Hdy; lia).
      constructor; [now constructor|].
      constructor; [assumption|].
      eapply Forall_impl; [exact Hy|].
      intros z Hz. eapply discountGe_trans; eassumption.
Qed.

Lemma sort_sorted (l : list ApplicableCoupons.t) :
  Forall finiteDiscount l -> StronglySorted discountGe (CartService.sort l).
Proof.
  induction 1 as [|x l Hx Hl IH]; cbn; [constructor|].
  apply insertSorted_sorted; [assumption| |assumption].
  eapply Permutation_Forall; [symmetry; apply sort_permutation|assumption].
Qed.

(** *** The candidates carry finite discounts *)

Lemma collect_Forall {A B : Type} (P : B -> Prop) (step : A -> option B)
    (l : list A) :
  (forall x y, step x = Some y -> P y) -> Forall P (collect step l).
Proof.
  intros Hstep. induction l as [|x l IH]; cbn; [constructor|].
  destruct (step x) as [y|] eqn:Hx; [|assumption].
  constructor; [now apply (Hstep x)|assumption].
Qed.

Lemma cartwise_finite (cart : Cart) (coupons : list Coupon.t) :
  Forall finiteDiscount (CartWiseHandler.isApplicable cart coupons).
Proof.
  unfold CartWiseHandler.isApplicable.
  destruct (items cart); [constructor|].
  apply collect_Forall. intros coupon a. unfold CartWiseHandler.candidate.
  case_guards; intros [= <-]; eexists; reflexivity.
Qed.

Lemma productwise_finite (rev : ProductWiseHandler.revision) (cart : Cart)
    (coupons : list Coupon.t) :
  Forall finiteDiscount (ProductWiseHandler.isApplicable rev cart coupons).
Proof.
  unfold ProductWiseHandler.isApplicable.
  destruct (items cart); [constructor|].
  apply collect_Forall. intros coupon a. unfold ProductWiseHandler.candidate.
  destruct (ProductWiseHandler.scanItems _ _ _) as [has qty].
  case_guards; intros [= <-]; eexists; reflexivity.
Qed.

Lemma discountLoop_finite (its : list CartItem) (gets : list BxGyProduct.t)
    (acc remaining : Z) :
  exists z, BxGyHandler.discountLoop its gets (Num acc) (Num remaining) = Num z.
Proof.
  revert acc remaining. induction gets as [|g gets IH]; intros acc r; cbn.
  - now exists acc.
  - destruct (r =? 0); [now exists acc|].
    destruct (BxGyHandler.findItem its (BxGyProduct.productId g)); apply IH.
Qed.

Lemma discountOf_finite (cart : Cart) (c : BxGyConditions) :
  BxGySpec.requiredBuyQty c <> 0 ->
  exists z, BxGyHandler.discountOf cart c = Num z.
Proof.
  intros Hbuy. unfold BxGyHandler.discountOf.
  rewrite actualRepetitions_spec by assumption.
  cbn [JS.isZero JS.mul JS.floor].
  destruct (_ =? 0); [now exists 0|]. apply discountLoop_finite.
Qed.


Lemma bxgy_candidates_finite (cart : Cart) (coupons : list Coupon.t) :
  Forall (fun coupon => Coupon.type coupon = "BxGy") coupons ->
  Forall wellFormedBxGy coupons ->
  exists found,
    BxGyHandler.candidates cart coupons = Returns found
    /\ Forall finiteDiscount found.
Proof.
  intros Htype Hwf. induction Htype as [|coupon coupons Ht _ IH].
  - exists []. split; [reflexivity|constructor].
  - inversion Hwf as [|? ? Hc Hrest]; subst.
    destruct (Hc Ht) as (c & Hcond & Hbuy).
    destruct (IH Hrest) as (found & Hfound & Hfinite).
    cbn. unfold BxGyHandler.bxgyConditions. rewrite Hcond. cbn.
    rewrite Hfound. cbn. eexists. split; [reflexivity|].
    unfold BxGyHandler.candidate.
    destruct (discountOf_finite cart c Hbuy) as [z Hz]. rewrite Hz.
    case_guards; try assumption.
    constructor; [|assumption]. now exists z.
Qed.

Lemma Forall_list_filter {A : Type} (P : A -> Prop) (f : A -> bool) (l : list A) :
  Forall P l -> Forall P (List.filter f l).
Proof.
  induction 1 as [|x l Hx Hl IH]; cbn; [constructor|].
  destruct (f x); [constructor|]; assumption.
Qed.

Lemma ofType_BxGy_type (coupons : list Coupon.t) :
  Forall (fun coupon => Coupon.type coupon = "BxGy") (ofType "BxGy" coupons).
Proof.
  unfold ofType.
  induction coupons as [|coupon coupons IH]; cbn [List.filter]; [constructor|].
  destruct (String.eqb "BxGy" (CartService.strategyType coupon)) eqn:Heq;
    [|assumption].
  constructor; [|assumption].
  apply String.eqb_eq in Heq. unfold CartService.strategyType in Heq.
  destruct (String.eqb (Coupon.type coupon) "Product"); [discriminate|].
  now symmetry.
Qed.

Lemma ofType_cart (coupons : list Coupon.t) :
  ofType "cart" coupons = withTag ["cart"] coupons.
Proof.
  unfold ofType, withTag. apply List.filter_ext. intros coupon.
  unfold CartService.strategyType, JS.includes. cbn [existsb].
  destruct (String.eqb (Coupon.type coupon) "Product") eqn:Hp.
  - apply String.eqb_eq in Hp. now rewrite Hp.
  - now rewrite orb_false_r, String.eqb_sym.
Qed.

Lemma ofType_product (coupons : list Coupon.t) :
  ofType "product" coupons = withTag ["Product"; "product"] coupons.
Proof.
  unfold ofType, withTag. apply List.filter_ext. intros coupon.
  unfold CartService.strategyType, JS.includes. cbn [existsb].
  destruct (String.eqb (Coupon.type coupon) "Product") eqn:Hp.
  - reflexivity.
  - now rewrite orb_false_r, String.eqb_sym.
Qed.

Lemma ofType_BxGy (coupons : list Coupon.t) :
  ofType "BxGy" coupons = withTag ["BxGy"] coupons.
Proof.
  unfold ofType, withTag. apply List.filter_ext. intros coupon.
  unfold CartService.strategyType, JS.includes. cbn [existsb].
  destruct (String.eqb (Coupon.type coupon) "Product") eqn:Hp.
  - apply String.eqb_eq in Hp. now rewrite Hp.
  - now rewrite orb_false_r, String.eqb_sym.
Qed.

(** C6. On coupons whose type tag names no member of [Object.prototype] and
    whose BuyXGetY coupons are well formed, [findApplicableCoupons] keeps
    the coupons that are active, not expired at the time of the evaluation
    and under their usage limit (a limit of 0 counts as no limit), groups
    them by type tag (the coupons tagged [cart], those tagged [Product] or
    [product], those tagged [BxGy]), hands the first group to the
    [isApplicable] of [CartWiseHandler], the second one to that of
    [ProductWiseHandler] and the third one to that of [BxGyHandler],
    concatenates the candidates and returns them sorted by discount, largest
    first. *)
Theorem discovery_filters_groups_dispatches_and_ranks
    (rev : ProductWiseHandler.revision) (now : Z)
    (allCoupons : list Coupon.t) (cart : Cart) :
  Forall (fun coupon => inheritedName coupon = false) allCoupons ->
  Forall wellFormedBxGy allCoupons ->
  let activeCoupons := List.filter (CartService.gate now) allCoupons in
  (forall coupon,
     In coupon activeCoupons
     <-> In coupon allCoupons
         /\ Coupon.isActive coupon = true
         /\ (forall expiry,
               Coupon.expiryDate coupon = Some expiry -> now <= expiry)
         /\ (forall limit,
               Coupon.usageLimit coupon = Some limit -> limit <> 0 ->
               Coupon.usedCount coupon < limit))
  /\ exists bxgy,
       BxGyHandler.isApplicable cart (withTag ["BxGy"] activeCoupons)
       = Returns bxgy
       /\ let candidates :=
            CartWiseHandler.isApplicable cart (withTag ["cart"] activeCoupons)
            ++ ProductWiseHandler.isApplicable rev cart
                 (withTag ["Product"; "product"] activeCoupons)
            ++ bxgy in
          CartService.findApplicableCoupons rev now allCoupons cart
          = Returns (CartService.sort candidates)
          /\ Permutation (CartService.sort candidates) candidates
          /\ StronglySorted discountGe (CartService.sort candidates).
Proof.
  intros Hnames Hwf activeCoupons. split.
  - intros coupon. unfold activeCoupons.
    rewrite List.filter_In, gate_spec. reflexivity.
  - rewrite <- ofType_cart, <- ofType_product, <- ofType_BxGy.
    assert (Hfound : exists bxgy,
      BxGyHandler.isApplicable cart (ofType "BxGy" activeCoupons) = Returns bxgy
      /\ Forall finiteDiscount bxgy).
    { unfold BxGyHandler.isApplicable. destruct (items cart).
      - exists []. split; [reflexivity|constructor].
      - apply bxgy_candidates_finite; [apply ofType_BxGy_type|].
        unfold ofType, activeCoupons. now do 2 apply Forall_list_filter. }
    destruct Hfound as (bxgy & Hbxgy & Hfinite).
    exists bxgy. split; [assumption|]. cbn zeta. split; [|split].
    + unfold CartService.findApplicableCoupons.
      fold activeCoupons. unfold CartService.initialGroups.
      rewrite groupByType_groups
        by (unfold activeCoupons; now apply Forall_list_filter).
      cbn [bind app]. rewrite (dispatch_groups rev cart _ _ _ bxgy Hbxgy).
      reflexivity.
    + apply sort_permutation.
    + apply sort_sorted. rewrite !Forall_app.
      repeat split;
        [apply cartwise_finite|apply productwise_finite|assumption].
Qed.

(** Six stored coupons, one of each type tag among them, one expired and
    one of an unknown type, and the cart of Scenario D at instant 1000: the
    coupon tagged [Product] is ranked first. *)
Lemma discovery_example :
  let allCoupons :=
    [ Scenario.save10; Scenario.buy2get1;
      {| Coupon.id := "OLD"; Coupon.name := "OLD"; Coupon.type := "cart";
         Coupon.isActive := true; Coupon.expiryDate := Some 999;
         Coupon.usageLimit := None; Coupon.usedCount := 0;
         Coupon.conditions := Scenario.minCart 0;
         Coupon.discountDetails := fixed 400 |};
      Scenario.flat50;
      Scenario.coupon "A20" "Product"
        (ProductWiseC {| productIds := Some ["A"]; categories := None;
                         minQuantity := None |})
        (percentage 20 None);
      Scenario.unknownTag ] in
  Forall (fun coupon => inheritedName coupon = false) allCoupons
  /\ Forall wellFormedBxGy allCoupons
  /\ List.map Coupon.id
       (withTag ["Product"; "product"]
          (List.filter (CartService.gate 1000) allCoupons)) = ["A20"]
  /\ exists ranked,
       CartService.findApplicableCoupons ProductWiseHandler.ProductIdsOrCategories
         1000 allCoupons Scenario.cartD = Returns ranked
       /\ List.map ApplicableCoupons.id ranked
          = ["A20"; "FLAT50"; "B2G1"; "SAVE10"]
       /\ List.map ApplicableCoupons.discount ranked
          = [Num 100; Num 50; Num 30; Num 5]
       /\ StronglySorted discountGe ranked.
Proof.
  intros allCoupons.
  assert (Hnames : Forall (fun coupon => inheritedName coupon = false) allCoupons)
    by (repeat constructor).
  assert (Hwf : Forall wellFormedBxGy allCoupons).
  { repeat (constructor;
            [first [ intros H; discriminate H
                   | intros _; eexists; split; [reflexivity|cbn; lia] ] |]).
    constructor. }
  split; [exact Hnames|]. split; [exact Hwf|]. split; [reflexivity|].
  destruct (discovery_filters_groups_dispatches_and_ranks
              ProductWiseHandler.ProductIdsOrCategories 1000 allCoupons
              Scenario.cartD Hnames Hwf)
    as (_ & bxgy & Hbxgy & Hfind & _ & Hsorted).
  injection Hbxgy as <-.
  eexists. split; [exact Hfind|]. split; [reflexivity|].
  split; [reflexivity|exact Hsorted].
Defined.

(** An unrecognised type tag that names no member of [Object.prototype]:
    the coupon is left out of every group. *)
Lemma unrecognised_type_left_out (rev : ProductWiseHandler.revision) (now : Z)
    (coupon : Coupon.t) (coupons : list Coupon.t) (cart : Cart) :
  ~ In (Coupon.type coupon) ["cart"; "Product"; "product"; "BxGy"] ->
  inheritedName coupon = false ->
  CartService.findApplicableCoupons rev now (coupon :: coupons) cart
  = CartService.findApplicableCoupons rev now coupons cart.
Proof.
  intros Htag Hname. unfold CartService.findApplicableCoupons.
  cbn [List.filter]. destruct (CartService.gate now coupon); [|reflexivity].
  cbn [CartService.groupByType].
  assert (Htype : CartService.strategyType coupon = Coupon.type coupon).
  { unfold CartService.strategyType.
    destruct (String.eqb (Coupon.type coupon) "Product") eqn:Heq; [|reflexivity].
    apply String.eqb_eq in Heq. exfalso. apply Htag. rewrite Heq. cbn. tauto. }
  rewrite Htype. unfold CartService.getProperty, CartService.initialGroups.
  cbn [List.find fst snd].
  destruct (String.eqb "cart" (Coupon.type coupon)) eqn:H1.
  { apply String.eqb_eq in H1. exfalso. apply Htag. rewrite <- H1. cbn. tauto. }
  destruct (String.eqb "product" (Coupon.type coupon)) eqn:H2.
  { apply String.eqb_eq in H2. exfalso. apply Htag. rewrite <- H2. cbn. tauto. }
  destruct (String.eqb "BxGy" (Coupon.type coupon)) eqn:H3.
  { apply String.eqb_eq in H3. exfalso. apply Htag. rewrite <- H3. cbn. tauto. }
  unfold inheritedName in Hname. now rewrite Hname.
Qed.

(** C10. A gated coupon of unrecognised type is meant to be dropped without
    an error.  That holds for a tag such as "voucher"; for the tag
    "constructor" the lookup [couponsByType[type]] finds the inherited
    member of [Object.prototype], the guard passes and [push] throws: the
    whole discovery fails. *)
Theorem discovery_inherited_type_name_throws :
  (forall rev now cart,
     CartService.findApplicableCoupons rev now [Scenario.unknownTag] cart
     = Returns [])
  /\ (forall now, CartService.gate now Scenario.constructorTag = true)
  /\ (forall rev,
        CartFactory.getStrategy rev
          (CartService.strategyType Scenario.constructorTag) = None)
  /\ (forall rev now cart,
        CartService.findApplicableCoupons rev now [Scenario.constructorTag] cart
        = Throws CartService.pushError)
  /\ (forall rev now cart,
        CartService.findApplicableCoupons rev now
          [Scenario.save10; Scenario.constructorTag] cart
        = Throws CartService.pushError).
Proof.
  repeat split; reflexivity.
Qed.

(** ** Application *)

Lemma getStrategy_inv (rev : ProductWiseHandler.revision) (type : string)
    (strategy : CouponStrategy) :
  CartFactory.getStrategy rev type = Some strategy ->
  (type = "cart" /\ strategy = CartWiseHandler.strategy)
  \/ (type = "product" /\ strategy = ProductWiseHandler.strategy rev)
  \/ (type = "BxGy" /\ strategy = BxGyHandler.strategy).
Proof.
  unfold CartFactory.getStrategy.
  destruct (String.eqb type "") eqn:H0; [discriminate|].
  destruct (String.eqb type "cart") eqn:H1.
  { apply String.eqb_eq in H1. intros [= <-]. now left. }
  destruct (String.eqb type "product") eqn:H2.
  { apply String.eqb_eq in H2. intros [= <-]. right. now left. }
  destruct (String.eqb type "BxGy") eqn:H3; [|discriminate].
  apply String.eqb_eq in H3. intros [= <-]. right. now right.
Qed.



Lemma gate_true (now : Z) (coupon : Coupon.t) :
  CartService.gate now coupon = true ->
  Coupon.isActive coupon = true
  /\ CartService.expired now coupon = false
  /\ CartService.usageLimitReached coupon = false.
Proof.
  unfold CartService.gate.
  destruct (Coupon.isActive coupon), (CartService.expired now coupon),
    (CartService.usageLimitReached coupon); cbn; intuition discriminate.
Qed.




(** ** The cart after [applyDiscount] *)


Lemma written_refl (its : list CartItem) : Forall2 written its its.
Proof. induction its; constructor; [now left|assumption]. Qed.

Lemma discountItem_written (details : DiscountDetails) (couponId : string)
    (item : CartItem) :
  written item (ProductWiseHandler.discountItem details couponId item).
Proof.
  right. split; [reflexivity|].
  eexists. split; [reflexivity|]. cbn. do 2 f_equal. lia.
Qed.

Lemma productwise_items_written (rev : ProductWiseHandler.revision)
    (conditions : option ProductWiseConditions) (details : DiscountDetails)
    (couponId : string) (its : list CartItem) :
  Forall2 written its (List.map (touch rev conditions details couponId) its).
Proof.
  induction its as [|item its IH]; cbn; constructor; [|assumption].
  unfold touch. destruct (ProductWiseHandler.matched rev conditions item).
  - apply discountItem_written.
  - now left.
Qed.

Lemma updateFirst_written (productId couponId : string)
    (freeQty itemDiscount : jsnum) (its0 its : list CartItem) :
  Forall2 written its0 its ->
  Forall2 written its0
    (BxGyHandler.updateFirst productId
       (BxGyHandler.grant freeQty itemDiscount couponId) its).
Proof.
  induction 1 as [|old new its0 its Hw Hrest IH]; cbn; [constructor|].
  destruct (String.eqb (product_id new) productId).
  - constructor; [|assumption]. right. split.
    + rewrite grant_goods. destruct Hw as [-> | [Hg _]]; [reflexivity|assumption].
    + eexists. split; reflexivity.
  - constructor; assumption.
Qed.

Lemma applyLoop_written (couponId : string) (gets : list BxGyProduct.t)
    (its0 its : list CartItem) (totalDiscount remaining : jsnum) :
  Forall2 written its0 its ->
  Forall2 written its0
    (fst (BxGyHandler.applyLoop couponId gets its totalDiscount remaining)).
Proof.
  revert its totalDiscount remaining.
  induction gets as [|g gets IH]; intros its t r Hw; cbn; [assumption|].
  destruct (JS.isZero r); [assumption|].
  destruct (BxGyHandler.findItem its (BxGyProduct.productId g)) as [item|].
  - apply IH. now apply updateFirst_written.
  - now apply IH.
Qed.

(** A BuyXGetY coupon that [isApplicable] returns has the payload of its
    type and repetitions that are not zero. *)
Lemma bxgy_applicable_inv (cart : Cart) (coupon : Coupon.t)
    (a : ApplicableCoupons.t) (l : list ApplicableCoupons.t) :
  BxGyHandler.isApplicable cart [coupon] = Returns (a :: l) ->
  exists c,
    Coupon.conditions coupon = BxGyC c
    /\ JS.isZero (BxGyHandler.actualRepetitions
                    (BxGyHandler.calculateBxGyParams cart c)) = false.
Proof.
  unfold BxGyHandler.isApplicable.
  destruct (items cart) as [|item its]; [discriminate|].
  cbn. unfold BxGyHandler.bxgyConditions.
  destruct (Coupon.conditions coupon) as [x|x|c]; cbn; try discriminate.
  unfold BxGyHandler.candidate.
  destruct (_ <? _); [discriminate|].
  destruct (JS.isZero (BxGyHandler.actualRepetitions _)) eqn:Hrep;
    [discriminate|].
  intros _. now exists c.
Qed.

(** C8. After [applyDiscount] of the strategy of any of the three types on a
    cart and a coupon that the strategy finds applicable, the cart satisfies
    [subTotal = totalAmount - discountedAmount] and every item of the cart
    is either the item it was or satisfies
    [final_price = quantity * price - total_discount]. *)
Theorem applyDiscount_settles_cart_and_prices_items
    (rev : ProductWiseHandler.revision) (type : string)
    (strategy : CouponStrategy) (cart : Cart) (coupon : Coupon.t)
    (a : ApplicableCoupons.t) (l : list ApplicableCoupons.t) :
  CartFactory.getStrategy rev type = Some strategy ->
  isApplicable strategy cart [coupon] = Returns (a :: l) ->
  exists cart',
    applyDiscount strategy cart coupon = Returns cart'
    /\ totalAmount cart' = totalAmount cart
    /\ settled cart'
    /\ Forall2 written (items cart) (items cart').
Proof.
  intros Hs Happ.
  apply getStrategy_inv in Hs as [[_ ->] | [[_ ->] | [_ ->]]].
  - eexists. split; [reflexivity|]. split; [reflexivity|]. split.
    + eexists. split; reflexivity.
    + apply written_refl.
  - eexists. split; [reflexivity|]. split; [reflexivity|]. split.
    + eexists. split; reflexivity.
    + cbn. rewrite applyItems_items. apply productwise_items_written.
  - cbn in Happ. destruct (bxgy_applicable_inv _ _ _ _ Happ) as (c & Hc & Hrep).
    cbn. unfold BxGyHandler.applyDiscount, BxGyHandler.bxgyConditions.
    rewrite Hc. cbn [asBxGy bind]. eexists. split; [reflexivity|].
    unfold BxGyHandler.applyTo. rewrite Hrep.
    split; [reflexivity|]. split.
    + eexists. split; reflexivity.
    + cbn [items setTotals setItems]. apply applyLoop_written, written_refl.
Qed.

Lemma applyDiscount_scenario_C :
  CartFactory.getStrategy ProductWiseHandler.ProductIdsOrCategories "product"
  = Some (ProductWiseHandler.strategy ProductWiseHandler.ProductIdsOrCategories)
  /\ isApplicable
       (ProductWiseHandler.strategy ProductWiseHandler.ProductIdsOrCategories)
       Scenario.cartC [Scenario.laptop20]
     = Returns [ {| ApplicableCoupons.id := "LAPTOP20";
                    ApplicableCoupons.discount := Num 10000;
                    ApplicableCoupons.type := "product" |} ]
  /\ exists cart',
       applyDiscount
         (ProductWiseHandler.strategy ProductWiseHandler.ProductIdsOrCategories)
         Scenario.cartC Scenario.laptop20 = Returns cart'
       /\ totalAmount cart' = 50000
       /\ settled cart'
       /\ Forall2 written (items Scenario.cartC) (items cart').
Proof.
  split; [reflexivity|]. split; [reflexivity|].
  exact (applyDiscount_settles_cart_and_prices_items
           ProductWiseHandler.ProductIdsOrCategories "product" _
           Scenario.cartC Scenario.laptop20 _ [] eq_refl eq_refl).
Defined.

(** ** A second [applyDiscount] *)


Lemma cartAmounts_eq (c1 c2 : Cart) :
  List.map amounts (items c1) = List.map amounts (items c2) ->
  totalAmount c1 = totalAmount c2 ->
  discountedAmount c1 = discountedAmount c2 ->
  subTotal c1 = subTotal c2 ->
  cartAmounts c1 = cartAmounts c2.
Proof.
  unfold cartAmounts, setItems. now intros -> -> -> ->.
Qed.


Section ProductWiseTwice.

Import ProductWiseHandler.

Variable rev : revision.
Variable conditions : option ProductWiseConditions.
Variable discountDetails : DiscountDetails.
Variable couponId : string.

Lemma matched_discountItem (item : CartItem) :
  matched rev conditions (discountItem discountDetails couponId item)
  = matched rev conditions item.
Proof. reflexivity. Qed.

Lemma touch_twice_amounts (item : CartItem) :
  amounts (touch rev conditions discountDetails couponId
             (touch rev conditions discountDetails couponId item))
  = amounts (touch rev conditions discountDetails couponId item).
Proof.
  unfold touch. destruct (matched rev conditions item) eqn:Hm.
  - now rewrite matched_discountItem, Hm.
  - now rewrite Hm.
Qed.

Lemma total_after_touch (its : list CartItem) (acc : Z) :
  fold_left
    (fun totalDiscount item =>
       if matched rev conditions item
       then totalDiscount + itemDiscount discountDetails item
       else totalDiscount)
    (List.map (touch rev conditions discountDetails couponId) its) acc
  = fold_left
      (fun totalDiscount item =>
         if matched rev conditions item
         then totalDiscount + itemDiscount discountDetails item
         else totalDiscount)
      its acc.
Proof.
  revert acc. induction its as [|item its IH]; intros acc; [reflexivity|].
  cbn [List.map fold_left]. rewrite <- IH. f_equal.
  unfold touch. destruct (matched rev conditions item) eqn:Hm.
  - now rewrite matched_discountItem, Hm.
  - now rewrite Hm.
Qed.

End ProductWiseTwice.

Lemma productwise_twice (rev : ProductWiseHandler.revision) (cart : Cart)
    (coupon : Coupon.t) :
  cartAmounts
    (ProductWiseHandler.applyDiscount rev
       (ProductWiseHandler.applyDiscount rev cart coupon) coupon)
  = cartAmounts (ProductWiseHandler.applyDiscount rev cart coupon).
Proof.
  unfold ProductWiseHandler.applyDiscount, cartAmounts.
  cbn [items totalAmount setTotals setItems discountedAmount subTotal].
  rewrite !applyItems_items, !applyItems_total, total_after_touch.
  rewrite !List.map_map.
  f_equal. apply List.map_ext. intros item. apply touch_twice_amounts.
Qed.

(** *** Buy-X-get-Y: the writes of the loop, and what two runs leave *)

Section BxGyTwice.

Import BxGyHandler.

Variable couponId : string.


Lemma plan_goods (its its' : list CartItem) (gets : list BxGyProduct.t)
    (remaining : jsnum) :
  List.map goods its = List.map goods its' ->
  plan its gets remaining = plan its' gets remaining.
Proof.
  intros Heq. revert remaining.
  induction gets as [|g gets IH]; intros r; [reflexivity|].
  cbn. destruct (JS.isZero r); [reflexivity|].
  pose proof (findItem_goods its its' (BxGyProduct.productId g) Heq) as Hf.
  destruct (findItem its (BxGyProduct.productId g)) as [x|],
           (findItem its' (BxGyProduct.productId g)) as [y|];
    cbn in Hf; try discriminate.
  - injection Hf as Hxy. unfold goods in Hxy.
    replace (quantity y) with (quantity x) by congruence.
    replace (price y) with (price x) by congruence.
    now rewrite IH.
  - apply IH.
Qed.

Lemma applyLoop_plan (gets : list BxGyProduct.t) (its : list CartItem)
    (totalDiscount remaining : jsnum) :
  fst (applyLoop couponId gets its totalDiscount remaining)
  = performAll couponId (plan its gets remaining) its.
Proof.
  revert its totalDiscount remaining.
  induction gets as [|g gets IH]; intros its t r; [reflexivity|].
  cbn [applyLoop plan]. destruct (JS.isZero r); [reflexivity|].
  destruct (findItem its (BxGyProduct.productId g)) as [x|]; [|apply IH].
  rewrite IH. cbn [performAll fold_left perform fst snd].
  f_equal. apply plan_goods.
  apply updateFirst_goods. intros item. apply grant_goods.
Qed.

(** Two writes to the same product: the later one stands. *)
Lemma perform_absorbs (w w' : string * jsnum * jsnum) (id id' : string)
    (its : list CartItem) :
  fst (fst w) = fst (fst w') ->
  List.map amounts (perform id' w' (perform id w its))
  = List.map amounts (perform id' w' its).
Proof.
  destruct w as [[p fq] d], w' as [[p' fq'] d']. cbn [fst snd]. intros <-.
  unfold perform; cbn [fst snd].
  induction its as [|item its IH]; [reflexivity|].
  cbn [updateFirst].
  destruct (String.eqb (product_id item) p) eqn:Hp.
  - cbn [updateFirst grant product_id]. rewrite Hp. reflexivity.
  - cbn [updateFirst]. rewrite Hp. cbn [List.map]. now rewrite IH.
Qed.

(** Writes to different products do not see each other. *)
Lemma perform_commutes (w w' : string * jsnum * jsnum) (id id' : string)
    (its : list CartItem) :
  fst (fst w) <> fst (fst w') ->
  perform id' w' (perform id w its) = perform id w (perform id' w' its).
Proof.
  destruct w as [[p fq] d], w' as [[p' fq'] d']. cbn [fst snd]. intros Hne.
  unfold perform; cbn [fst snd].
  induction its as [|item its IH]; [reflexivity|].
  cbn [updateFirst].
  destruct (String.eqb (product_id item) p) eqn:Hp,
           (String.eqb (product_id item) p') eqn:Hp';
    cbn [updateFirst grant product_id]; rewrite ?Hp, ?Hp'; try reflexivity.
  - apply String.eqb_eq in Hp, Hp'. congruence.
  - now rewrite IH.
Qed.

Lemma performAll_amounts (ws : list (string * jsnum * jsnum)) (id : string)
    (its its' : list CartItem) :
  List.map amounts its = List.map amounts its' ->
  List.map amounts (performAll id ws its)
  = List.map amounts (performAll id ws its').
Proof.
  revert its its'. induction ws as [|w ws IH]; intros its its' Heq;
    [assumption|].
  cbn [performAll fold_left]. apply IH. clear IH.
  destruct w as [[p fq] d]. unfold perform; cbn [fst snd].
  revert its' Heq. induction its as [|x its IHl]; intros [|y its'] Heq;
    try discriminate; [reflexivity|].
  cbn [List.map] in Heq.
  assert (Hxy : amounts x = amounts y) by congruence.
  assert (Hrest : List.map amounts its = List.map amounts its') by congruence.
  cbn [updateFirst].
  assert (Hid : product_id x = product_id y)
    by exact (f_equal product_id Hxy).
  rewrite Hid. destruct (String.eqb (product_id y) p).
  - cbn [List.map]. f_equal; [|assumption].
    unfold amounts in Hxy. injection Hxy as H1 H2 H3 H4 H5 H6 H7.
    unfold amounts, grant.
    cbn [product_id quantity price category total_discount final_price
         freeQuantity appliedCouponIds].
    now rewrite H1, H2, H3, H4.
  - cbn [List.map]. f_equal; [assumption|]. now apply IHl.
Qed.

(** A write that a later write to the same product follows is dead. *)
Lemma dead_write (w w' : string * jsnum * jsnum) (id : string)
    (ws : list (string * jsnum * jsnum)) (its : list CartItem) :
  fst (fst w) = fst (fst w') ->
  List.map amounts (perform id w' (performAll id ws (perform id w its)))
  = List.map amounts (perform id w' (performAll id ws its)).
Proof.
  intros Hp. revert its.
  induction ws as [|x ws IH]; intros its.
  - cbn. now apply perform_absorbs.
  - cbn [performAll fold_left].
    destruct (decide (fst (fst w) = fst (fst x))) as [Heq | Hne].
    + fold (performAll id ws (perform id x (perform id w its))).
      fold (performAll id ws (perform id x its)).
      assert (Hstep : List.map amounts (perform id x (perform id w its))
                      = List.map amounts (perform id x its))
        by now apply perform_absorbs.
      pose proof (performAll_amounts ws id _ _ Hstep) as Hall.
      apply (performAll_amounts [w'] id _ _ Hall).
    + rewrite perform_commutes by assumption. apply IH.
Qed.

Lemma performAll_twice (id : string) (ws : list (string * jsnum * jsnum))
    (its : list CartItem) :
  List.map amounts (performAll id ws (performAll id ws its))
  = List.map amounts (performAll id ws its).
Proof.
  revert its. induction ws as [|w ws IH] using rev_ind; intros its;
    [reflexivity|].
  unfold performAll. rewrite !fold_left_app. cbn [fold_left].
  fold (performAll id ws its).
  fold (performAll id ws (perform id w (performAll id ws its))).
  rewrite dead_write by reflexivity.
  apply (performAll_amounts [w] id). apply IH.
Qed.

Lemma bxgy_twice (cart : Cart) (c : BxGyConditions) :
  cartAmounts (applyTo (applyTo cart couponId c) couponId c)
  = cartAmounts (applyTo cart couponId c).
Proof.
  destruct (JS.isZero (actualRepetitions (calculateBxGyParams cart c)))
    eqn:Hrep.
  - unfold applyTo. now rewrite Hrep, Hrep.
  - assert (Hgoods : List.map goods (items (applyTo cart couponId c))
                     = List.map goods (items cart)).
    { unfold applyTo. rewrite Hrep. apply applyLoop_goods. }
    assert (Hitems : items (applyTo cart couponId c)
              = performAll couponId
                  (plan (items cart) (getProducts c)
                     (JS.mul (actualRepetitions (calculateBxGyParams cart c))
                        (Num (requiredGetQuantity (calculateBxGyParams cart c)))))
                  (items cart)).
    { unfold applyTo. rewrite Hrep. apply applyLoop_plan. }
    unfold applyTo at 1.
    rewrite (calculateBxGyParams_goods _ cart c Hgoods), Hrep.
    apply cartAmounts_eq.
    + cbn [items setTotals setItems]. rewrite applyLoop_plan.
      rewrite (plan_goods _ (items cart)) by exact Hgoods.
      rewrite Hitems. apply performAll_twice.
    + cbn [totalAmount setTotals setItems]. reflexivity.
    + cbn [discountedAmount setTotals setItems]. rewrite applyLoop_total.
      rewrite (discountLoop_goods _ (items cart)) by exact Hgoods.
      unfold applyTo. rewrite Hrep.
      cbn [discountedAmount setTotals setItems]. now rewrite applyLoop_total.
    + cbn [subTotal setTotals setItems totalAmount]. rewrite applyLoop_total.
      rewrite (discountLoop_goods _ (items cart)) by exact Hgoods.
      unfold applyTo. rewrite Hrep.
      cbn [subTotal setTotals setItems totalAmount].
      now rewrite applyLoop_total.
Qed.

End BxGyTwice.

(** C9, as stated, fails: "50 off" on the cart of 500 realises the discount
    50; the second [applyDiscount] assigns the same fields again and the
    cart still records 50, not 100. *)
Lemma second_applyDiscount_does_not_double_count :
  (exists once twice,
     applyDiscount CartWiseHandler.strategy Scenario.cartA Scenario.flat50
     = Returns once
     /\ discountedAmount once = Some (Num 50)
     /\ applyDiscount CartWiseHandler.strategy once Scenario.flat50
        = Returns twice
     /\ discountedAmount twice = Some (Num 50)
     /\ subTotal twice = Some (Num 450))
  /\ ~ doubleCounts CartWiseHandler.strategy Scenario.cartA Scenario.flat50.
Proof.
  split.
  - do 2 eexists. repeat split; reflexivity.
  - intros Hdouble.
    destruct (Hdouble _ 50 eq_refl eq_refl ltac:(lia)) as (twice & Htwice & Hd).
    cbn in Htwice. injection Htwice as <-. discriminate Hd.
Qed.

(** C9, amended.  [applyDiscount] recomputes the discount from the total,
    the quantities and the prices, which it never writes, and assigns it: a
    second invocation on the resulting cart returns a cart that records the
    same amounts as the first one, on the cart and on every item; for
    CartWide the cart is the same.  What a second invocation of ProductScoped
    and BuyXGetY adds is one more copy of the coupon identifier on the items
    it writes, as on a laptop under a coupon on its product identifier. *)
Theorem second_applyDiscount_records_same_amounts
    (rev : ProductWiseHandler.revision) (type : string)
    (strategy : CouponStrategy) (cart once : Cart) (coupon : Coupon.t) :
  CartFactory.getStrategy rev type = Some strategy ->
  applyDiscount strategy cart coupon = Returns once ->
  (exists twice,
     applyDiscount strategy once coupon = Returns twice
     /\ cartAmounts twice = cartAmounts once
     /\ (type = "cart" -> twice = once))
  /\ List.map appliedCouponIds
       (items (ProductWiseHandler.applyDiscount rev
                 (ProductWiseHandler.applyDiscount rev
                    (Scenario.cart
                       [Scenario.item "LAPTOP_001" 1 50000 None] 50000)
                    (Scenario.coupon "LAPTOP20" "Product"
                       (ProductWiseC {| productIds := Some ["LAPTOP_001"];
                                        categories := None;
                                        minQuantity := None |})
                       (percentage 20 None)))
                 (Scenario.coupon "LAPTOP20" "Product"
                    (ProductWiseC {| productIds := Some ["LAPTOP_001"];
                                     categories := None;
                                     minQuantity := None |})
                    (percentage 20 None))))
     = [Some ["LAPTOP20"; "LAPTOP20"]].
Proof.
  intros Hs Honce. split; [|now destruct rev].
  apply getStrategy_inv in Hs as [[Ht ->] | [[Ht ->] | [Ht ->]]].
  - cbn in Honce. injection Honce as <-.
    eexists. split; [reflexivity|]. split; [reflexivity|]. intros _.
    reflexivity.
  - cbn in Honce. injection Honce as <-.
    eexists. split; [reflexivity|]. split; [apply productwise_twice|].
    subst type. discriminate.
  - cbn [applyDiscount BxGyHandler.strategy] in *.
    unfold BxGyHandler.applyDiscount in *.
    destruct (BxGyHandler.bxgyConditions coupon) as [c|e];
      cbn [bind] in *; [|discriminate].
    injection Honce as <-.
    eexists. split; [reflexivity|]. split; [apply bxgy_twice|].
    subst type. discriminate.
Qed.

Lemma second_applyDiscount_scenario_D :
  CartFactory.getStrategy ProductWiseHandler.ProductIdsOrCategories "BxGy"
  = Some BxGyHandler.strategy
  /\ (exists once twice,
        applyDiscount BxGyHandler.strategy Scenario.cartD Scenario.buy2get1
        = Returns once
        /\ applyDiscount BxGyHandler.strategy once Scenario.buy2get1
           = Returns twice
        /\ discountedAmount once = Some (Num 30)
        /\ cartAmounts twice = cartAmounts once).
Proof.
  split; [reflexivity|].
  destruct (second_applyDiscount_records_same_amounts
              ProductWiseHandler.ProductIdsOrCategories "BxGy"
              BxGyHandler.strategy Scenario.cartD _ Scenario.buy2get1
              eq_refl eq_refl)
    as ((twice & Htwice & Hsame & _) & _).
  eexists. exists twice. split; [reflexivity|].
  split; [exact Htwice|]. split; [reflexivity|exact Hsame].
Defined.

(** * Further properties of the handlers and of the service *)

(** ** Who is a candidate *)

Lemma collect_In {A B : Type} (step : A -> option B) (l : list A) (y : B) :
  In y (collect step l) <-> exists x, In x l /\ step x = Some y.
Proof.
  induction l as [|x l IH]; cbn [collect In].
  - split; [tauto|]. intros (x & [] & _).
  - destruct (step x) as [z|] eqn:Hx; cbn [In]; rewrite ?IH; split.
    + intros [<- | (x' & Hin & Hs)]; [exists x; auto|exists x'; auto].
    + intros (x' & [<- | Hin] & Hs); [left; congruence|right; eauto].
    + intros (x' & Hin & Hs). exists x'. auto.
    + intros (x' & [<- | Hin] & Hs); [congruence|eauto].
Qed.

(** A guard [limit && test(limit)]: it lets pass when the limit is absent,
    zero, or the test fails. *)
Lemma truthy_guard_false (o : option Z) (test : Z -> bool) :
  JS.truthy o && test (default 0 o) = false
  <-> forall x, o = Some x -> x <> 0 -> test x = false.
Proof.
  unfold JS.truthy. destruct o as [x|]; cbv [default from_option id].
  - rewrite andb_false_iff, negb_false_iff, Z.eqb_eq. split.
    + intros [Hz | Ht] y [= <-] Hy; [contradiction|assumption].
    + intros H. destruct (Z.eq_dec x 0) as [Hz|Hz]; [now left|].
      right. now apply H.
  - split; [intros _ x [=]|reflexivity].
Qed.

Lemma cartwise_rejected_false (cart : Cart) (coupon : Coupon.t) :
  match asCartWise (Coupon.conditions coupon) with
  | Some conditions =>
      (totalAmount cart <? minCartValue conditions)
      || (JS.truthy (maxCartValue conditions)
          && (default 0 (maxCartValue conditions) <? totalAmount cart))
      || (JS.truthy (minItems conditions)
          && (Z.of_nat (length (items cart)) <? default 0 (minItems conditions)))
  | None => false
  end = false
  <-> cartWiseEligible cart coupon.
Proof.
  unfold cartWiseEligible.
  destruct (Coupon.conditions coupon) as [c|c|c]; cbn [asCartWise];
    try (split; [intros _ c' [=]|reflexivity]).
  pose proof (truthy_guard_false (maxCartValue c)
                (fun most => most <? totalAmount cart)) as Hmax.
  pose proof (truthy_guard_false (minItems c)
                (fun least => Z.of_nat (length (items cart)) <? least)) as Hitems.
  cbn beta in Hmax, Hitems.
  rewrite !orb_false_iff, Hmax, Hitems, Z.ltb_ge. split.
  - intros ((Hmin & H1) & H2) c' [= <-]. repeat split; [assumption| |].
    + intros most Hm Hz. apply Z.ltb_ge. now apply H1.
    + intros least Hl Hz. apply Z.ltb_ge. now apply H2.
  - intros H. destruct (H c eq_refl) as (Hmin & H1 & H2).
    repeat split; [assumption| |].
    + intros most Hm Hz. apply Z.ltb_ge. now apply H1.
    + intros least Hl Hz. apply Z.ltb_ge. now apply H2.
Qed.

Lemma cartwise_candidate_some (cart : Cart) (coupon : Coupon.t)
    (a : ApplicableCoupons.t) :
  CartWiseHandler.candidate cart coupon = Some a
  <-> cartWiseEligible cart coupon
      /\ 0 < CartWiseHandler.calculateDiscount cart coupon
      /\ a = {| ApplicableCoupons.id := Coupon.id coupon;
                ApplicableCoupons.discount :=
                  Num (CartWiseHandler.calculateDiscount cart coupon);
                ApplicableCoupons.type := "cart" |}.
Proof.
  rewrite <- cartwise_rejected_false. unfold CartWiseHandler.candidate.
  cbv zeta.
  destruct (match asCartWise (Coupon.conditions coupon) with
            | Some _ => _ | None => false end).
  - split; [discriminate|]. intros (H & _). discriminate.
  - destruct (CartWiseHandler.calculateDiscount cart coupon <=? 0) eqn:Hd.
    + apply Z.leb_le in Hd. split; [discriminate|]. intros (_ & H & _). lia.
    + apply Z.leb_gt in Hd. split.
      * intros [= <-]. auto.
      * intros (_ & _ & ->). reflexivity.
Qed.

(** X1. [CartWiseHandler.isApplicable] returns a candidate exactly for the
    coupons of the list that a cart with items satisfies: the total is at
    least [minCartValue], at most [maxCartValue] and the cart has at least
    [minItems] items (a bound that is absent or 0 does not count), and the
    discount is positive; the candidate carries the coupon's identifier, that
    discount and the type "cart". *)
Theorem cartwise_candidates_are_the_eligible_coupons
    (cart : Cart) (coupons : list Coupon.t) (a : ApplicableCoupons.t) :
  In a (CartWiseHandler.isApplicable cart coupons)
  <-> items cart <> []
      /\ exists coupon,
           In coupon coupons
           /\ cartWiseEligible cart coupon
           /\ 0 < CartWiseHandler.calculateDiscount cart coupon
           /\ a = {| ApplicableCoupons.id := Coupon.id coupon;
                     ApplicableCoupons.discount :=
                       Num (CartWiseHandler.calculateDiscount cart coupon);
                     ApplicableCoupons.type := "cart" |}.
Proof.
  unfold CartWiseHandler.isApplicable.
  destruct (items cart) as [|item its] eqn:Hitems.
  - cbn [In]. split; [tauto|]. intros (H & _). now apply H.
  - rewrite collect_In. split.
    + intros (coupon & Hin & Hc). split; [discriminate|].
      exists coupon. split; [assumption|]. now apply cartwise_candidate_some.
    + intros (_ & coupon & Hin & Hrest). exists coupon.
      split; [assumption|]. now apply cartwise_candidate_some.
Qed.

(** X2. The revision of [CartWiseHandler.isApplicable] that checks the
    status in its loop returns what the other revision returns on the
    coupons that are active and not expired: once the gate of the service
    has run, its own checks change nothing. *)
Theorem cartwise_inline_checks_are_a_filter
    (now : Z) (cart : Cart) (coupons : list Coupon.t) :
  CartWiseHandlerInline.isApplicable now cart coupons
  = CartWiseHandler.isApplicable cart
      (List.filter
         (fun coupon =>
            Coupon.isActive coupon && negb (CartService.expired now coupon))
         coupons)
  /\ CartWiseHandlerInline.isApplicable now cart
       (List.filter (CartService.gate now) coupons)
     = CartWiseHandler.isApplicable cart
         (List.filter (CartService.gate now) coupons).
Proof.
  unfold CartWiseHandlerInline.isApplicable, CartWiseHandler.isApplicable.
  destruct (items cart) as [|item its]; [split; reflexivity|]. split.
  - induction coupons as [|coupon coupons IH]; [reflexivity|].
    cbn [collect List.filter]. unfold CartWiseHandlerInline.candidate at 1.
    destruct (Coupon.isActive coupon); cbn [negb andb]; [|assumption].
    destruct (CartService.expired now coupon); cbn [negb]; [assumption|].
    cbn [collect]. now rewrite IH.
  - induction coupons as [|coupon coupons IH]; [reflexivity|].
    cbn [List.filter]. destruct (CartService.gate now coupon) eqn:Hgate;
      [|assumption].
    cbn [collect]. unfold CartWiseHandlerInline.candidate at 1.
    apply gate_true in Hgate as (-> & -> & _). cbn [negb]. now rewrite IH.
Qed.

Section ProductWiseEligibility.

Import ProductWiseHandler.

Variable rev : revision.

Lemma scanItems_quantity (conditions : option ProductWiseConditions)
    (its : list CartItem) :
  snd (scanItems rev conditions its) = matchedQuantity rev conditions its.
Proof.
  unfold scanItems.
  assert (H : forall acc,
    snd (fold_left
           (fun acc item =>
              if matched rev conditions item
              then (true, snd acc + quantity item) else acc)
           its acc)
    = snd acc + matchedQuantity rev conditions its).
  { induction its as [|item its IH]; intros acc; cbn [fold_left matchedQuantity].
    - lia.
    - rewrite IH. destruct (matched rev conditions item); cbn [snd]; lia. }
  rewrite H. cbn [snd]. lia.
Qed.

Lemma productwise_candidate_some (cart : Cart) (coupon : Coupon.t)
    (a : ApplicableCoupons.t) :
  candidate rev cart coupon = Some a
  <-> productWiseEligible rev cart coupon
      /\ 0 < calculateDiscount rev cart coupon
      /\ a = {| ApplicableCoupons.id := Coupon.id coupon;
                ApplicableCoupons.discount :=
                  Num (calculateDiscount rev cart coupon);
                ApplicableCoupons.type := "product" |}.
Proof.
  unfold candidate, productWiseEligible. cbv zeta.
  pose proof (scanItems_found rev (asProductWise (Coupon.conditions coupon))
                (items cart)) as Hfound.
  pose proof (scanItems_quantity (asProductWise (Coupon.conditions coupon))
                (items cart)) as Hqty.
  destruct (scanItems rev (asProductWise (Coupon.conditions coupon))
              (items cart)) as [has qty].
  cbn [fst snd] in Hfound, Hqty. subst has qty.
  set (conditions := asProductWise (Coupon.conditions coupon)).
  pose proof (truthy_guard_false (conditions ≫= minQuantity)
                (fun least =>
                   matchedQuantity rev conditions (items cart) <? least))
    as Hguard.
  cbn beta in Hguard.
  assert (Hmin :
    (forall x, conditions ≫= minQuantity = Some x -> x <> 0 ->
               (matchedQuantity rev conditions (items cart) <? x) = false)
    <-> (forall c least,
           Coupon.conditions coupon = ProductWiseC c ->
           minQuantity c = Some least -> least <> 0 ->
           least <= matchedQuantity rev conditions (items cart))).
  { subst conditions.
    destruct (Coupon.conditions coupon) as [c|c|c]; cbn; split.
    all: try (intros _ c' least Heq; discriminate Heq).
    all: try (intros _ x Heq; discriminate Heq).
    - intros H c' least [= <-] Hl Hz. apply Z.ltb_ge. now apply H.
    - intros H x Hx Hz. apply Z.ltb_ge. now apply (H c). }
  destruct (existsb (matched rev conditions) (items cart)) eqn:Hex;
    cbn [negb].
  - apply existsb_exists in Hex.
    destruct (JS.truthy (conditions ≫= minQuantity)
              && (matchedQuantity rev conditions (items cart)
                  <? default 0 (conditions ≫= minQuantity))) eqn:Hg.
    + split; [discriminate|]. intros ((_ & Hm) & _).
      pose proof (proj2 Hguard (proj2 Hmin Hm)). discriminate.
    + pose proof (proj1 Hmin (proj1 Hguard eq_refl)) as Hleast.
      destruct (calculateDiscount rev cart coupon <=? 0) eqn:Hd.
      * apply Z.leb_le in Hd. split; [discriminate|]. intros (_ & H & _). lia.
      * apply Z.leb_gt in Hd. split.
        -- intros [= <-]. auto.
        -- intros (_ & _ & ->). reflexivity.
  - split; [discriminate|]. intros (((item & Hin & Hm) & _) & _).
    assert (existsb (matched rev conditions) (items cart) = true)
      by (apply existsb_exists; eauto).
    congruence.
Qed.

End ProductWiseEligibility.

(** X3. [ProductWiseHandler.isApplicable], in both revisions, returns a
    candidate exactly for the coupons of the list for which the cart holds a
    concerned item, the quantities of the concerned items add up to
    [minQuantity] at least (absent or 0 does not count), and the discount is
    positive; the candidate carries the coupon's identifier, that discount
    and the type "product". *)
Theorem productwise_candidates_are_the_eligible_coupons
    (rev : ProductWiseHandler.revision) (cart : Cart)
    (coupons : list Coupon.t) (a : ApplicableCoupons.t) :
  In a (ProductWiseHandler.isApplicable rev cart coupons)
  <-> exists coupon,
        In coupon coupons
        /\ productWiseEligible rev cart coupon
        /\ 0 < ProductWiseHandler.calculateDiscount rev cart coupon
        /\ a = {| ApplicableCoupons.id := Coupon.id coupon;
                  ApplicableCoupons.discount :=
                    Num (ProductWiseHandler.calculateDiscount rev cart coupon);
                  ApplicableCoupons.type := "product" |}.
Proof.
  unfold ProductWiseHandler.isApplicable.
  destruct (items cart) as [|item its] eqn:Hitems.
  - cbn [In]. split; [tauto|].
    intros (coupon & _ & ((x & Hin & _) & _) & _).
    rewrite Hitems in Hin. contradiction.
  - rewrite collect_In. split.
    + intros (coupon & Hin & Hc). exists coupon. split; [assumption|].
      now apply productwise_candidate_some.
    + intros (coupon & Hin & Hrest). exists coupon. split; [assumption|].
      now apply productwise_candidate_some.
Qed.

(** ** The two revisions of [ProductWiseHandler] *)

Section ProductWiseRevisions.

Import ProductWiseHandler.

Variable r1 r2 : revision.
Variable conditions : option ProductWiseConditions.

Lemma discount_fold_ext (details : DiscountDetails) (its : list CartItem) (acc : Z) :
  (forall item, In item its ->
     matched r1 conditions item = matched r2 conditions item) ->
  fold_left
    (fun totalDiscount item =>
       if matched r1 conditions item
       then totalDiscount + itemDiscount details item
       else totalDiscount)
    its acc
  = fold_left
      (fun totalDiscount item =>
         if matched r2 conditions item
         then totalDiscount + itemDiscount details item
         else totalDiscount)
      its acc.
Proof.
  revert acc. induction its as [|item its IH]; intros acc Hsame; [reflexivity|].
  cbn [fold_left]. rewrite (Hsame item) by now left.
  apply IH. intros x Hx. apply Hsame. now right.
Qed.

Lemma scanItems_ext (its : list CartItem) :
  (forall item, In item its ->
     matched r1 conditions item = matched r2 conditions item) ->
  scanItems r1 conditions its = scanItems r2 conditions its.
Proof.
  unfold scanItems. generalize (false, 0).
  induction its as [|item its IH]; intros acc Hsame; [reflexivity|].
  cbn [fold_left]. rewrite (Hsame item) by now left.
  apply IH. intros x Hx. apply Hsame. now right.
Qed.

Lemma applyItems_ext (details : DiscountDetails) (couponId : string)
    (its : list CartItem) (acc : Z) :
  (forall item, In item its ->
     matched r1 conditions item = matched r2 conditions item) ->
  applyItems r1 conditions details couponId its acc
  = applyItems r2 conditions details couponId its acc.
Proof.
  revert acc. induction its as [|item its IH]; intros acc Hsame; [reflexivity|].
  cbn [applyItems]. rewrite (Hsame item) by now left.
  assert (Hrest : forall x, In x its ->
            matched r1 conditions x = matched r2 conditions x)
    by (intros x Hx; apply Hsame; now right).
  destruct (matched r2 conditions item); now rewrite IH.
Qed.

End ProductWiseRevisions.

Lemma matched_without_categories (cart : Cart) (coupon : Coupon.t)
    (item : CartItem) :
  withoutCategories cart coupon ->
  In item (items cart) ->
  ProductWiseHandler.matched ProductWiseHandler.ProductIdsOnly
    (asProductWise (Coupon.conditions coupon)) item
  = ProductWiseHandler.matched ProductWiseHandler.ProductIdsOrCategories
      (asProductWise (Coupon.conditions coupon)) item.
Proof.
  intros Hwithout Hin. unfold ProductWiseHandler.matched.
  assert (Hcat : ProductWiseHandler.isCategoryMatch
                   (asProductWise (Coupon.conditions coupon)) item = false).
  { unfold ProductWiseHandler.isCategoryMatch.
    destruct Hwithout as [Hnone | Hitems].
    - destruct (Coupon.conditions coupon) as [c|c|c]; cbn; try reflexivity.
      now rewrite (Hnone c eq_refl).
    - rewrite Forall_forall in Hitems.
      apply list_elem_of_In, Hitems in Hin. cbn beta in Hin. rewrite Hin.
      destruct (asProductWise (Coupon.conditions coupon)) as [c|];
        [|reflexivity].
      now destruct (categories c). }
  rewrite Hcat. now rewrite orb_false_r.
Qed.

(** X4. The two revisions of [ProductWiseHandler] differ through the
    category test only: on coupons whose conditions list no categories, and
    on carts whose items carry no category, [isApplicable],
    [calculateDiscount] and [applyDiscount] of the revision that matches
    product identifiers only and of the revision that also matches categories
    give the same results. *)
Theorem productwise_revisions_agree_without_categories
    (cart : Cart) (coupons : list Coupon.t) :
  Forall (withoutCategories cart) coupons ->
  ProductWiseHandler.isApplicable ProductWiseHandler.ProductIdsOnly cart coupons
  = ProductWiseHandler.isApplicable ProductWiseHandler.ProductIdsOrCategories
      cart coupons
  /\ forall coupon,
       In coupon coupons ->
       ProductWiseHandler.calculateDiscount ProductWiseHandler.ProductIdsOnly
         cart coupon
       = ProductWiseHandler.calculateDiscount
           ProductWiseHandler.ProductIdsOrCategories cart coupon
       /\ ProductWiseHandler.applyDiscount ProductWiseHandler.ProductIdsOnly
            cart coupon
          = ProductWiseHandler.applyDiscount
              ProductWiseHandler.ProductIdsOrCategories cart coupon.
Proof.
  intros Hall.
  assert (Hcalc : forall coupon, withoutCategories cart coupon ->
    ProductWiseHandler.calculateDiscount ProductWiseHandler.ProductIdsOnly
      cart coupon
    = ProductWiseHandler.calculateDiscount
        ProductWiseHandler.ProductIdsOrCategories cart coupon).
  { intros coupon Hwithout. unfold ProductWiseHandler.calculateDiscount.
    cbv zeta. apply discount_fold_ext. intros item Hin.
    now apply (matched_without_categories cart coupon). }
  split.
  - unfold ProductWiseHandler.isApplicable.
    destruct (items cart) as [|first its] eqn:Hitems; [reflexivity|].
    induction Hall as [|coupon coupons Hwithout Hall IH]; [reflexivity|].
    cbn [collect]. rewrite IH.
    unfold ProductWiseHandler.candidate.
    rewrite (scanItems_ext ProductWiseHandler.ProductIdsOnly
               ProductWiseHandler.ProductIdsOrCategories
               (asProductWise (Coupon.conditions coupon)) (items cart))
      by (intros item Hin; now apply (matched_without_categories cart coupon)).
    now rewrite (Hcalc coupon Hwithout).
  - intros coupon Hin. rewrite Forall_forall in Hall.
    apply list_elem_of_In, Hall in Hin. split; [now apply Hcalc|].
    unfold ProductWiseHandler.applyDiscount. cbv zeta.
    now rewrite (applyItems_ext ProductWiseHandler.ProductIdsOnly
                   ProductWiseHandler.ProductIdsOrCategories
                   (asProductWise (Coupon.conditions coupon))
                   (Coupon.discountDetails coupon) (Coupon.id coupon)
                   (items cart) 0)
      by (intros item Hitem; now apply (matched_without_categories cart coupon)).
Qed.

Lemma productwise_revisions_agree_example :
  let cart := Scenario.cart [Scenario.item "MOUSE" 2 50 (Some "Accessories")] 100 in
  let coupon :=
    Scenario.coupon "MOUSE10" "Product"
      (ProductWiseC {| productIds := Some ["MOUSE"]; categories := None;
                       minQuantity := Some 2 |})
      (percentage 10 None) in
  Forall (withoutCategories cart) [coupon]
  /\ ProductWiseHandler.isApplicable ProductWiseHandler.ProductIdsOnly cart [coupon]
     = ProductWiseHandler.isApplicable ProductWiseHandler.ProductIdsOrCategories
         cart [coupon].
Proof.
  cbv zeta.
  assert (H : Forall
    (withoutCategories
       (Scenario.cart [Scenario.item "MOUSE" 2 50 (Some "Accessories")] 100))
    [Scenario.coupon "MOUSE10" "Product"
       (ProductWiseC {| productIds := Some ["MOUSE"]; categories := None;
                        minQuantity := Some 2 |})
       (percentage 10 None)]).
  { constructor; [|constructor]. left. intros c [= <-]. reflexivity. }
  split; [exact H|].
  exact (proj1 (productwise_revisions_agree_without_categories _ _ H)).
Defined.

(** ** The coupon store *)

Lemma couponKey_inj (a b : string) :
  CartService.couponKey a = CartService.couponKey b -> a = b.
Proof.
  unfold CartService.couponKey. cbv [String.append]. intros H.
  now injection H.
Qed.

Lemma prefix_append (p s : string) :
  String.prefix p s = true <-> exists rest, s = p +:+ rest.
Proof.
  revert s. induction p as [|a p IH]; intros s.
  - split; [intros _; now exists s|]. intros _. now destruct s.
  - assert (Hcons : forall rest, String a p +:+ rest = String a (p +:+ rest))
      by reflexivity.
    destruct s as [|b s]; cbn [String.prefix].
    + split; [discriminate|]. intros (rest & H). rewrite Hcons in H.
      discriminate H.
    + destruct (Ascii.ascii_dec a b) as [<-|Hne].
      * rewrite IH. split; intros (rest & H); exists rest.
        -- rewrite Hcons. now f_equal.
        -- rewrite Hcons in H. now injection H.
      * split; [discriminate|]. intros (rest & H). rewrite Hcons in H.
        injection H as Hab _. now subst.
Qed.

Lemma getAllCoupons_In (store : gmap string Coupon.t) (coupon : Coupon.t) :
  In coupon (CouponStore.getAllCoupons store)
  <-> exists id, CartService.getCouponById store id = Some coupon.
Proof.
  unfold CouponStore.getAllCoupons, CouponStore.couponKeys,
    CartService.getCouponById.
  rewrite in_map_iff. split.
  - intros ([key value] & Hsnd & Hin). cbn in Hsnd. subst value.
    apply filter_In in Hin as (Hin & Hprefix). cbn in Hprefix.
    apply prefix_append in Hprefix as (id & ->).
    apply list_elem_of_In, elem_of_map_to_list in Hin. now exists id.
  - intros (id & Hget). exists (CartService.couponKey id, coupon).
    split; [reflexivity|]. apply filter_In. split.
    + now apply list_elem_of_In, elem_of_map_to_list.
    + cbn. apply prefix_append. now exists id.
Qed.

Lemma Permutation_list_filter {A : Type} (f : A -> bool) (l l' : list A) :
  Permutation l l' -> Permutation (List.filter f l) (List.filter f l').
Proof.
  induction 1 as [|x l l' _ IH|x y l|l l' l'' _ IH1 _ IH2]; cbn [List.filter].
  - constructor.
  - destruct (f x); [now constructor|assumption].
  - destruct (f x), (f y); try reflexivity. constructor.
  - now transitivity (List.filter f l').
Qed.

(** X5. [getAllCoupons] (the revision that reads the keys under
    [coupon:]) returns exactly the coupons that [getCouponById] finds under
    some identifier: every stored coupon is listed, and nothing is listed
    that no identifier leads to.  It returns the empty list on the empty
    store, and what is stored under a key of another form does not count:
    the same coupons are listed with and without it. *)
Theorem getAllCoupons_lists_what_getCouponById_finds
    (store : gmap string Coupon.t) (coupon : Coupon.t) :
  (In coupon (CouponStore.getAllCoupons store)
   <-> exists id, CartService.getCouponById store id = Some coupon)
  /\ CouponStore.getAllCoupons ∅ = []
  /\ (forall key value,
        String.prefix "coupon:" key = false ->
        In coupon (CouponStore.getAllCoupons (<[key := value]> store))
        <-> In coupon (CouponStore.getAllCoupons (delete key store))).
Proof.
  split; [apply getAllCoupons_In|]. split.
  - unfold CouponStore.getAllCoupons, CouponStore.couponKeys.
    now rewrite map_to_list_empty.
  - intros key value Hprefix. rewrite !getAllCoupons_In.
    assert (Hother : forall id, key <> CartService.couponKey id).
    { intros id ->.
      assert (Htrue : String.prefix "coupon:" (CartService.couponKey id) = true)
        by (apply prefix_append; now exists id).
      congruence. }
    unfold CartService.getCouponById.
    split; intros (id & Hget); exists id.
    + rewrite lookup_insert_ne in Hget by apply Hother.
      now rewrite lookup_delete_ne by apply Hother.
    + rewrite lookup_delete_ne in Hget by apply Hother.
      now rewrite lookup_insert_ne by apply Hother.
Qed.

Lemma couponKey_prefix (id : string) :
  String.prefix "coupon:" (CartService.couponKey id) = true.
Proof. apply prefix_append. now exists id. Qed.

Lemma getCouponById_insert (store : gmap string Coupon.t) (id id' : string)
    (coupon : Coupon.t) :
  CartService.getCouponById (<[CartService.couponKey id := coupon]> store) id'
  = if decide (id = id') then Some coupon
    else CartService.getCouponById store id'.
Proof.
  unfold CartService.getCouponById. destruct (decide (id = id')) as [<-|Hne].
  - apply lookup_insert_eq.
  - apply lookup_insert_ne. intros H. now apply couponKey_inj in H.
Qed.

(** X6. [createCoupon] returns the coupon it was given and stores it under
    the coupon's identifier: [getCouponById] of this identifier then finds
    this coupon, whatever was stored there before, every other identifier
    finds what it found before, and [getAllCoupons] lists the coupon, as
    one more entry when the identifier was free. *)
Theorem createCoupon_then_lookup
    (store : gmap string Coupon.t) (coupon : Coupon.t) :
  let store' := snd (CouponStore.createCoupon store coupon) in
  fst (CouponStore.createCoupon store coupon) = coupon
  /\ CartService.getCouponById store' (Coupon.id coupon) = Some coupon
  /\ (forall id,
        id <> Coupon.id coupon ->
        CartService.getCouponById store' id = CartService.getCouponById store id)
  /\ In coupon (CouponStore.getAllCoupons store')
  /\ (CartService.getCouponById store (Coupon.id coupon) = None ->
      Permutation (CouponStore.getAllCoupons store')
        (coupon :: CouponStore.getAllCoupons store)).
Proof.
  cbv zeta. unfold CouponStore.createCoupon. cbn [fst snd].
  split; [reflexivity|]. split.
  { rewrite getCouponById_insert. now destruct (decide _). }
  split.
  { intros id Hne. rewrite getCouponById_insert.
    destruct (decide _) as [Heq|]; [congruence|reflexivity]. }
  split.
  { apply getAllCoupons_In. exists (Coupon.id coupon).
    rewrite getCouponById_insert. now destruct (decide _). }
  intros Hfree. unfold CouponStore.getAllCoupons, CouponStore.couponKeys.
  change (coupon :: List.map snd ?l)
    with (List.map snd ((CartService.couponKey (Coupon.id coupon), coupon) :: l)).
  apply Permutation_map.
  assert (Hhead :
    forall l,
      (CartService.couponKey (Coupon.id coupon), coupon)
        :: List.filter (fun entry : string * Coupon.t =>
                          String.prefix "coupon:" (fst entry)) l
      = List.filter (fun entry : string * Coupon.t =>
                       String.prefix "coupon:" (fst entry))
          ((CartService.couponKey (Coupon.id coupon), coupon) :: l)).
  { intros l. cbn [List.filter fst]. now rewrite couponKey_prefix. }
  rewrite Hhead. apply Permutation_list_filter.
  now apply map_to_list_insert.
Qed.

(** X7. [updateCoupon] writes only where a coupon is stored: on a missing
    identifier it answers [null] and leaves the store as it was; on a stored
    one it answers the new coupon and stores it under the identifier it was
    called with, so that [getCouponById] finds the new coupon there and
    every other identifier finds what it found before.  The store of
    [applyCoupon]'s bookkeeping is updated the same way. *)
Theorem updateCoupon_writes_only_where_a_coupon_is
    (store : gmap string Coupon.t) (id : string) (coupon : Coupon.t) :
  let result := CouponStore.updateCoupon store id coupon in
  (CartService.getCouponById store id = None -> result = (None, store))
  /\ ((exists old, CartService.getCouponById store id = Some old) ->
      fst result = Some coupon
      /\ CartService.getCouponById (snd result) id = Some coupon
      /\ forall other,
           other <> id ->
           CartService.getCouponById (snd result) other
           = CartService.getCouponById store other)
  /\ (forall cart events,
        CartService.redis
          (CartService.updateCoupon
             {| CartService.redis := store; CartService.cartObject := cart;
                CartService.log := events |} id coupon)
        = snd result).
Proof.
  cbv zeta. unfold CouponStore.updateCoupon, CartService.updateCoupon.
  cbn [CartService.redis].
  destruct (CartService.getCouponById store id) as [old|] eqn:Hget;
    cbn [fst snd CartService.redis].
  - split; [discriminate|]. split; [|reflexivity]. intros _.
    split; [reflexivity|]. split.
    + rewrite getCouponById_insert. now destruct (decide _).
    + intros other Hne. rewrite getCouponById_insert.
      destruct (decide _); [congruence|reflexivity].
  - split; [reflexivity|]. split; [|reflexivity]. intros (old & [=]).
Qed.

(** X8. [deleteCoupon] answers [true] exactly when a coupon was stored
    under the identifier; afterwards [getCouponById] of this identifier
    finds nothing, every other identifier finds what it found before,
    [getAllCoupons] lists no coupon that it did not list before, and a second
    [deleteCoupon] of the same identifier answers [false]. *)
Theorem deleteCoupon_removes_the_coupon
    (store : gmap string Coupon.t) (id : string) :
  let result := CouponStore.deleteCoupon store id in
  (fst result = true
   <-> exists coupon, CartService.getCouponById store id = Some coupon)
  /\ CartService.getCouponById (snd result) id = None
  /\ (forall other,
        other <> id ->
        CartService.getCouponById (snd result) other
        = CartService.getCouponById store other)
  /\ (forall coupon,
        In coupon (CouponStore.getAllCoupons (snd result)) ->
        In coupon (CouponStore.getAllCoupons store))
  /\ CouponStore.deleteCoupon (snd result) id = (false, snd result).
Proof.
  cbv zeta.
  assert (Hother : forall other, other <> id ->
            CartService.getCouponById (delete (CartService.couponKey id) store)
              other
            = CartService.getCouponById store other).
  { intros other Hne. unfold CartService.getCouponById.
    apply lookup_delete_ne. intros H. apply couponKey_inj in H. congruence. }
  unfold CouponStore.deleteCoupon, CartService.getCouponById in *.
  destruct (store !! CartService.couponKey id) as [coupon|] eqn:Hget;
    cbn [fst snd].
  - split; [split; eauto|]. split; [apply lookup_delete_eq|].
    split; [exact Hother|]. split.
    + intros c Hin. apply getAllCoupons_In in Hin as (other & Hc).
      apply getAllCoupons_In. exists other.
      unfold CartService.getCouponById in *.
      apply lookup_delete_Some in Hc as (_ & Hc). exact Hc.
    + now rewrite lookup_delete_eq.
  - split; [split; [discriminate|intros (c & [=])]|].
    split; [assumption|]. split; [reflexivity|]. split; [auto|].
    now rewrite Hget.
Qed.

(** ** Discovery, whatever the stored coupons are *)

Lemma inherited_getProperty (coupon : Coupon.t)
    (carts products bxgys : list Coupon.t) :
  inheritedName coupon = true ->
  CartService.getProperty
    [("cart", carts); ("product", products); ("BxGy", bxgys)]
    (CartService.strategyType coupon)
  = CartService.Inherited.
Proof.
  unfold inheritedName. intros H. apply includes_In in H.
  unfold CartService.strategyType, CartService.getProperty.
  unfold CartService.objectPrototypeProperties in H. cbn [In] in H.
  repeat (destruct H as [H|H]; [rewrite <- H; reflexivity|]).
  contradiction.
Qed.

Lemma groupByType_cons (coupon : Coupon.t) (rest : list Coupon.t)
    (groups : list (string * list Coupon.t)) :
  CartService.groupByType (coupon :: rest) groups
  = let* groups' := CartService.groupByType [coupon] groups in
    CartService.groupByType rest groups'.
Proof.
  cbn [CartService.groupByType].
  now destruct (CartService.getProperty groups (CartService.strategyType coupon)).
Qed.

Lemma ofType_cons (key : string) (coupon : Coupon.t) (rest : list Coupon.t) :
  ofType key (coupon :: rest) = ofType key [coupon] ++ ofType key rest.
Proof.
  unfold ofType. cbn [List.filter].
  now destruct (String.eqb key (CartService.strategyType coupon)).
Qed.

Lemma groupByType_outcome (coupons carts products bxgys : list Coupon.t) :
  CartService.groupByType coupons
    [("cart", carts); ("product", products); ("BxGy", bxgys)]
  = if existsb inheritedName coupons then Throws CartService.pushError
    else Returns [ ("cart", carts ++ ofType "cart" coupons);
                   ("product", products ++ ofType "product" coupons);
                   ("BxGy", bxgys ++ ofType "BxGy" coupons) ].
Proof.
  revert carts products bxgys.
  induction coupons as [|coupon rest IH]; intros carts products bxgys.
  - cbn. now rewrite !app_nil_r.
  - cbn [existsb]. destruct (inheritedName coupon) eqn:Hname; cbn [orb].
    + cbn [CartService.groupByType]. now rewrite inherited_getProperty.
    + rewrite groupByType_cons.
      rewrite (groupByType_groups [coupon])
        by (constructor; [assumption|constructor]).
      cbn [bind]. rewrite IH.
      rewrite (ofType_cons "cart" coupon rest),
        (ofType_cons "product" coupon rest), (ofType_cons "BxGy" coupon rest).
      now rewrite !app_assoc.
Qed.

Lemma dispatch_outcome (rev : ProductWiseHandler.revision) (cart : Cart)
    (carts products bxgys : list Coupon.t) :
  CartService.dispatch rev cart
    [("cart", carts); ("product", products); ("BxGy", bxgys)] []
  = let* found := BxGyHandler.isApplicable cart bxgys in
    Returns (CartWiseHandler.isApplicable cart carts
             ++ ProductWiseHandler.isApplicable rev cart products
             ++ found).
Proof.
  destruct (BxGyHandler.isApplicable cart bxgys) as [found|e] eqn:Hfound;
    cbn [bind].
  - now apply dispatch_groups.
  - assert (Hb : forall acc,
      CartService.dispatch rev cart [("BxGy", bxgys)] acc = Throws e).
    { intros acc. cbn [CartService.dispatch]. destruct bxgys as [|b bs].
      - unfold BxGyHandler.isApplicable in Hfound.
        destruct (items cart); discriminate.
      - rewrite getStrategy_BxGy.
        cbn [isApplicable BxGyHandler.strategy]. now rewrite Hfound. }
    assert (Hp : forall acc,
      CartService.dispatch rev cart [("product", products); ("BxGy", bxgys)] acc
      = Throws e).
    { intros acc. destruct products as [|p ps]; [apply Hb|].
      change (CartService.dispatch rev cart
                [("product", p :: ps); ("BxGy", bxgys)] acc)
        with (CartService.dispatch rev cart [("BxGy", bxgys)]
                (acc ++ ProductWiseHandler.isApplicable rev cart (p :: ps))).
      apply Hb. }
    destruct carts as [|c cs]; [apply Hp|].
    change (CartService.dispatch rev cart
              [("cart", c :: cs); ("product", products); ("BxGy", bxgys)] [])
      with (CartService.dispatch rev cart [("product", products); ("BxGy", bxgys)]
              ([] ++ CartWiseHandler.isApplicable cart (c :: cs))).
    apply Hp.
Qed.

Lemma bxgy_candidates_outcome (cart : Cart) (coupons : list Coupon.t) :
  BxGyHandler.candidates cart coupons
  = if forallb hasBxGyPayload coupons
    then Returns (collect (bxgyCandidate cart) coupons)
    else Throws BxGyHandler.typeError.
Proof.
  induction coupons as [|coupon rest IH]; [reflexivity|].
  cbn [BxGyHandler.candidates forallb collect].
  unfold BxGyHandler.bxgyConditions, hasBxGyPayload at 1, bxgyCandidate at 1.
  destruct (Coupon.conditions coupon) as [c|c|c]; cbn; try reflexivity.
  rewrite IH. destruct (forallb hasBxGyPayload rest); [|reflexivity].
  cbn. now destruct (BxGyHandler.candidate cart coupon c).
Qed.

Lemma findApplicableCoupons_outcome (rev : ProductWiseHandler.revision)
    (now : Z) (allCoupons : list Coupon.t) (cart : Cart) :
  CartService.findApplicableCoupons rev now allCoupons cart
  = let activeCoupons := List.filter (CartService.gate now) allCoupons in
    if existsb inheritedName activeCoupons then Throws CartService.pushError
    else
      let* bxgy := BxGyHandler.isApplicable cart (ofType "BxGy" activeCoupons) in
      Returns (CartService.sort
                 (CartWiseHandler.isApplicable cart (ofType "cart" activeCoupons)
                  ++ ProductWiseHandler.isApplicable rev cart
                       (ofType "product" activeCoupons)
                  ++ bxgy)).
Proof.
  unfold CartService.findApplicableCoupons, CartService.initialGroups.
  cbv zeta. rewrite groupByType_outcome.
  destruct (existsb inheritedName _); [reflexivity|].
  cbn [bind app]. rewrite dispatch_outcome.
  now destruct (BxGyHandler.isApplicable cart _).
Qed.

(** X9. The outcome of [findApplicableCoupons] on any list of stored
    coupons.  It throws the [push] error exactly when the type of a coupon
    that passes the gate names a member of [Object.prototype]; otherwise it
    returns no candidate on a cart without items; otherwise it throws the
    error of [BxGyHandler] exactly when a gated coupon tagged [BxGy] carries
    a payload of another shape; otherwise it returns, in some order, the
    candidates of [CartWiseHandler] for the gated coupons tagged [cart], of
    [ProductWiseHandler] for those tagged [Product] or [product] and of
    [BxGyHandler] for those tagged [BxGy].  When the discounts it returns
    are numbers, they are in descending order. *)
Theorem discovery_outcome_on_any_coupons
    (rev : ProductWiseHandler.revision) (now : Z)
    (allCoupons : list Coupon.t) (cart : Cart) :
  let activeCoupons := List.filter (CartService.gate now) allCoupons in
  sameCandidates
    (CartService.findApplicableCoupons rev now allCoupons cart)
    (if existsb inheritedName activeCoupons then Throws CartService.pushError
     else
       match items cart with
       | [] => Returns []
       | _ :: _ =>
           if forallb hasBxGyPayload (withTag ["BxGy"] activeCoupons)
           then
             Returns
               (CartWiseHandler.isApplicable cart
                  (withTag ["cart"] activeCoupons)
                ++ ProductWiseHandler.isApplicable rev cart
                     (withTag ["Product"; "product"] activeCoupons)
                ++ collect (bxgyCandidate cart)
                     (withTag ["BxGy"] activeCoupons))
           else Throws BxGyHandler.typeError
       end)
  /\ forall found,
       CartService.findApplicableCoupons rev now allCoupons cart
       = Returns found ->
       Forall finiteDiscount found ->
       StronglySorted discountGe found.
Proof.
  cbv zeta. rewrite findApplicableCoupons_outcome. cbv zeta.
  rewrite <- ofType_cart, <- ofType_product, <- ofType_BxGy. split.
  - destruct (existsb inheritedName _); [reflexivity|].
    unfold BxGyHandler.isApplicable, CartWiseHandler.isApplicable,
      ProductWiseHandler.isApplicable.
    destruct (items cart) as [|item its]; [constructor|].
    rewrite bxgy_candidates_outcome.
    destruct (forallb hasBxGyPayload _); [|reflexivity].
    cbn [bind sameCandidates]. apply sort_permutation.
  - intros found Hfound Hfinite.
    destruct (existsb inheritedName _); [discriminate|].
    destruct (BxGyHandler.isApplicable cart _) as [bxgy|e];
      cbn [bind] in Hfound; [|discriminate].
    injection Hfound as <-. apply sort_sorted.
    revert Hfinite. apply Permutation_Forall, sort_permutation.
Qed.

Lemma collect_singleton {A B : Type} (step : A -> option B) (x : A) (y : B) :
  collect step [x] = [y] <-> step x = Some y.
Proof.
  cbn [collect]. destruct (step x) as [z|].
  - split; now intros [= ->].
  - split; discriminate.
Qed.

Lemma cartwise_single (cart : Cart) (coupons : list Coupon.t)
    (a : ApplicableCoupons.t) :
  In a (CartWiseHandler.isApplicable cart coupons)
  <-> exists coupon,
        In coupon coupons /\ CartWiseHandler.isApplicable cart [coupon] = [a].
Proof.
  unfold CartWiseHandler.isApplicable. destruct (items cart) as [|item its].
  - split; [contradiction|]. now intros (coupon & _ & [=]).
  - rewrite collect_In. split; intros (coupon & Hin & H); exists coupon;
      (split; [assumption|]); now apply collect_singleton.
Qed.

Lemma productwise_single (rev : ProductWiseHandler.revision) (cart : Cart)
    (coupons : list Coupon.t) (a : ApplicableCoupons.t) :
  In a (ProductWiseHandler.isApplicable rev cart coupons)
  <-> exists coupon,
        In coupon coupons
        /\ ProductWiseHandler.isApplicable rev cart [coupon] = [a].
Proof.
  unfold ProductWiseHandler.isApplicable. destruct (items cart) as [|item its].
  - split; [contradiction|]. now intros (coupon & _ & [=]).
  - rewrite collect_In. split; intros (coupon & Hin & H); exists coupon;
      (split; [assumption|]); now apply collect_singleton.
Qed.

Lemma bxgy_single_candidate (cart : Cart) (coupon : Coupon.t)
    (a : ApplicableCoupons.t) :
  BxGyHandler.candidates cart [coupon] = Returns [a]
  <-> bxgyCandidate cart coupon = Some a.
Proof.
  cbn [BxGyHandler.candidates].
  unfold BxGyHandler.bxgyConditions, bxgyCandidate.
  destruct (Coupon.conditions coupon) as [c|c|c];
    cbn [asBxGy bind mbind option_bind].
  1, 2: split; discriminate.
  destruct (BxGyHandler.candidate cart coupon c) as [z|].
  - split; now intros [= ->].
  - split; discriminate.
Qed.

Lemma bxgy_single (cart : Cart) (coupons : list Coupon.t)
    (found : list ApplicableCoupons.t) (a : ApplicableCoupons.t) :
  BxGyHandler.isApplicable cart coupons = Returns found ->
  In a found
  <-> exists coupon,
        In coupon coupons
        /\ BxGyHandler.isApplicable cart [coupon] = Returns [a].
Proof.
  unfold BxGyHandler.isApplicable. destruct (items cart) as [|item its].
  - intros [= <-]. split; [contradiction|]. now intros (coupon & _ & [=]).
  - rewrite bxgy_candidates_outcome.
    destruct (forallb hasBxGyPayload coupons); [|discriminate].
    intros [= <-]. rewrite collect_In.
    split; intros (coupon & Hin & H); exists coupon;
      (split; [assumption|]); now apply bxgy_single_candidate.
Qed.

Lemma sort_In (l : list ApplicableCoupons.t) (a : ApplicableCoupons.t) :
  In a (CartService.sort l) <-> In a l.
Proof.
  split; apply Permutation_in;
    [apply sort_permutation|apply Permutation_sym, sort_permutation].
Qed.

Lemma ofType_In (key : string) (now : Z) (allCoupons : list Coupon.t)
    (coupon : Coupon.t) :
  In coupon (ofType key (List.filter (CartService.gate now) allCoupons))
  <-> In coupon allCoupons
      /\ CartService.gate now coupon = true
      /\ CartService.strategyType coupon = key.
Proof.
  unfold ofType. rewrite !filter_In, String.eqb_eq. intuition congruence.
Qed.

(** X10. What discovery returns is what applies singly: when
    [findApplicableCoupons] returns, a candidate is in its result exactly when
    it is the candidate that the strategy of some stored coupon that passes
    the gate returns for this coupon alone, which is the test [applyCoupon]
    makes. *)
Theorem discovery_lists_what_applies_singly
    (rev : ProductWiseHandler.revision) (now : Z)
    (allCoupons : list Coupon.t) (cart : Cart)
    (found : list ApplicableCoupons.t) (a : ApplicableCoupons.t) :
  CartService.findApplicableCoupons rev now allCoupons cart = Returns found ->
  In a found
  <-> exists coupon strategy,
        In coupon allCoupons
        /\ CartService.gate now coupon = true
        /\ CartFactory.getStrategy rev (CartService.strategyType coupon)
           = Some strategy
        /\ isApplicable strategy cart [coupon] = Returns [a].
Proof.
  rewrite findApplicableCoupons_outcome. cbv zeta.
  destruct (existsb inheritedName _); [discriminate|].
  destruct (BxGyHandler.isApplicable cart _) as [bxgy|e] eqn:Hbxgy;
    cbn [bind]; [|discriminate].
  intros [= <-]. rewrite sort_In, !in_app_iff.
  rewrite cartwise_single, productwise_single, (bxgy_single _ _ _ _ Hbxgy).
  split.
  - intros [(coupon & Hin & Happ) | [(coupon & Hin & Happ) | (coupon & Hin & Happ)]];
      apply ofType_In in Hin as (Hin & Hgate & Hkey); exists coupon.
    + exists CartWiseHandler.strategy. rewrite Hkey, getStrategy_cart.
      cbn [isApplicable CartWiseHandler.strategy]. now rewrite Happ.
    + exists (ProductWiseHandler.strategy rev).
      rewrite Hkey, getStrategy_product.
      cbn [isApplicable ProductWiseHandler.strategy]. now rewrite Happ.
    + exists BxGyHandler.strategy. rewrite Hkey, getStrategy_BxGy.
      cbn [isApplicable BxGyHandler.strategy]. now rewrite Happ.
  - intros (coupon & strategy & Hin & Hgate & Hs & Happ).
    apply getStrategy_inv in Hs as [[Hkey ->] | [[Hkey ->] | [Hkey ->]]];
      cbn [isApplicable CartWiseHandler.strategy ProductWiseHandler.strategy
             BxGyHandler.strategy] in Happ.
    + left. exists coupon. split; [now apply ofType_In|congruence].
    + right. left. exists coupon. split; [now apply ofType_In|congruence].
    + right. right. exists coupon. split; [now apply ofType_In|assumption].
Qed.

Lemma discovery_lists_example :
  CartService.findApplicableCoupons ProductWiseHandler.ProductIdsOrCategories
    1000 [Scenario.save10; Scenario.unknownTag] Scenario.cartA
  = Returns [ {| ApplicableCoupons.id := "SAVE10";
                 ApplicableCoupons.discount := Num 5;
                 ApplicableCoupons.type := "cart" |} ]
  /\ exists coupon strategy,
       In coupon [Scenario.save10; Scenario.unknownTag]
       /\ CartService.gate 1000 coupon = true
       /\ CartFactory.getStrategy ProductWiseHandler.ProductIdsOrCategories
            (CartService.strategyType coupon) = Some strategy
       /\ isApplicable strategy Scenario.cartA [coupon]
          = Returns [ {| ApplicableCoupons.id := "SAVE10";
                         ApplicableCoupons.discount := Num 5;
                         ApplicableCoupons.type := "cart" |} ].
Proof.
  assert (H : CartService.findApplicableCoupons
                ProductWiseHandler.ProductIdsOrCategories
                1000 [Scenario.save10; Scenario.unknownTag] Scenario.cartA
              = Returns [ {| ApplicableCoupons.id := "SAVE10";
                             ApplicableCoupons.discount := Num 5;
                             ApplicableCoupons.type := "cart" |} ])
    by (vm_compute; reflexivity).
  split; [exact H|].
  apply (proj1 (discovery_lists_what_applies_singly _ _ _ _ _ _ H)).
  now left.
Defined.

(** ** The candidate and the application *)

Lemma candidate_discount_recorded (rev : ProductWiseHandler.revision)
    (type : string) (strategy : CouponStrategy) (cart : Cart)
    (coupon : Coupon.t) (a : ApplicableCoupons.t) :
  CartFactory.getStrategy rev type = Some strategy ->
  isApplicable strategy cart [coupon] = Returns [a] ->
  ApplicableCoupons.id a = Coupon.id coupon
  /\ ApplicableCoupons.type a = type
  /\ calculateDiscount strategy cart coupon
     = Returns (ApplicableCoupons.discount a)
  /\ exists cart',
       applyDiscount strategy cart coupon = Returns cart'
       /\ discountedAmount cart' = Some (ApplicableCoupons.discount a)
       /\ subTotal cart'
          = Some (JS.sub (Num (totalAmount cart)) (ApplicableCoupons.discount a)).
Proof.
  intros Hs Happ.
  apply getStrategy_inv in Hs as [[-> ->] | [[-> ->] | [-> ->]]];
    cbn [isApplicable calculateDiscount applyDiscount CartWiseHandler.strategy
           ProductWiseHandler.strategy BxGyHandler.strategy] in *.
  - assert (Hcand : CartWiseHandler.candidate cart coupon = Some a).
    { unfold CartWiseHandler.isApplicable in Happ.
      destruct (items cart); [discriminate|].
      apply collect_singleton. congruence. }
    apply cartwise_candidate_some in Hcand as (_ & _ & ->).
    cbn [ApplicableCoupons.id ApplicableCoupons.type ApplicableCoupons.discount].
    repeat split. eexists. split; [reflexivity|]. split; reflexivity.
  - assert (Hcand : ProductWiseHandler.candidate rev cart coupon = Some a).
    { unfold ProductWiseHandler.isApplicable in Happ.
      destruct (items cart); [discriminate|].
      apply collect_singleton. congruence. }
    apply productwise_candidate_some in Hcand as (_ & _ & ->).
    cbn [ApplicableCoupons.id ApplicableCoupons.type ApplicableCoupons.discount].
    repeat split. eexists. split; [reflexivity|].
    unfold ProductWiseHandler.applyDiscount. cbv zeta.
    cbn [discountedAmount subTotal setTotals setItems totalAmount].
    rewrite applyItems_total. split; reflexivity.
  - assert (Hcand : bxgyCandidate cart coupon = Some a).
    { unfold BxGyHandler.isApplicable in Happ.
      destruct (items cart); [discriminate|].
      now apply bxgy_single_candidate. }
    unfold bxgyCandidate in Hcand.
    unfold BxGyHandler.calculateDiscount, BxGyHandler.applyDiscount,
      BxGyHandler.bxgyConditions.
    destruct (Coupon.conditions coupon) as [c|c|c]; try discriminate.
    cbn [asBxGy mbind option_bind bind] in *.
    unfold BxGyHandler.candidate in Hcand. cbv zeta in Hcand.
    destruct (_ <? _); [discriminate|].
    destruct (JS.isZero (BxGyHandler.actualRepetitions
                           (BxGyHandler.calculateBxGyParams cart c))) eqn:Hrep;
      [discriminate|].
    destruct (JS.isZero (JS.min _ _)); [discriminate|].
    destruct (JS.leZero (BxGyHandler.discountOf cart c)); [discriminate|].
    injection Hcand as <-.
    cbn [ApplicableCoupons.id ApplicableCoupons.type ApplicableCoupons.discount].
    repeat split. eexists. split; [reflexivity|].
    unfold BxGyHandler.applyTo, BxGyHandler.discountOf. cbv zeta.
    rewrite Hrep.
    cbn [discountedAmount subTotal setTotals setItems totalAmount].
    rewrite applyLoop_total. split; reflexivity.
Qed.

(** X11. A coupon is applied with the discount it was listed with: when
    the strategy of a stored coupon that passes the gate returns the
    candidate [a] for this coupon alone, then [calculateDiscount] returns the
    discount of [a], and [applyCoupon] returns a cart whose
    [discountedAmount] is the discount of [a] and whose [subTotal] is
    [totalAmount] less this discount; the candidate carries the coupon's
    identifier. *)
Theorem applicable_coupon_is_applied_with_its_discount
    (rev : ProductWiseHandler.revision) (now : Z) (couponId : string)
    (w : CartService.world) (coupon : Coupon.t) (strategy : CouponStrategy)
    (a : ApplicableCoupons.t) :
  CartService.getCouponById (CartService.redis w) couponId = Some coupon ->
  CartService.gate now coupon = true ->
  CartFactory.getStrategy rev (CartService.strategyType coupon) = Some strategy ->
  isApplicable strategy (CartService.cartObject w) [coupon] = Returns [a] ->
  ApplicableCoupons.id a = Coupon.id coupon
  /\ calculateDiscount strategy (CartService.cartObject w) coupon
     = Returns (ApplicableCoupons.discount a)
  /\ exists cart',
       fst (CartService.applyCoupon rev now couponId w) = Returns cart'
       /\ CartService.cartObject (snd (CartService.applyCoupon rev now couponId w))
          = cart'
       /\ discountedAmount cart' = Some (ApplicableCoupons.discount a)
       /\ subTotal cart'
          = Some (JS.sub (Num (totalAmount (CartService.cartObject w)))
                    (ApplicableCoupons.discount a)).
Proof.
  intros Hget Hgate Hs Happ.
  destruct (candidate_discount_recorded _ _ _ _ _ _ Hs Happ)
    as (Hid & _ & Hcalc & cart' & Happly & Hd & Hsub).
  split; [assumption|]. split; [assumption|]. exists cart'.
  unfold CartService.applyCoupon. rewrite Hget.
  apply gate_true in Hgate as (-> & -> & ->). cbn [negb].
  rewrite Hs, Happ, Happly. cbn [fst snd].
  split; [reflexivity|]. split; [|now split].
  unfold CartService.updateCoupon, CartService.discountApplied.
  cbn [CartService.redis]. rewrite Hget. reflexivity.
Qed.

Lemma applicable_coupon_example :
  let w :=
    {| CartService.redis := {[ "coupon:B2G1" := Scenario.buy2get1 ]};
       CartService.cartObject := Scenario.cartD;
       CartService.log := [] |} in
  let a := {| ApplicableCoupons.id := "B2G1";
              ApplicableCoupons.discount := Num 30;
              ApplicableCoupons.type := "BxGy" |} in
  CartService.getCouponById (CartService.redis w) "B2G1" = Some Scenario.buy2get1
  /\ CartService.gate 1000 Scenario.buy2get1 = true
  /\ isApplicable BxGyHandler.strategy Scenario.cartD [Scenario.buy2get1]
     = Returns [a]
  /\ exists cart',
       fst (CartService.applyCoupon ProductWiseHandler.ProductIdsOnly 1000
              "B2G1" w) = Returns cart'
       /\ discountedAmount cart' = Some (Num 30)
       /\ subTotal cart' = Some (Num 500).
Proof.
  cbv zeta.
  assert (Hget : CartService.getCouponById
                   (CartService.redis
                      {| CartService.redis :=
                           {[ "coupon:B2G1" := Scenario.buy2get1 ]};
                         CartService.cartObject := Scenario.cartD;
                         CartService.log := [] |}) "B2G1"
                 = Some Scenario.buy2get1)
    by (vm_compute; reflexivity).
  assert (Hgate : CartService.gate 1000 Scenario.buy2get1 = true)
    by reflexivity.
  assert (Hs : CartFactory.getStrategy ProductWiseHandler.ProductIdsOnly
                 (CartService.strategyType Scenario.buy2get1)
               = Some BxGyHandler.strategy) by reflexivity.
  assert (Happ : isApplicable BxGyHandler.strategy Scenario.cartD
                   [Scenario.buy2get1]
                 = Returns [ {| ApplicableCoupons.id := "B2G1";
                                ApplicableCoupons.discount := Num 30;
                                ApplicableCoupons.type := "BxGy" |} ])
    by (vm_compute; reflexivity).
  split; [exact Hget|]. split; [exact Hgate|]. split; [exact Happ|].
  destruct (applicable_coupon_is_applied_with_its_discount
              ProductWiseHandler.ProductIdsOnly 1000 "B2G1" _ _ _ _
              Hget Hgate Hs Happ)
    as (_ & _ & cart' & Hres & _ & Hd & Hsub).
  exists cart'. split; [exact Hres|]. split; [exact Hd|exact Hsub].
Defined.

Lemma empty_cart_not_applicable (rev : ProductWiseHandler.revision)
    (type : string) (strategy : CouponStrategy) (cart : Cart)
    (coupons : list Coupon.t) :
  items cart = [] ->
  CartFactory.getStrategy rev type = Some strategy ->
  isApplicable strategy cart coupons = Returns [].
Proof.
  intros Hitems Hs.
  apply getStrategy_inv in Hs as [[_ ->] | [[_ ->] | [_ ->]]]; cbn;
    unfold CartWiseHandler.isApplicable, ProductWiseHandler.isApplicable,
      BxGyHandler.isApplicable; now rewrite Hitems.
Qed.

(** X12. A cart without items gets no coupon: every strategy of the
    factory returns no candidate for it, whatever the coupons are, also
    coupons whose payload it could not read; discovery returns the empty list
    unless the grouping throws; and [applyCoupon] throws for every identifier
    and leaves the store, the cart and the log as they were. *)
Theorem empty_cart_gets_no_coupon
    (rev : ProductWiseHandler.revision) (now : Z) (cart : Cart) :
  items cart = [] ->
  (forall type strategy coupons,
     CartFactory.getStrategy rev type = Some strategy ->
     isApplicable strategy cart coupons = Returns [])
  /\ (forall allCoupons,
        CartService.findApplicableCoupons rev now allCoupons cart
        = if existsb inheritedName
               (List.filter (CartService.gate now) allCoupons)
          then Throws CartService.pushError
          else Returns [])
  /\ (forall couponId w,
        CartService.cartObject w = cart ->
        exists e,
          CartService.applyCoupon rev now couponId w = (Throws e, w)).
Proof.
  intros Hitems. split; [|split].
  - intros type strategy coupons. now apply empty_cart_not_applicable.
  - intros allCoupons. rewrite findApplicableCoupons_outcome. cbv zeta.
    destruct (existsb inheritedName _); [reflexivity|].
    unfold BxGyHandler.isApplicable, CartWiseHandler.isApplicable,
      ProductWiseHandler.isApplicable.
    now rewrite Hitems.
  - intros couponId w Hcart. unfold CartService.applyCoupon.
    destruct (CartService.getCouponById _ _) as [coupon|]; [|eauto].
    destruct (negb _); [eauto|].
    destruct (CartService.expired _ _); [eauto|].
    destruct (CartService.usageLimitReached _); [eauto|].
    destruct (CartFactory.getStrategy _ _) as [strategy|] eqn:Hs; [|eauto].
    rewrite Hcart.
    rewrite (empty_cart_not_applicable rev _ strategy cart [coupon] Hitems Hs).
    eauto.
Qed.

Lemma empty_cart_example :
  items (Scenario.cart [] 500) = []
  /\ CartService.applyCoupon ProductWiseHandler.ProductIdsOnly 1000 "FLAT50"
       {| CartService.redis := {[ "coupon:FLAT50" := Scenario.flat50 ]};
          CartService.cartObject := Scenario.cart [] 500;
          CartService.log := [] |}
     = (Throws CartService.notApplicable,
        {| CartService.redis := {[ "coupon:FLAT50" := Scenario.flat50 ]};
           CartService.cartObject := Scenario.cart [] 500;
           CartService.log := [] |}).
Proof.
  split; [reflexivity|].
  destruct (proj2 (proj2 (empty_cart_gets_no_coupon
                            ProductWiseHandler.ProductIdsOnly 1000
                            (Scenario.cart [] 500) eq_refl))
              "FLAT50"
              {| CartService.redis := {[ "coupon:FLAT50" := Scenario.flat50 ]};
                 CartService.cartObject := Scenario.cart [] 500;
                 CartService.log := [] |} eq_refl) as (e & He).
  rewrite He. f_equal.
  assert (Hfst : fst (CartService.applyCoupon ProductWiseHandler.ProductIdsOnly
                        1000 "FLAT50"
                        {| CartService.redis :=
                             {[ "coupon:FLAT50" := Scenario.flat50 ]};
                           CartService.cartObject := Scenario.cart [] 500;
                           CartService.log := [] |})
                 = Throws CartService.notApplicable)
    by (vm_compute; reflexivity).
  rewrite He in Hfst. exact Hfst.
Defined.

(** ** The candidates of a list of coupons *)

Lemma collect_app {A B : Type} (step : A -> option B) (l1 l2 : list A) :
  collect step (l1 ++ l2) = collect step l1 ++ collect step l2.
Proof.
  induction l1 as [|x l1 IH]; [reflexivity|].
  cbn [collect app]. destruct (step x); [cbn [app]|]; now rewrite IH.
Qed.

Lemma collect_sublist {A B C : Type} (step : A -> option B)
    (f : B -> C) (g : A -> C) (l : list A) :
  (forall x y, step x = Some y -> f y = g x) ->
  sublist (List.map f (collect step l)) (List.map g l).
Proof.
  intros Hstep. induction l as [|x l IH]; [constructor|].
  cbn [collect List.map]. destruct (step x) as [y|] eqn:Hx.
  - cbn [List.map]. rewrite (Hstep x y Hx). now constructor.
  - now constructor.
Qed.

Lemma bxgyCandidate_some (cart : Cart) (coupon : Coupon.t)
    (a : ApplicableCoupons.t) :
  bxgyCandidate cart coupon = Some a ->
  ApplicableCoupons.id a = Coupon.id coupon
  /\ ApplicableCoupons.type a = "BxGy".
Proof.
  unfold bxgyCandidate.
  destruct (asBxGy (Coupon.conditions coupon)) as [c|]; [|discriminate].
  cbn [mbind option_bind]. unfold BxGyHandler.candidate. cbv zeta.
  case_guards; try discriminate. now intros [= <-].
Qed.

(** X13. Every strategy of the factory takes the coupons one by one:
    [isApplicable] on two lists put together returns the candidates of the
    first list followed by those of the second one, and throws when it throws
    on one of the two.  What it returns holds at most one candidate per
    coupon, in the order of the coupons, each with the identifier of its
    coupon and the type of the strategy. *)
Theorem isApplicable_takes_coupons_one_by_one
    (rev : ProductWiseHandler.revision) (type : string)
    (strategy : CouponStrategy) (cart : Cart) (first second : list Coupon.t) :
  CartFactory.getStrategy rev type = Some strategy ->
  isApplicable strategy cart (first ++ second)
  = (let* a := isApplicable strategy cart first in
     let* b := isApplicable strategy cart second in
     Returns (a ++ b))
  /\ forall found,
       isApplicable strategy cart first = Returns found ->
       Forall (fun a => ApplicableCoupons.type a = type) found
       /\ sublist (List.map ApplicableCoupons.id found)
            (List.map Coupon.id first).
Proof.
  intros Hs.
  apply getStrategy_inv in Hs as [[-> ->] | [[-> ->] | [-> ->]]];
    cbn [isApplicable CartWiseHandler.strategy ProductWiseHandler.strategy
           BxGyHandler.strategy bind].
  - unfold CartWiseHandler.isApplicable.
    destruct (items cart) as [|item its].
    + split; [reflexivity|]. intros found [= <-].
      split; [constructor|apply sublist_nil_l].
    + split; [now rewrite collect_app|]. intros found [= <-]. split.
      * apply collect_Forall. intros x y Hy.
        now apply cartwise_candidate_some in Hy as (_ & _ & ->).
      * apply collect_sublist. intros x y Hy.
        now apply cartwise_candidate_some in Hy as (_ & _ & ->).
  - unfold ProductWiseHandler.isApplicable.
    destruct (items cart) as [|item its].
    + split; [reflexivity|]. intros found [= <-].
      split; [constructor|apply sublist_nil_l].
    + split; [now rewrite collect_app|]. intros found [= <-]. split.
      * apply collect_Forall. intros x y Hy.
        now apply productwise_candidate_some in Hy as (_ & _ & ->).
      * apply collect_sublist. intros x y Hy.
        now apply productwise_candidate_some in Hy as (_ & _ & ->).
  - unfold BxGyHandler.isApplicable.
    destruct (items cart) as [|item its].
    + split; [reflexivity|]. intros found [= <-].
      split; [constructor|apply sublist_nil_l].
    + rewrite !bxgy_candidates_outcome, forallb_app, collect_app. split.
      * now destruct (forallb hasBxGyPayload first),
          (forallb hasBxGyPayload second).
      * intros found Hfound.
        destruct (forallb hasBxGyPayload first); [|discriminate].
        injection Hfound as <-. split.
        -- apply collect_Forall. intros x y Hy.
           now apply bxgyCandidate_some in Hy.
        -- apply collect_sublist. intros x y Hy.
           now apply bxgyCandidate_some in Hy.
Qed.

Lemma isApplicable_one_by_one_example :
  CartFactory.getStrategy ProductWiseHandler.ProductIdsOnly "cart"
  = Some CartWiseHandler.strategy
  /\ isApplicable CartWiseHandler.strategy Scenario.cartA
       ([Scenario.save10] ++ [Scenario.flat50])
     = (let* a := isApplicable CartWiseHandler.strategy Scenario.cartA
                    [Scenario.save10] in
        let* b := isApplicable CartWiseHandler.strategy Scenario.cartA
                    [Scenario.flat50] in
        Returns (a ++ b)).
Proof.
  split; [reflexivity|].
  exact (proj1 (isApplicable_takes_coupons_one_by_one
                  ProductWiseHandler.ProductIdsOnly "cart"
                  CartWiseHandler.strategy Scenario.cartA
                  [Scenario.save10] [Scenario.flat50] eq_refl)).
Defined.

(** ** Bounds on the discounts *)

(** X14. A percentage coupon of [CartWiseHandler] never takes more than
    the cart is worth: on a cart of non-negative total, with a cap that is
    not negative, the discount lies between nothing and the total, it does
    not exceed the cap when one is set, and [applyDiscount] leaves a
    [subTotal] that is not negative. *)
Theorem cartwise_percentage_discount_within_total
    (cart : Cart) (coupon : Coupon.t) (rate : Z) (maxDiscount : option Z) :
  Coupon.discountDetails coupon = percentage rate maxDiscount ->
  0 <= totalAmount cart ->
  (forall most, maxDiscount = Some most -> 0 <= most) ->
  let d := CartWiseHandler.calculateDiscount cart coupon in
  0 <= d <= totalAmount cart
  /\ (forall most, maxDiscount = Some most -> most <> 0 -> d <= most)
  /\ exists rest,
       subTotal (CartWiseHandler.applyDiscount cart coupon) = Some (Num rest)
       /\ 0 <= rest <= totalAmount cart.
Proof.
  intros Hdetails Htotal Hcap. cbv zeta.
  assert (Hd : 0 <= CartWiseHandler.calculateDiscount cart coupon
               <= totalAmount cart
               /\ forall most, maxDiscount = Some most -> most <> 0 ->
                  CartWiseHandler.calculateDiscount cart coupon <= most).
  { unfold CartWiseHandler.calculateDiscount. rewrite Hdetails. cbv zeta.
    assert (Hdiv : 0 <= totalAmount cart / 100 <= totalAmount cart)
      by (Z.div_mod_to_equations; lia).
    destruct maxDiscount as [most|]; cbn [JS.truthy].
    - specialize (Hcap most eq_refl).
      destruct (most =? 0) eqn:Hz; cbn [negb];
        cbv [default from_option id].
      + apply Z.eqb_eq in Hz. split; [lia|]. intros m [= <-]. lia.
      + split; [lia|]. intros m [= <-] _. lia.
    - split; [lia|]. intros m [=]. }
  destruct Hd as (Hd & Hmost). split; [assumption|]. split; [assumption|].
  unfold CartWiseHandler.applyDiscount. cbv zeta. cbn [subTotal setTotals].
  eexists. split; [reflexivity|]. lia.
Qed.

Lemma cartwise_percentage_bounds_example :
  Coupon.discountDetails
    (Scenario.coupon "CAP3" "cart" (Scenario.minCart 0) (percentage 10 (Some 3)))
  = percentage 10 (Some 3)
  /\ 0 <= totalAmount Scenario.cartA
  /\ CartWiseHandler.calculateDiscount Scenario.cartA
       (Scenario.coupon "CAP3" "cart" (Scenario.minCart 0)
          (percentage 10 (Some 3))) <= 3.
Proof.
  split; [reflexivity|]. split; [cbn; lia|].
  refine (proj1 (proj2 (cartwise_percentage_discount_within_total
                          Scenario.cartA
                          (Scenario.coupon "CAP3" "cart" (Scenario.minCart 0)
                             (percentage 10 (Some 3)))
                          10 (Some 3) eq_refl _ _)) 3 eq_refl _).
  - cbn; lia.
  - intros most [= <-]. lia.
  - lia.
Defined.

Lemma cart_total_sum (its : list CartItem) (acc : Z) :
  fold_left (fun total item => total + price item * quantity item) its acc
  = acc + BxGySpec.total (fun item => price item * quantity item) its.
Proof.
  revert acc. induction its as [|item its IH]; intros acc;
    cbn [fold_left BxGySpec.total]; [lia|].
  rewrite IH. lia.
Qed.

Section ProductWiseBounds.

Import ProductWiseHandler.

Variable rev : revision.
Variable conditions : option ProductWiseConditions.
Variable details : DiscountDetails.

Lemma discount_fold_sum (its : list CartItem) (acc : Z) :
  fold_left
    (fun totalDiscount item =>
       if matched rev conditions item
       then totalDiscount + itemDiscount details item
       else totalDiscount)
    its acc
  = acc + BxGySpec.total
            (fun item =>
               if matched rev conditions item then itemDiscount details item
               else 0)
            its.
Proof.
  revert acc. induction its as [|item its IH]; intros acc;
    cbn [fold_left BxGySpec.total]; [lia|].
  rewrite IH. destruct (matched rev conditions item); lia.
Qed.

Lemma matchedSubtotal_within (its : list CartItem) :
  Forall nonNegative its ->
  0 <= matchedSubtotal rev conditions its
  <= BxGySpec.total (fun item => price item * quantity item) its.
Proof.
  induction 1 as [|item its [Hp Hq] _ IH];
    cbn [matchedSubtotal BxGySpec.total]; [lia|].
  destruct (matched rev conditions item); nia.
Qed.

Variable rate : Z.
Variable maxDiscount : option Z.
Hypothesis Hdetails : details = percentage rate maxDiscount.
Hypothesis Hrate : 0 <= rate <= 100.
Hypothesis Hcap : forall most, maxDiscount = Some most -> 0 <= most.

Lemma itemDiscount_within (item : CartItem) :
  nonNegative item ->
  0 <= itemDiscount details item <= price item * quantity item.
Proof.
  intros [Hp Hq]. unfold itemDiscount. rewrite Hdetails. cbv zeta.
  assert (Htotal : 0 <= price item * quantity item) by nia.
  assert (Hdiv : 0 <= price item * quantity item * rate / 100
                 <= price item * quantity item).
  { split.
    - apply Z.div_pos; nia.
    - apply Z.div_le_upper_bound; nia. }
  destruct maxDiscount as [most|]; cbn [JS.truthy]; [|lia].
  specialize (Hcap most eq_refl).
  destruct (most =? 0); cbn [negb]; cbv [default from_option id]; lia.
Qed.

Lemma discount_sum_within (its : list CartItem) :
  Forall nonNegative its ->
  0 <= BxGySpec.total
         (fun item =>
            if matched rev conditions item then itemDiscount details item
            else 0)
         its
  <= matchedSubtotal rev conditions its.
Proof.
  induction 1 as [|item its Hitem _ IH];
    cbn [matchedSubtotal BxGySpec.total]; [lia|].
  pose proof (itemDiscount_within item Hitem).
  destruct (matched rev conditions item); lia.
Qed.

Lemma touch_within (couponId : string) (its : list CartItem) :
  Forall nonNegative its ->
  Forall2 discountedWithin its
    (List.map (touch rev conditions details couponId) its).
Proof.
  induction 1 as [|item its Hitem _ IH]; cbn [List.map]; constructor;
    [|assumption].
  unfold touch. destruct (matched rev conditions item); [|now left].
  right. split; [reflexivity|].
  exists (itemDiscount details item).
  split; [now apply itemDiscount_within|]. split; reflexivity.
Qed.

End ProductWiseBounds.

(** X15. Within the range of exact arithmetic, a percentage coupon of
    [ProductWiseHandler] never takes more than the concerned lines are
    worth: with an integer rate between 0 and 100, a cap that is not
    negative, items of non-negative integer price and quantity, and a
    hundred times the total of the lines a safe integer, the discount lies
    between nothing and the sub-total of the concerned items, which is at
    most [calculateCartTotal]; [applyDiscount] discounts every concerned
    item by at most the price of its line, and when [totalAmount] is the
    total of the items the [subTotal] it leaves is not negative. *)
Theorem productwise_percentage_discount_within_lines
    (rev : ProductWiseHandler.revision) (cart : Cart) (coupon : Coupon.t)
    (rate : Z) (maxDiscount : option Z) :
  Coupon.discountDetails coupon = percentage rate maxDiscount ->
  0 <= rate <= 100 ->
  (forall most, maxDiscount = Some most -> 0 <= most) ->
  Forall nonNegative (items cart) ->
  100 * CartService.calculateCartTotal cart <= maxSafeInteger ->
  let conditions := asProductWise (Coupon.conditions coupon) in
  let d := ProductWiseHandler.calculateDiscount rev cart coupon in
  let cart' := ProductWiseHandler.applyDiscount rev cart coupon in
  0 <= d <= matchedSubtotal rev conditions (items cart)
  /\ matchedSubtotal rev conditions (items cart)
     <= CartService.calculateCartTotal cart
  /\ Forall2 discountedWithin (items cart) (items cart')
  /\ discountedAmount cart' = Some (Num d)
  /\ (totalAmount cart = CartService.calculateCartTotal cart ->
      exists rest, subTotal cart' = Some (Num rest) /\ 0 <= rest).
Proof.
  intros Hdetails Hrate Hcap Hitems Hsafe. cbv zeta.
  pose proof (discount_sum_within rev
                (asProductWise (Coupon.conditions coupon))
                (Coupon.discountDetails coupon) rate maxDiscount
                Hdetails Hrate Hcap (items cart) Hitems) as Hsum.
  pose proof (matchedSubtotal_within rev
                (asProductWise (Coupon.conditions coupon))
                (items cart) Hitems) as Hsub.
  assert (Hd : ProductWiseHandler.calculateDiscount rev cart coupon
               = BxGySpec.total
                   (fun item =>
                      if ProductWiseHandler.matched rev
                           (asProductWise (Coupon.conditions coupon)) item
                      then ProductWiseHandler.itemDiscount
                             (Coupon.discountDetails coupon) item
                      else 0)
                   (items cart)).
  { unfold ProductWiseHandler.calculateDiscount. cbv zeta.
    rewrite discount_fold_sum. lia. }
  assert (Htotal : CartService.calculateCartTotal cart
                   = BxGySpec.total (fun item => price item * quantity item)
                       (items cart)).
  { unfold CartService.calculateCartTotal. rewrite cart_total_sum. lia. }
  rewrite Hd, Htotal. split; [lia|]. split; [lia|].
  unfold ProductWiseHandler.applyDiscount. cbv zeta.
  cbn [items discountedAmount subTotal setTotals setItems totalAmount].
  rewrite applyItems_items, applyItems_total, discount_fold_sum.
  split.
  { apply (touch_within rev _ _ rate maxDiscount); assumption. }
  split; [reflexivity|].
  intros Hcart. eexists. split; [reflexivity|]. lia.
Qed.

Lemma productwise_percentage_bounds_example :
  Coupon.discountDetails Scenario.laptop20 = percentage 20 None
  /\ 0 <= 20 <= 100
  /\ Forall nonNegative (items Scenario.cartC)
  /\ 100 * CartService.calculateCartTotal Scenario.cartC <= maxSafeInteger
  /\ ProductWiseHandler.calculateDiscount
       ProductWiseHandler.ProductIdsOrCategories Scenario.cartC Scenario.laptop20
     <= CartService.calculateCartTotal Scenario.cartC.
Proof.
  assert (Hitems : Forall nonNegative (items Scenario.cartC)).
  { constructor; [|constructor]. split; cbn; lia. }
  assert (Hsafe : 100 * CartService.calculateCartTotal Scenario.cartC
                  <= maxSafeInteger) by (vm_compute; discriminate).
  split; [reflexivity|]. split; [lia|]. split; [exact Hitems|].
  split; [exact Hsafe|].
  assert (Hrate : 0 <= 20 <= 100) by lia.
  assert (Hcap : forall most : Z, @None Z = Some most -> 0 <= most)
    by (intros most Hmost; discriminate Hmost).
  destruct (productwise_percentage_discount_within_lines
              ProductWiseHandler.ProductIdsOrCategories
              Scenario.cartC Scenario.laptop20 20 None eq_refl
              Hrate Hcap Hitems Hsafe) as (Hd & Hsub & _).
  lia.
Defined.

(** X16. Within the range of exact arithmetic, a fixed-amount coupon of
    [ProductWiseHandler] takes its amount once per unit: for an integer
    amount that is not negative, on items of non-negative quantity, and with
    the amount times the quantity of the concerned items a safe integer, the
    discount is that product, whatever the prices are, and [applyDiscount]
    records it as [discountedAmount]. *)
Theorem productwise_fixed_discount_is_per_unit
    (rev : ProductWiseHandler.revision) (cart : Cart) (coupon : Coupon.t)
    (value : Z) :
  Coupon.discountDetails coupon = fixed value ->
  0 <= value ->
  Forall (fun item => 0 <= quantity item) (items cart) ->
  value * matchedQuantity rev (asProductWise (Coupon.conditions coupon))
            (items cart)
  <= maxSafeInteger ->
  ProductWiseHandler.calculateDiscount rev cart coupon
  = value * matchedQuantity rev (asProductWise (Coupon.conditions coupon))
              (items cart)
  /\ discountedAmount (ProductWiseHandler.applyDiscount rev cart coupon)
     = Some (Num (value
                  * matchedQuantity rev
                      (asProductWise (Coupon.conditions coupon)) (items cart))).
Proof.
  intros Hdetails Hvalue Hitems Hsafe.
  assert (Hsum : forall its,
    BxGySpec.total
      (fun item =>
         if ProductWiseHandler.matched rev
              (asProductWise (Coupon.conditions coupon)) item
         then ProductWiseHandler.itemDiscount (Coupon.discountDetails coupon) item
         else 0)
      its
    = value * matchedQuantity rev (asProductWise (Coupon.conditions coupon)) its).
  { induction its as [|item its IH]; cbn [BxGySpec.total matchedQuantity];
      [lia|].
    rewrite IH. unfold ProductWiseHandler.itemDiscount. rewrite Hdetails.
    destruct (ProductWiseHandler.matched rev _ item); lia. }
  split.
  - unfold ProductWiseHandler.calculateDiscount. cbv zeta.
    rewrite discount_fold_sum, Hsum. lia.
  - unfold ProductWiseHandler.applyDiscount. cbv zeta.
    cbn [discountedAmount setTotals].
    rewrite applyItems_total, discount_fold_sum, Hsum. do 2 f_equal.
Qed.

Lemma productwise_fixed_example :
  let cart := Scenario.cart [Scenario.item "MOUSE" 3 50 None] 150 in
  let coupon :=
    Scenario.coupon "MOUSE100" "Product"
      (ProductWiseC {| productIds := Some ["MOUSE"]; categories := None;
                       minQuantity := None |})
      (fixed 100) in
  Coupon.discountDetails coupon = fixed 100
  /\ Forall (fun item => 0 <= quantity item) (items cart)
  /\ 100 * matchedQuantity ProductWiseHandler.ProductIdsOnly
             (asProductWise (Coupon.conditions coupon)) (items cart)
     <= maxSafeInteger
  /\ ProductWiseHandler.calculateDiscount ProductWiseHandler.ProductIdsOnly
       cart coupon = 100 * 3.
Proof.
  cbv zeta.
  set (cart := Scenario.cart [Scenario.item "MOUSE" 3 50 None] 150).
  set (coupon :=
    Scenario.coupon "MOUSE100" "Product"
      (ProductWiseC {| productIds := Some ["MOUSE"]; categories := None;
                       minQuantity := None |})
      (fixed 100)).
  assert (Hvalue : 0 <= 100) by lia.
  assert (Hitems : Forall (fun item => 0 <= quantity item) (items cart)).
  { repeat constructor. cbn. lia. }
  assert (Hsafe : 100 * matchedQuantity ProductWiseHandler.ProductIdsOnly
                          (asProductWise (Coupon.conditions coupon))
                          (items cart)
                  <= maxSafeInteger) by (vm_compute; discriminate).
  split; [reflexivity|]. split; [exact Hitems|]. split; [exact Hsafe|].
  exact (proj1 (productwise_fixed_discount_is_per_unit
                  ProductWiseHandler.ProductIdsOnly cart coupon 100 eq_refl
                  Hvalue Hitems Hsafe)).
Defined.

Section BxGyBounds.

Import BxGyHandler.

Lemma updateFirst_Forall2 (R : CartItem -> CartItem -> Prop)
    (productId : string) (g : CartItem -> CartItem)
    (its0 its : list CartItem) (cartItem : CartItem) :
  Forall2 R its0 its ->
  findItem its productId = Some cartItem ->
  (forall old, R old cartItem -> R old (g cartItem)) ->
  Forall2 R its0 (updateFirst productId g its).
Proof.
  intros HR Hfind Hg. revert Hfind.
  induction HR as [|old new its0 its Hnew Hrest IH];
    unfold findItem; cbn [List.find updateFirst]; [discriminate|].
  destruct (String.eqb (product_id new) productId).
  - intros [= <-]. constructor; [now apply Hg|assumption].
  - intros Hfind. constructor; [assumption|]. now apply IH.
Qed.

Lemma grantedWithin_goods (old new : CartItem) :
  grantedWithin old new -> goods new = goods old.
Proof. now intros [-> | [Hg _]]. Qed.

Lemma findItem_In (its : list CartItem) (productId : string) (item : CartItem) :
  findItem its productId = Some item -> In item its.
Proof. unfold findItem. intros H. now apply find_some in H. Qed.

Lemma applyLoop_grantedWithin (couponId : string) (gets : list BxGyProduct.t)
    (its0 its : list CartItem) (totalDiscount : jsnum) (remaining : Z) :
  Forall (fun item => 0 <= quantity item) its0 ->
  Forall2 grantedWithin its0 its ->
  0 <= remaining ->
  Forall2 grantedWithin its0
    (fst (applyLoop couponId gets its totalDiscount (Num remaining))).
Proof.
  intros Hq. revert its totalDiscount remaining.
  induction gets as [|g gets IH]; intros its t r Hw Hr;
    cbn [applyLoop fst]; [assumption|].
  destruct (JS.isZero (Num r)); [assumption|].
  destruct (findItem its (BxGyProduct.productId g)) as [cartItem|] eqn:Hfind;
    [|now apply IH].
  cbn [JS.min JS.sub JS.add JS.neg]. apply IH; [|lia].
  apply (updateFirst_Forall2 grantedWithin _ _ its0 its cartItem Hw Hfind).
  intros old Hold.
  assert (Hin : exists old', In old' its0 /\ grantedWithin old' cartItem).
  { apply findItem_In in Hfind. clear - Hw Hfind.
    induction Hw as [|x y l l' Hxy _ IHw]; [contradiction|].
    destruct Hfind as [<- | Hin].
    - exists x. split; [now left|assumption].
    - destruct (IHw Hin) as (z & Hz & Hg). exists z. split; [now right|assumption]. }
  destruct Hin as (old' & Hin' & Hold').
  assert (Hquantity : 0 <= quantity cartItem).
  { apply grantedWithin_goods in Hold'. unfold goods in Hold'.
    injection Hold' as _ Hqty _. rewrite Hqty.
    rewrite Forall_forall in Hq. now apply Hq, list_elem_of_In. }
  apply grantedWithin_goods in Hold. unfold goods in Hold.
  injection Hold as Hid Hqty Hprice.
  right. split.
  - rewrite grant_goods. unfold goods. congruence.
  - exists (Z.min (quantity cartItem) r).
    cbn [grant freeQuantity total_discount final_price JS.mul JS.floor JS.sub
           JS.add JS.neg].
    rewrite <- Hqty, <- Hprice. split; [lia|]. split; [reflexivity|].
    split; [reflexivity|]. do 2 f_equal; lia.
Qed.

End BxGyBounds.

Section BxGyWorth.

Variable its : list CartItem.
Hypothesis Hits : Forall nonNegative its.

Lemma nonNegative_quantities : Forall (fun item => 0 <= quantity item) its.
Proof. apply (Forall_impl _ _ _ Hits). now intros item [_ Hq]. Qed.

Lemma unitPrice_nonneg (productId : string) :
  0 <= BxGySpec.unitPrice its productId.
Proof.
  unfold BxGySpec.unitPrice.
  destruct (List.find _ its) as [item|] eqn:Hfind; [|lia].
  apply find_some in Hfind as [Hin _].
  rewrite Forall_forall in Hits.
  now apply list_elem_of_In, Hits in Hin as [Hp _].
Qed.

Lemma distribute_value_within (gets : list BxGyProduct.t) (remaining : Z) :
  0 <= remaining ->
  0 <= BxGySpec.value its (BxGySpec.distribute its gets remaining)
  <= BxGySpec.total
       (fun g => BxGySpec.cartQuantity its (BxGyProduct.productId g)
                 * BxGySpec.unitPrice its (BxGyProduct.productId g))
       gets.
Proof.
  revert remaining. induction gets as [|g gets IH]; intros remaining Hr;
    cbn [BxGySpec.distribute BxGySpec.total].
  - unfold BxGySpec.value. cbn. lia.
  - rewrite value_cons.
    pose proof (cartQuantity_nonneg its (BxGyProduct.productId g)
                  nonNegative_quantities) as Hq.
    pose proof (unitPrice_nonneg (BxGyProduct.productId g)) as Hp.
    specialize (IH (remaining
                    - Z.min remaining
                        (BxGySpec.cartQuantity its (BxGyProduct.productId g)))).
    assert (Hrest : 0 <= remaining
                         - Z.min remaining
                             (BxGySpec.cartQuantity its
                                (BxGyProduct.productId g))) by lia.
    specialize (IH Hrest). nia.
Qed.

End BxGyWorth.

Lemma line_nonneg (its : list CartItem) (productId : string) :
  Forall nonNegative its ->
  0 <= BxGySpec.cartQuantity its productId * BxGySpec.unitPrice its productId.
Proof.
  intros Hits.
  pose proof (cartQuantity_nonneg its productId (nonNegative_quantities its Hits)).
  pose proof (unitPrice_nonneg its Hits productId). nia.
Qed.

Lemma lines_of_other_products (item : CartItem) (its : list CartItem)
    (gets : list BxGyProduct.t) :
  ~ In (product_id item) (List.map BxGyProduct.productId gets) ->
  BxGySpec.total
    (fun g => BxGySpec.cartQuantity (item :: its) (BxGyProduct.productId g)
              * BxGySpec.unitPrice (item :: its) (BxGyProduct.productId g))
    gets
  = BxGySpec.total
      (fun g => BxGySpec.cartQuantity its (BxGyProduct.productId g)
                * BxGySpec.unitPrice its (BxGyProduct.productId g))
      gets.
Proof.
  induction gets as [|g gets IH]; intros Hnot; cbn [BxGySpec.total];
    [reflexivity|].
  cbn [List.map In] in Hnot. rewrite IH by tauto.
  unfold BxGySpec.cartQuantity, BxGySpec.unitPrice. cbn [List.find].
  destruct (String.eqb (product_id item) (BxGyProduct.productId g)) eqn:Heq;
    [|reflexivity].
  apply String.eqb_eq in Heq. exfalso. apply Hnot. left. now symmetry.
Qed.

Lemma lines_with_one_more_item (item : CartItem) (its : list CartItem)
    (gets : list BxGyProduct.t) :
  Forall nonNegative (item :: its) ->
  NoDup (List.map BxGyProduct.productId gets) ->
  BxGySpec.total
    (fun g => BxGySpec.cartQuantity (item :: its) (BxGyProduct.productId g)
              * BxGySpec.unitPrice (item :: its) (BxGyProduct.productId g))
    gets
  <= price item * quantity item
     + BxGySpec.total
         (fun g => BxGySpec.cartQuantity its (BxGyProduct.productId g)
                   * BxGySpec.unitPrice its (BxGyProduct.productId g))
         gets.
Proof.
  intros Hall Hdistinct.
  assert (Hitem : nonNegative item) by now inversion Hall.
  assert (Hits : Forall nonNegative its) by now inversion Hall.
  destruct Hitem as [Hp Hq].
  induction gets as [|g gets IH]; cbn [BxGySpec.total]; [nia|].
  cbn [List.map] in Hdistinct. apply NoDup_cons in Hdistinct as [Hnot Hrest].
  pose proof (line_nonneg its (BxGyProduct.productId g) Hits) as Hline.
  destruct (String.eqb (product_id item) (BxGyProduct.productId g)) eqn:Heq.
  - rewrite lines_of_other_products.
    + unfold BxGySpec.cartQuantity at 1, BxGySpec.unitPrice at 1.
      cbn [List.find]. rewrite Heq. lia.
    + apply String.eqb_eq in Heq. rewrite Heq.
      intros Hin. apply Hnot. now apply list_elem_of_In.
  - specialize (IH Hrest).
    unfold BxGySpec.cartQuantity at 1, BxGySpec.unitPrice at 1.
    cbn [List.find]. rewrite Heq.
    fold (BxGySpec.cartQuantity its (BxGyProduct.productId g)).
    fold (BxGySpec.unitPrice its (BxGyProduct.productId g)).
    lia.
Qed.

Lemma get_lines_within_total (its : list CartItem) (gets : list BxGyProduct.t) :
  Forall nonNegative its ->
  NoDup (List.map BxGyProduct.productId gets) ->
  BxGySpec.total
    (fun g => BxGySpec.cartQuantity its (BxGyProduct.productId g)
              * BxGySpec.unitPrice its (BxGyProduct.productId g))
    gets
  <= BxGySpec.total (fun item => price item * quantity item) its.
Proof.
  intros Hits Hdistinct. induction Hits as [|item its Hitem Hits IH].
  - clear. induction gets as [|g gets IH]; cbn [BxGySpec.total] in *; [lia|].
    change (BxGySpec.cartQuantity [] (BxGyProduct.productId g)) with 0. lia.
  - assert (Hall : Forall nonNegative (item :: its)) by now constructor.
    pose proof (lines_with_one_more_item item its gets Hall Hdistinct).
    cbn [BxGySpec.total]. lia.
Qed.

Lemma sum_of_quantities_nonneg (products : list BxGyProduct.t) :
  Forall (fun p => 0 <= BxGyProduct.quantity p) products ->
  0 <= BxGySpec.total BxGyProduct.quantity products.
Proof. induction 1; cbn [BxGySpec.total]; lia. Qed.

(** A get product that the coupon lists twice is granted twice: on the cart
    of Scenario D, whose line of B is worth 30, the discount is 60. *)
Lemma bxgy_get_product_listed_twice :
  BxGyHandler.calculateDiscount Scenario.cartD
    (Scenario.coupon "B2GBB" "BxGy"
       (Scenario.buyGet [("A", 2)] [("B", 1); ("B", 1)] 2) freeProduct)
  = Returns (Num 60).
Proof. reflexivity. Qed.

(** X17. Within the range of exact arithmetic, [BxGyHandler] never repeats
    the offer beyond the limit nor beyond what the cart holds, and with get
    products that are listed once each it never gives away more than the
    lines are worth: the number of repetitions is at most [repetitionLimit]
    and that many buy requirements fit in the buy quantity of the cart; the
    discount lies between nothing and the total of the lines; and
    [applyDiscount] leaves every item untouched or with a free quantity
    between nothing and its quantity, discounted at the price of the
    line. *)
Theorem bxgy_grants_within_limit_and_quantities
    (cart : Cart) (coupon : Coupon.t) (c : BxGyConditions) :
  Coupon.conditions coupon = BxGyC c ->
  exactBxGy cart c ->
  NoDup (List.map BxGyProduct.productId (getProducts c)) ->
  let params := BxGyHandler.calculateBxGyParams cart c in
  (exists repetitions,
     BxGyHandler.actualRepetitions params = Num repetitions
     /\ 0 <= repetitions <= repetitionLimit c
     /\ repetitions * BxGyHandler.requiredBuyQuantity params
        <= BxGyHandler.totalBuyQuantityInCart params)
  /\ (exists d,
        BxGyHandler.calculateDiscount cart coupon = Returns (Num d)
        /\ 0 <= d <= CartService.calculateCartTotal cart)
  /\ exists cart',
       BxGyHandler.applyDiscount cart coupon = Returns cart'
       /\ Forall2 grantedWithin (items cart) (items cart').
Proof.
  intros Hc (Hitems & _ & _ & Hgets & Hbuy & _ & Hlimit & _) Hdistinct.
  cbv zeta.
  pose proof (nonNegative_quantities (items cart) Hitems) as Hq.
  pose proof (sum_of_quantities_nonneg _ Hgets) as Hget.
  rewrite <- sumQuantity_total in Hget.
  assert (Hstock : 0 <= BxGyHandler.quantityInCart (items cart) (buyProducts c)).
  { rewrite quantityInCart_total. now apply total_cartQuantity_nonneg. }
  assert (Hrep : exists repetitions,
    BxGyHandler.actualRepetitions (BxGyHandler.calculateBxGyParams cart c)
    = Num repetitions
    /\ 0 <= repetitions <= repetitionLimit c
    /\ repetitions * BxGyHandler.sumQuantity (buyProducts c)
       <= BxGyHandler.quantityInCart (items cart) (buyProducts c)).
  { unfold BxGyHandler.calculateBxGyParams. cbv zeta.
    cbn [BxGyHandler.actualRepetitions]. unfold JS.floorDiv.
    destruct (BxGyHandler.sumQuantity (buyProducts c) =? 0) eqn:Hz;
      [apply Z.eqb_eq in Hz; lia|].
    cbn [JS.min]. eexists. split; [reflexivity|].
    pose proof (Z.div_pos _ _ Hstock Hbuy).
    pose proof (Z.mul_div_le
                  (BxGyHandler.quantityInCart (items cart) (buyProducts c))
                  _ Hbuy).
    split; [lia|]. nia. }
  split; [exact Hrep|]. split.
  { unfold BxGyHandler.calculateDiscount, BxGyHandler.bxgyConditions.
    rewrite Hc. cbn [asBxGy bind].
    rewrite discountOf_spec; try assumption;
      try (unfold BxGySpec.requiredBuyQty, BxGySpec.requiredGetQty;
           now rewrite <- sumQuantity_total).
    eexists. split; [reflexivity|].
    unfold BxGySpec.discount, CartService.calculateCartTotal.
    rewrite cart_total_sum.
    assert (Hentitled : 0 <= BxGySpec.entitlement cart c).
    { unfold BxGySpec.entitlement, BxGySpec.actualRepetitions,
        BxGySpec.maxRepetitions, BxGySpec.totalBuyQtyInCart,
        BxGySpec.requiredBuyQty, BxGySpec.requiredGetQty.
      rewrite <- quantityInCart_total, <- !sumQuantity_total.
      pose proof (Z.div_pos _ _ Hstock Hbuy). nia. }
    pose proof (distribute_value_within (items cart) Hitems (getProducts c)
                  _ Hentitled).
    pose proof (get_lines_within_total (items cart) (getProducts c)
                  Hitems Hdistinct).
    lia. }
  destruct Hrep as (repetitions & Hrep & Hbound & _).
  unfold BxGyHandler.applyDiscount, BxGyHandler.bxgyConditions.
  rewrite Hc. cbn [asBxGy bind]. eexists. split; [reflexivity|].
  unfold BxGyHandler.applyTo. cbv zeta. rewrite Hrep.
  destruct (JS.isZero (Num repetitions)).
  - clear. induction (items cart); constructor; [now left|assumption].
  - cbn [items setTotals setItems JS.mul
           BxGyHandler.requiredGetQuantity BxGyHandler.calculateBxGyParams].
    apply applyLoop_grantedWithin; [assumption| |nia].
    clear. induction (items cart); constructor; [now left|assumption].
Qed.

Lemma bxgy_grants_example :
  Coupon.conditions Scenario.buy2get1
  = Scenario.buyGet [("A", 2)] [("B", 1)] 2
  /\ exactBxGy Scenario.cartD
       {| buyProducts := [ {| BxGyProduct.productId := "A";
                              BxGyProduct.quantity := 2 |} ];
          getProducts := [ {| BxGyProduct.productId := "B";
                              BxGyProduct.quantity := 1 |} ];
          repetitionLimit := 2 |}
  /\ BxGyHandler.calculateDiscount Scenario.cartD Scenario.buy2get1
     = Returns (Num 30)
  /\ exists cart',
       BxGyHandler.applyDiscount Scenario.cartD Scenario.buy2get1
       = Returns cart'
       /\ Forall2 grantedWithin (items Scenario.cartD) (items cart').
Proof.
  assert (Hexact : exactBxGy Scenario.cartD
       {| buyProducts := [ {| BxGyProduct.productId := "A";
                              BxGyProduct.quantity := 2 |} ];
          getProducts := [ {| BxGyProduct.productId := "B";
                              BxGyProduct.quantity := 1 |} ];
          repetitionLimit := 2 |}).
  { unfold exactBxGy.
    repeat split;
      first [ vm_compute; discriminate
            | vm_compute; reflexivity
            | repeat constructor; cbn; lia ]. }
  assert (Hdistinct : NoDup (List.map BxGyProduct.productId
                               [ {| BxGyProduct.productId := "B";
                                    BxGyProduct.quantity := 1 |} ])).
  { cbn. apply NoDup_cons. split; [apply not_elem_of_nil|constructor]. }
  split; [reflexivity|]. split; [exact Hexact|]. split; [reflexivity|].
  exact (proj2 (proj2 (bxgy_grants_within_limit_and_quantities
                         Scenario.cartD Scenario.buy2get1 _ eq_refl
                         Hexact Hdistinct))).
Defined.

(** ** The total of a cart *)

Lemma cart_total_goods (its : list CartItem) :
  BxGySpec.total (fun item => price item * quantity item) its
  = BxGySpec.total (fun g : string * Z * Z => snd g * snd (fst g))
      (List.map goods its).
Proof.
  induction its as [|item its IH]; cbn [BxGySpec.total List.map]; [reflexivity|].
  now rewrite IH.
Qed.

Lemma total_permutation {A : Type} (f : A -> Z) (l l' : list A) :
  Permutation l l' -> BxGySpec.total f l = BxGySpec.total f l'.
Proof.
  induction 1 as [|x l l' _ IH|x y l|l l' l'' _ IH1 _ IH2];
    cbn [BxGySpec.total]; lia.
Qed.

Lemma applyDiscount_goods (rev : ProductWiseHandler.revision) (type : string)
    (strategy : CouponStrategy) (cart cart' : Cart) (coupon : Coupon.t) :
  CartFactory.getStrategy rev type = Some strategy ->
  applyDiscount strategy cart coupon = Returns cart' ->
  List.map goods (items cart') = List.map goods (items cart)
  /\ totalAmount cart' = totalAmount cart.
Proof.
  intros Hs Happly.
  apply getStrategy_inv in Hs as [[_ ->] | [[_ ->] | [_ ->]]];
    cbn [applyDiscount CartWiseHandler.strategy ProductWiseHandler.strategy
           BxGyHandler.strategy] in Happly.
  - injection Happly as <-. split; reflexivity.
  - injection Happly as <-. unfold ProductWiseHandler.applyDiscount.
    cbv zeta. cbn [items totalAmount setTotals setItems].
    split; [|reflexivity]. rewrite applyItems_items, List.map_map.
    apply List.map_ext. intros item. unfold touch.
    now destruct (ProductWiseHandler.matched rev _ item).
  - unfold BxGyHandler.applyDiscount in Happly.
    destruct (BxGyHandler.bxgyConditions coupon) as [c|e]; [|discriminate].
    cbn [bind] in Happly. injection Happly as <-.
    unfold BxGyHandler.applyTo. cbv zeta.
    destruct (JS.isZero _); [split; reflexivity|].
    cbn [items totalAmount setTotals setItems].
    split; [apply applyLoop_goods|reflexivity].
Qed.

(** X18. Within the range of exact arithmetic, [calculateCartTotal] counts
    the goods and nothing else: on items of non-negative integer price and
    quantity whose total is a safe integer, it is not negative, it is the
    same for every cart that holds the same product identifiers, quantities
    and prices in any order, whatever a coupon wrote on the items, and it is
    the sum of the totals of the two parts of the items, however they are
    split.  No [applyDiscount] changes it: every strategy leaves the
    product identifiers, quantities, prices and the number of items, and
    [totalAmount], as they were. *)
Theorem calculateCartTotal_counts_the_goods (cart : Cart) :
  Forall nonNegative (items cart) ->
  CartService.calculateCartTotal cart <= maxSafeInteger ->
  0 <= CartService.calculateCartTotal cart
  /\ (forall cart',
        Permutation (List.map goods (items cart)) (List.map goods (items cart')) ->
        CartService.calculateCartTotal cart'
        = CartService.calculateCartTotal cart)
  /\ (forall first second,
        items cart = first ++ second ->
        CartService.calculateCartTotal cart
        = CartService.calculateCartTotal (setItems cart first)
          + CartService.calculateCartTotal (setItems cart second))
  /\ (forall rev type strategy coupon cart',
        CartFactory.getStrategy rev type = Some strategy ->
        applyDiscount strategy cart coupon = Returns cart' ->
        List.map goods (items cart') = List.map goods (items cart)
        /\ totalAmount cart' = totalAmount cart
        /\ CartService.calculateCartTotal cart'
           = CartService.calculateCartTotal cart).
Proof.
  intros Hitems Hsafe.
  assert (Hgoods : forall cart',
    Permutation (List.map goods (items cart)) (List.map goods (items cart')) ->
    CartService.calculateCartTotal cart' = CartService.calculateCartTotal cart).
  { intros cart' Hperm. unfold CartService.calculateCartTotal.
    rewrite !cart_total_sum, !cart_total_goods.
    now rewrite (total_permutation _ _ _ Hperm). }
  split; [|split; [exact Hgoods|split]].
  - unfold CartService.calculateCartTotal. rewrite cart_total_sum.
    clear Hsafe Hgoods.
    induction Hitems as [|item its [Hp Hq] _ IH]; cbn [BxGySpec.total]; nia.
  - intros first second Hsplit. unfold CartService.calculateCartTotal.
    cbn [items setItems]. rewrite Hsplit, !cart_total_sum.
    clear. induction first as [|item its IH]; cbn [app BxGySpec.total]; lia.
  - intros rev type strategy coupon cart' Hs Happly.
    destruct (applyDiscount_goods rev type strategy cart cart' coupon Hs Happly)
      as (Hsame & Htotal).
    split; [assumption|]. split; [assumption|].
    apply Hgoods. now rewrite Hsame.
Qed.

Lemma calculateCartTotal_example :
  Forall nonNegative (items Scenario.cartD)
  /\ CartService.calculateCartTotal Scenario.cartD <= maxSafeInteger
  /\ CartService.calculateCartTotal
       (Scenario.cart [Scenario.item "B" 1 30 None; Scenario.item "A" 5 100 None]
          0)
     = CartService.calculateCartTotal Scenario.cartD.
Proof.
  assert (Hitems : Forall nonNegative (items Scenario.cartD)).
  { repeat constructor; cbn; lia. }
  assert (Hsafe : CartService.calculateCartTotal Scenario.cartD <= maxSafeInteger)
    by (vm_compute; discriminate).
  split; [exact Hitems|]. split; [exact Hsafe|].
  apply (proj1 (proj2 (calculateCartTotal_counts_the_goods
                         Scenario.cartD Hitems Hsafe))).
  apply perm_swap.
Defined.

(** ** The usage counter *)

Lemma applyCoupon_returns_inv (rev : ProductWiseHandler.revision) (now : Z)
    (couponId : string) (w : CartService.world) (cart' : Cart) :
  fst (CartService.applyCoupon rev now couponId w) = Returns cart' ->
  exists coupon,
    CartService.getCouponById (CartService.redis w) couponId = Some coupon
    /\ CartService.gate now coupon = true
    /\ CartService.redis (snd (CartService.applyCoupon rev now couponId w))
       = <[CartService.couponKey couponId :=
             Coupon.withUsedCount coupon (Coupon.usedCount coupon + 1)]>
           (CartService.redis w).
Proof.
  unfold CartService.applyCoupon.
  destruct (CartService.getCouponById (CartService.redis w) couponId)
    as [coupon|] eqn:Hget; [|discriminate].
  destruct (negb (Coupon.isActive coupon)) eqn:Hactive; [discriminate|].
  destruct (CartService.expired now coupon) eqn:Hexpired; [discriminate|].
  destruct (CartService.usageLimitReached coupon) eqn:Hlimit; [discriminate|].
  destruct (CartFactory.getStrategy rev _) as [strategy|]; [|discriminate].
  destruct (isApplicable strategy _ _) as [[|a l]|e]; try discriminate.
  destruct (applyDiscount strategy _ _) as [updated|e]; [|discriminate].
  intros _. exists coupon. split; [reflexivity|]. split.
  { unfold CartService.gate. now rewrite Hactive, Hexpired, Hlimit. }
  cbn [snd]. unfold CartService.updateCoupon, CartService.discountApplied.
  cbn [CartService.redis]. now rewrite Hget.
Qed.

Lemma applyCoupon_throws_inv (rev : ProductWiseHandler.revision) (now : Z)
    (couponId : string) (w : CartService.world) (e : string) :
  fst (CartService.applyCoupon rev now couponId w) = Throws e ->
  snd (CartService.applyCoupon rev now couponId w) = w.
Proof.
  unfold CartService.applyCoupon.
  destruct (CartService.getCouponById (CartService.redis w) couponId)
    as [coupon|]; [|reflexivity].
  destruct (negb (Coupon.isActive coupon)); [reflexivity|].
  destruct (CartService.expired now coupon); [reflexivity|].
  destruct (CartService.usageLimitReached coupon); [reflexivity|].
  destruct (CartFactory.getStrategy rev _) as [strategy|]; [|reflexivity].
  destruct (isApplicable strategy _ _) as [[|a l]|e']; try reflexivity.
  destruct (applyDiscount strategy _ _) as [updated|e']; [|reflexivity].
  discriminate.
Qed.

(** X19. [applyCoupon] keeps the usage counters within the limits: in a
    store where no coupon was used more often than its limit allows (a limit
    that is absent or 0 is none), the same holds after [applyCoupon],
    whatever it answers.  It writes to the key of the identifier it was
    called with and to no other key, and when it throws it writes
    nothing. *)
Theorem applyCoupon_keeps_usage_within_limits
    (rev : ProductWiseHandler.revision) (now : Z) (couponId : string)
    (w : CartService.world) :
  storeWithinLimits (CartService.redis w) ->
  let result := CartService.applyCoupon rev now couponId w in
  storeWithinLimits (CartService.redis (snd result))
  /\ (forall key,
        key <> CartService.couponKey couponId ->
        CartService.redis (snd result) !! key = CartService.redis w !! key)
  /\ (forall e, fst result = Throws e -> snd result = w).
Proof.
  intros Hstore. cbv zeta.
  destruct (fst (CartService.applyCoupon rev now couponId w))
    as [cart'|e] eqn:Hresult.
  - destruct (applyCoupon_returns_inv _ _ _ _ _ Hresult)
      as (coupon & Hget & Hgate & ->).
    split; [|split; [|discriminate]].
    + intros key stored Hkey.
      apply lookup_insert_Some in Hkey as [[_ <-] | [_ Hkey]];
        [|now apply (Hstore key)].
      apply gate_true in Hgate as (_ & _ & Hlimit).
      pose proof (proj1 (usageLimitReached_false coupon) Hlimit) as Hbelow.
      intros limit Hl Hz. cbn [Coupon.usageLimit Coupon.usedCount
                                 Coupon.withUsedCount] in *.
      specialize (Hbelow limit Hl Hz). lia.
    + intros key Hne. now apply lookup_insert_ne.
  - rewrite (applyCoupon_throws_inv _ _ _ _ _ Hresult).
    split; [assumption|]. split; [reflexivity|]. intros _ _. reflexivity.
Qed.

Lemma applyCoupon_within_limits_example :
  let once :=
    {| Coupon.id := "ONCE"; Coupon.name := "ONCE"; Coupon.type := "cart";
       Coupon.isActive := true; Coupon.expiryDate := None;
       Coupon.usageLimit := Some 1; Coupon.usedCount := 0;
       Coupon.conditions := Scenario.minCart 0;
       Coupon.discountDetails := fixed 50 |} in
  let w :=
    {| CartService.redis := {[ "coupon:ONCE" := once ]};
       CartService.cartObject := Scenario.cartA;
       CartService.log := [] |} in
  storeWithinLimits (CartService.redis w)
  /\ storeWithinLimits
       (CartService.redis
          (snd (CartService.applyCoupon ProductWiseHandler.ProductIdsOnly 1000
                  "ONCE" w))).
Proof.
  cbv zeta.
  assert (H : storeWithinLimits
                (CartService.redis
                   {| CartService.redis :=
                        {[ "coupon:ONCE" :=
                             {| Coupon.id := "ONCE"; Coupon.name := "ONCE";
                                Coupon.type := "cart"; Coupon.isActive := true;
                                Coupon.expiryDate := None;
                                Coupon.usageLimit := Some 1;
                                Coupon.usedCount := 0;
                                Coupon.conditions := Scenario.minCart 0;
                                Coupon.discountDetails := fixed 50 |} ]};
                      CartService.cartObject := Scenario.cartA;
                      CartService.log := [] |})).
  { intros key stored Hkey. cbn [CartService.redis] in Hkey.
    apply lookup_singleton_Some in Hkey as [_ <-].
    intros limit [= <-] _. cbn. lia. }
  split; [exact H|].
  exact (proj1 (applyCoupon_keeps_usage_within_limits
                  ProductWiseHandler.ProductIdsOnly 1000 "ONCE" _ H)).
Defined.

(** X20. The use that reaches the limit closes the coupon: when
    [applyCoupon] returns for a coupon whose counter then reaches its usage
    limit, the gate rejects the stored coupon from then on, and every later
    [applyCoupon] of this identifier, on any cart, throws (that the coupon
    has expired if it has by then, that the usage limit is exceeded
    otherwise) and writes nothing. *)
Theorem applyCoupon_last_use_closes_the_coupon
    (rev : ProductWiseHandler.revision) (now later : Z) (couponId : string)
    (w : CartService.world) (coupon : Coupon.t) (limit : Z) (cart' : Cart) :
  CartService.getCouponById (CartService.redis w) couponId = Some coupon ->
  Coupon.usageLimit coupon = Some limit ->
  limit <> 0 ->
  limit <= Coupon.usedCount coupon + 1 ->
  fst (CartService.applyCoupon rev now couponId w) = Returns cart' ->
  let store' :=
    CartService.redis (snd (CartService.applyCoupon rev now couponId w)) in
  (exists used,
     CartService.getCouponById store' couponId = Some used
     /\ Coupon.usedCount used = Coupon.usedCount coupon + 1
     /\ CartService.gate later used = false)
  /\ forall cart events,
       let w' := {| CartService.redis := store';
                    CartService.cartObject := cart;
                    CartService.log := events |} in
       CartService.applyCoupon rev later couponId w'
       = (Throws (if CartService.expired later coupon
                  then CartService.hasExpired
                  else CartService.usageLimitExceeded), w').
Proof.
  intros Hget Hlimit Hz Hlast Hresult. cbv zeta.
  destruct (applyCoupon_returns_inv _ _ _ _ _ Hresult)
    as (coupon0 & Hget0 & Hgate & ->).
  assert (coupon0 = coupon) as -> by congruence.
  set (used := Coupon.withUsedCount coupon (Coupon.usedCount coupon + 1)).
  assert (Hused : CartService.getCouponById
                    (<[CartService.couponKey couponId := used]>
                       (CartService.redis w)) couponId = Some used).
  { rewrite getCouponById_insert. now destruct (decide _). }
  apply gate_true in Hgate as (Hactive & _ & _).
  assert (Hreached : CartService.usageLimitReached used = true).
  { unfold CartService.usageLimitReached, used.
    cbn [Coupon.usageLimit Coupon.usedCount Coupon.withUsedCount].
    rewrite Hlimit. cbn [JS.truthy]. cbv [default from_option id].
    apply andb_true_intro. split.
    - apply negb_true_iff, Z.eqb_neq. assumption.
    - apply Z.leb_le. assumption. }
  assert (Hexpired : CartService.expired later used
                     = CartService.expired later coupon) by reflexivity.
  split.
  - exists used. split; [assumption|]. split; [reflexivity|].
    unfold CartService.gate. rewrite Hreached.
    now destruct (negb _), (CartService.expired later used).
  - intros cart events. unfold CartService.applyCoupon.
    cbn [CartService.redis]. rewrite Hused.
    change (Coupon.isActive used) with (Coupon.isActive coupon).
    rewrite Hactive, Hexpired, Hreached. cbn [negb].
    now destruct (CartService.expired later coupon).
Qed.

Lemma applyCoupon_last_use_example :
  let once :=
    {| Coupon.id := "ONCE"; Coupon.name := "ONCE"; Coupon.type := "cart";
       Coupon.isActive := true; Coupon.expiryDate := None;
       Coupon.usageLimit := Some 1; Coupon.usedCount := 0;
       Coupon.conditions := Scenario.minCart 0;
       Coupon.discountDetails := fixed 50 |} in
  let w :=
    {| CartService.redis := {[ "coupon:ONCE" := once ]};
       CartService.cartObject := Scenario.cartA;
       CartService.log := [] |} in
  (exists cart',
     fst (CartService.applyCoupon ProductWiseHandler.ProductIdsOnly 1000
            "ONCE" w) = Returns cart')
  /\ fst (CartService.applyCoupon ProductWiseHandler.ProductIdsOnly 2000 "ONCE"
            {| CartService.redis :=
                 CartService.redis
                   (snd (CartService.applyCoupon
                           ProductWiseHandler.ProductIdsOnly 1000 "ONCE" w));
               CartService.cartObject := Scenario.cart400;
               CartService.log := [] |})
     = Throws CartService.usageLimitExceeded.
Proof.
  cbv zeta.
  set (once :=
    {| Coupon.id := "ONCE"; Coupon.name := "ONCE"; Coupon.type := "cart";
       Coupon.isActive := true; Coupon.expiryDate := None;
       Coupon.usageLimit := Some 1; Coupon.usedCount := 0;
       Coupon.conditions := Scenario.minCart 0;
       Coupon.discountDetails := fixed 50 |}).
  set (w :=
    {| CartService.redis := {[ "coupon:ONCE" := once ]};
       CartService.cartObject := Scenario.cartA;
       CartService.log := [] |}).
  assert (Hget : CartService.getCouponById (CartService.redis w) "ONCE"
                 = Some once) by (vm_compute; reflexivity).
  assert (Hresult : fst (CartService.applyCoupon
                           ProductWiseHandler.ProductIdsOnly 1000 "ONCE" w)
                    = Returns (CartWiseHandler.applyDiscount Scenario.cartA once))
    by (vm_compute; reflexivity).
  assert (Hz : 1 <> 0) by lia.
  assert (Hlast : 1 <= Coupon.usedCount once + 1) by (cbn; lia).
  split; [eexists; exact Hresult|].
  rewrite (proj2 (applyCoupon_last_use_closes_the_coupon
                    ProductWiseHandler.ProductIdsOnly 1000 2000 "ONCE" w once 1
                    _ Hget eq_refl Hz Hlast Hresult)
             Scenario.cart400 []).
  reflexivity.
Defined.

(** X21. The gate never reopens: a coupon that the gate rejects at some
    instant is rejected at every later instant, also after further uses were
    counted on it. *)
Theorem gate_never_reopens
    (now later : Z) (coupon : Coupon.t) (uses : Z) :
  now <= later ->
  0 <= uses ->
  CartService.gate now coupon = false ->
  CartService.gate later
    (Coupon.withUsedCount coupon (Coupon.usedCount coupon + uses)) = false.
Proof.
  intros Hlater Huses Hclosed.
  destruct (CartService.gate later _) eqn:Hopen; [|reflexivity].
  apply gate_spec in Hopen as (Hactive & Hexpiry & Hlimit).
  cbn [Coupon.isActive Coupon.expiryDate Coupon.usageLimit Coupon.usedCount
         Coupon.withUsedCount] in *.
  assert (Hnow : CartService.gate now coupon = true).
  { apply gate_spec. split; [assumption|]. split.
    - intros expiry He. specialize (Hexpiry expiry He). lia.
    - intros limit Hl Hz. specialize (Hlimit limit Hl Hz). lia. }
  congruence.
Qed.

Lemma gate_never_reopens_example :
  let old :=
    {| Coupon.id := "OLD"; Coupon.name := "OLD"; Coupon.type := "cart";
       Coupon.isActive := true; Coupon.expiryDate := Some 999;
       Coupon.usageLimit := None; Coupon.usedCount := 0;
       Coupon.conditions := Scenario.minCart 0;
       Coupon.discountDetails := fixed 400 |} in
  CartService.gate 1000 old = false
  /\ CartService.gate 2000 (Coupon.withUsedCount old (Coupon.usedCount old + 0))
     = false.
Proof.
  cbv zeta. split; [reflexivity|].
  apply (gate_never_reopens 1000 2000); [lia|lia|reflexivity].
Defined.

(** ** From the list to the application *)

Lemma keyedById_insert (store : gmap string Coupon.t) (id : string)
    (coupon : Coupon.t) :
  keyedById store ->
  Coupon.id coupon = id ->
  keyedById (<[CartService.couponKey id := coupon]> store).
Proof.
  intros Hstore Hid other stored. rewrite getCouponById_insert.
  destruct (decide (id = other)) as [<-|Hne].
  - now intros [= <-].
  - apply Hstore.
Qed.

(** X22. The operations keep every coupon under its own identifier: in a
    store where [getCouponById] of an identifier finds only a coupon with
    this identifier, the same holds after [createCoupon], after
    [deleteCoupon], after [applyCoupon] whatever it answers, and after
    [updateCoupon] with a coupon that carries the identifier it is stored
    under, which is how the route calls it. *)
Theorem store_keeps_coupons_under_their_identifier
    (store : gmap string Coupon.t) :
  keyedById store ->
  (forall coupon, keyedById (snd (CouponStore.createCoupon store coupon)))
  /\ (forall id, keyedById (snd (CouponStore.deleteCoupon store id)))
  /\ (forall id coupon,
        Coupon.id coupon = id ->
        keyedById (snd (CouponStore.updateCoupon store id coupon)))
  /\ (forall rev now couponId cart events,
        keyedById
          (CartService.redis
             (snd (CartService.applyCoupon rev now couponId
                     {| CartService.redis := store;
                        CartService.cartObject := cart;
                        CartService.log := events |})))).
Proof.
  intros Hstore. split; [|split; [|split]].
  - intros coupon. unfold CouponStore.createCoupon. cbn [snd].
    now apply keyedById_insert.
  - intros id. unfold CouponStore.deleteCoupon.
    destruct (store !! CartService.couponKey id); cbn [snd]; [|assumption].
    intros other stored. unfold CartService.getCouponById.
    intros Hget. apply lookup_delete_Some in Hget as (_ & Hget).
    now apply Hstore.
  - intros id coupon Hid. unfold CouponStore.updateCoupon.
    destruct (CartService.getCouponById store id); cbn [snd]; [|assumption].
    now apply keyedById_insert.
  - intros rev now couponId cart events.
    set (w := {| CartService.redis := store; CartService.cartObject := cart;
                 CartService.log := events |}).
    destruct (fst (CartService.applyCoupon rev now couponId w))
      as [cart'|e] eqn:Hresult.
    + destruct (applyCoupon_returns_inv _ _ _ _ _ Hresult)
        as (coupon & Hget & _ & ->).
      apply keyedById_insert; [assumption|].
      cbn [Coupon.id Coupon.withUsedCount]. now apply Hstore.
    + now rewrite (applyCoupon_throws_inv _ _ _ _ _ Hresult).
Qed.

Lemma store_keyed_example :
  keyedById ({[ "coupon:FLAT50" := Scenario.flat50 ]} : gmap string Coupon.t)
  /\ keyedById
       (snd (CouponStore.createCoupon
               ({[ "coupon:FLAT50" := Scenario.flat50 ]} : gmap string Coupon.t)
               Scenario.save10)).
Proof.
  assert (H : keyedById
                ({[ "coupon:FLAT50" := Scenario.flat50 ]}
                 : gmap string Coupon.t)).
  { intros id coupon. unfold CartService.getCouponById. intros Hget.
    apply lookup_singleton_Some in Hget as [Hkey <-].
    apply (couponKey_inj "FLAT50" id) in Hkey. now subst. }
  split; [exact H|].
  exact (proj1 (store_keeps_coupons_under_their_identifier _ H) Scenario.save10).
Defined.

(** X23. What discovery lists, [applyCoupon] applies: in a store that
    keeps every coupon under its own identifier, when
    [findApplicableCoupons] on the coupons of [getAllCoupons] returns a
    candidate, [applyCoupon] with the identifier of this candidate, at the
    same instant and on the same cart, returns a cart whose
    [discountedAmount] is the discount of the candidate. *)
Theorem listed_coupon_is_applied_with_the_listed_discount
    (rev : ProductWiseHandler.revision) (now : Z)
    (store : gmap string Coupon.t) (cart : Cart) (events : list CartService.event)
    (found : list ApplicableCoupons.t) (a : ApplicableCoupons.t) :
  keyedById store ->
  CartService.findApplicableCoupons rev now (CouponStore.getAllCoupons store) cart
  = Returns found ->
  In a found ->
  exists cart',
    fst (CartService.applyCoupon rev now (ApplicableCoupons.id a)
           {| CartService.redis := store; CartService.cartObject := cart;
              CartService.log := events |})
    = Returns cart'
    /\ discountedAmount cart' = Some (ApplicableCoupons.discount a)
    /\ subTotal cart'
       = Some (JS.sub (Num (totalAmount cart)) (ApplicableCoupons.discount a)).
Proof.
  intros Hstore Hfind Hin.
  rewrite findApplicableCoupons_outcome in Hfind. cbv zeta in Hfind.
  destruct (existsb inheritedName _); [discriminate|].
  destruct (BxGyHandler.isApplicable cart _) as [bxgy|e] eqn:Hbxgy;
    cbn [bind] in Hfind; [|discriminate].
  injection Hfind as <-. rewrite sort_In, !in_app_iff in Hin.
  rewrite cartwise_single, productwise_single, (bxgy_single _ _ _ _ Hbxgy) in Hin.
  assert (Hfound : exists coupon strategy,
    In coupon (CouponStore.getAllCoupons store)
    /\ CartService.gate now coupon = true
    /\ CartFactory.getStrategy rev (CartService.strategyType coupon)
       = Some strategy
    /\ isApplicable strategy cart [coupon] = Returns [a]).
  { destruct Hin as [(coupon & Hc & Happ) | [(coupon & Hc & Happ) | (coupon & Hc & Happ)]];
      apply ofType_In in Hc as (Hc & Hgate & Hkey); exists coupon.
    - exists CartWiseHandler.strategy. rewrite Hkey, getStrategy_cart.
      cbn [isApplicable CartWiseHandler.strategy]. now rewrite Happ.
    - exists (ProductWiseHandler.strategy rev).
      rewrite Hkey, getStrategy_product.
      cbn [isApplicable ProductWiseHandler.strategy]. now rewrite Happ.
    - exists BxGyHandler.strategy. rewrite Hkey, getStrategy_BxGy.
      cbn [isApplicable BxGyHandler.strategy]. now rewrite Happ. }
  destruct Hfound as (coupon & strategy & Hc & Hgate & Hs & Happ).
  destruct (candidate_discount_recorded _ _ _ _ _ _ Hs Happ)
    as (Hid & _ & _ & cart' & Happly & Hd & Hsub).
  apply getAllCoupons_In in Hc as (id & Hget).
  assert (Hkey : id = ApplicableCoupons.id a).
  { rewrite Hid. symmetry. now apply Hstore. }
  subst id. exists cart'. unfold CartService.applyCoupon.
  cbn [CartService.redis CartService.cartObject]. rewrite Hget.
  apply gate_true in Hgate as (-> & -> & ->). cbn [negb].
  rewrite Hs, Happ, Happly. cbn [fst]. now repeat split.
Qed.

Lemma listed_coupon_example :
  let store : gmap string Coupon.t := {[ "coupon:FLAT50" := Scenario.flat50 ]} in
  let a := {| ApplicableCoupons.id := "FLAT50";
              ApplicableCoupons.discount := Num 50;
              ApplicableCoupons.type := "cart" |} in
  keyedById store
  /\ CartService.findApplicableCoupons ProductWiseHandler.ProductIdsOnly 1000
       (CouponStore.getAllCoupons store) Scenario.cartA
     = Returns [a]
  /\ exists cart',
       fst (CartService.applyCoupon ProductWiseHandler.ProductIdsOnly 1000
              "FLAT50"
              {| CartService.redis := store;
                 CartService.cartObject := Scenario.cartA;
                 CartService.log := [] |})
       = Returns cart'
       /\ discountedAmount cart' = Some (Num 50).
Proof.
  cbv zeta.
  assert (Hstore : keyedById
                     ({[ "coupon:FLAT50" := Scenario.flat50 ]}
                      : gmap string Coupon.t)).
  { intros id coupon. unfold CartService.getCouponById. intros Hget.
    apply lookup_singleton_Some in Hget as [Hkey <-].
    apply (couponKey_inj "FLAT50" id) in Hkey. now subst. }
  assert (Hfind : CartService.findApplicableCoupons
                    ProductWiseHandler.ProductIdsOnly 1000
                    (CouponStore.getAllCoupons
                       ({[ "coupon:FLAT50" := Scenario.flat50 ]}
                        : gmap string Coupon.t)) Scenario.cartA
                  = Returns [ {| ApplicableCoupons.id := "FLAT50";
                                 ApplicableCoupons.discount := Num 50;
                                 ApplicableCoupons.type := "cart" |} ])
    by (vm_compute; reflexivity).
  split; [exact Hstore|]. split; [exact Hfind|].
  destruct (listed_coupon_is_applied_with_the_listed_discount
              ProductWiseHandler.ProductIdsOnly 1000 _ Scenario.cartA []
              _ _ Hstore Hfind (or_introl eq_refl))
    as (cart' & Hres & Hd & _).
  exists cart'. split; [exact Hres|exact Hd].
Defined.

(** ** Who is a candidate of [BxGyHandler] *)

(** X24. On a cart with items of non-negative quantity, a Buy-X-get-Y
    coupon with a buy requirement above zero, a limit and a get requirement
    that are not negative is a candidate of [BxGyHandler.isApplicable]
    exactly when the cart holds the buy requirement at least once, the limit
    allows a repetition, a get product is in the cart, the get requirement is
    above zero and the discount is positive; the candidate carries the
    coupon's identifier, that discount and the type "BxGy". *)
Theorem bxgy_candidates_are_the_eligible_coupons
    (cart : Cart) (coupon : Coupon.t) (c : BxGyConditions)
    (a : ApplicableCoupons.t) :
  Coupon.conditions coupon = BxGyC c ->
  items cart <> [] ->
  Forall (fun item => 0 <= quantity item) (items cart) ->
  0 < BxGyHandler.sumQuantity (buyProducts c) ->
  0 <= repetitionLimit c ->
  0 <= BxGyHandler.sumQuantity (getProducts c) ->
  BxGyHandler.isApplicable cart [coupon] = Returns [a]
  <-> BxGyHandler.sumQuantity (buyProducts c)
      <= BxGyHandler.quantityInCart (items cart) (buyProducts c)
      /\ 0 < repetitionLimit c
      /\ 0 < BxGyHandler.quantityInCart (items cart) (getProducts c)
      /\ 0 < BxGyHandler.sumQuantity (getProducts c)
      /\ exists d,
           BxGyHandler.discountOf cart c = Num d
           /\ 0 < d
           /\ a = {| ApplicableCoupons.id := Coupon.id coupon;
                     ApplicableCoupons.discount := Num d;
                     ApplicableCoupons.type := "BxGy" |}.
Proof.
  intros Hc Hitems Hq Hbuy Hlimit Hget.
  assert (Hstock : 0 <= BxGyHandler.quantityInCart (items cart) (buyProducts c)).
  { rewrite quantityInCart_total. now apply total_cartQuantity_nonneg. }
  assert (Hgets : 0 <= BxGyHandler.quantityInCart (items cart) (getProducts c)).
  { rewrite quantityInCart_total. now apply total_cartQuantity_nonneg. }
  assert (Hd : exists d, BxGyHandler.discountOf cart c = Num d).
  { eexists. apply discountOf_spec; try assumption;
      unfold BxGySpec.requiredBuyQty, BxGySpec.requiredGetQty;
      now rewrite <- sumQuantity_total. }
  destruct Hd as (d & Hd).
  unfold BxGyHandler.isApplicable.
  destruct (items cart) as [|item its] eqn:Hcart; [contradiction|].
  rewrite <- Hcart in *. rewrite bxgy_single_candidate.
  unfold bxgyCandidate. rewrite Hc. cbn [asBxGy mbind option_bind].
  unfold BxGyHandler.candidate. cbv zeta. rewrite Hd.
  cbn [BxGyHandler.totalBuyQuantityInCart BxGyHandler.requiredBuyQuantity
         BxGyHandler.actualRepetitions BxGyHandler.requiredGetQuantity
         BxGyHandler.calculateBxGyParams].
  unfold JS.floorDiv.
  destruct (BxGyHandler.sumQuantity (buyProducts c) =? 0) eqn:Hz;
    [apply Z.eqb_eq in Hz; lia|].
  cbn [JS.min JS.mul JS.isZero JS.leZero].
  set (stock := BxGyHandler.quantityInCart (items cart) (buyProducts c)) in *.
  set (buy := BxGyHandler.sumQuantity (buyProducts c)) in *.
  set (gets := BxGyHandler.quantityInCart (items cart) (getProducts c)) in *.
  set (get := BxGyHandler.sumQuantity (getProducts c)) in *.
  destruct (Z.ltb_spec stock buy) as [Hshort|Henough].
  { split; [discriminate|]. intros (H & _). lia. }
  assert (Hfits : 1 <= stock / buy).
  { apply Z.div_le_lower_bound; lia. }
  destruct (Z.eqb_spec (Z.min (stock / buy) (repetitionLimit c)) 0)
    as [Hrep|Hrep].
  { split; [discriminate|]. intros (_ & H & _). lia. }
  destruct (Z.eqb_spec
              (Z.min gets (Z.min (stock / buy) (repetitionLimit c) * get)) 0)
    as [Hfree|Hfree].
  { split; [discriminate|]. intros (_ & Hl & Hg & Hr & _).
    assert (0 < Z.min (stock / buy) (repetitionLimit c) * get) by nia. lia. }
  assert (Hpositive : 0 < gets /\ 0 < get).
  { assert (0 <= Z.min (stock / buy) (repetitionLimit c)) by lia.
    split; [|nia].
    destruct (Z.eq_dec gets 0) as [H0|H0]; [|lia].
    rewrite H0 in Hfree.
    assert (0 <= Z.min (stock / buy) (repetitionLimit c) * get) by nia. lia. }
  destruct (Z.leb_spec d 0) as [Hle|Hgt].
  { split; [discriminate|]. intros (_ & _ & _ & _ & d' & [= <-] & H & _). lia. }
  split.
  - intros [= <-]. repeat split; try lia. exists d. now repeat split.
  - intros (_ & _ & _ & _ & d' & [= <-] & _ & ->). reflexivity.
Qed.

Lemma bxgy_candidates_example :
  Coupon.conditions Scenario.buy2get1 = Scenario.buyGet [("A", 2)] [("B", 1)] 2
  /\ items Scenario.cartD <> []
  /\ Forall (fun item => 0 <= quantity item) (items Scenario.cartD)
  /\ BxGyHandler.isApplicable Scenario.cartD [Scenario.buy2get1]
     = Returns [ {| ApplicableCoupons.id := "B2G1";
                    ApplicableCoupons.discount := Num 30;
                    ApplicableCoupons.type := "BxGy" |} ].
Proof.
  assert (Hq : Forall (fun item => 0 <= quantity item) (items Scenario.cartD)).
  { repeat constructor; cbn; lia. }
  assert (Hitems : items Scenario.cartD <> []) by discriminate.
  split; [reflexivity|]. split; [exact Hitems|]. split; [exact Hq|].
  refine (proj2 (bxgy_candidates_are_the_eligible_coupons
                   Scenario.cartD Scenario.buy2get1 _ _ eq_refl Hitems Hq _ _ _)
            _).
  - cbn. lia.
  - cbn. lia.
  - cbn. lia.
  - cbn. repeat split; try lia. exists 30. repeat split.
Defined.

(** ** [getAllCoupons], the revision that pops the list [keys] *)

Section LpopLoop.

Import GetAllCouponsLpop.

Lemma loop_returns_without_keys (fuel : nat) (keys : list string)
    (backend : gmap string value) (coupons : list Coupon.t)
    (result : list Coupon.t * gmap string value) :
  loop fuel keys backend coupons = Finished (Returns result) -> keys = [].
Proof.
  revert backend coupons.
  induction fuel as [|fuel IH]; intros backend coupons; cbn [loop];
    [discriminate|].
  destruct (body backend coupons) as [[coupons' backend']|e]; [|discriminate].
  destruct keys as [|key keys]; [reflexivity|]. apply IH.
Qed.

Lemma loop_spins (fuel : nat) (keys : list string)
    (backend : gmap string value) (coupons : list Coupon.t) :
  backend !! "keys" = None ->
  keys <> [] ->
  loop fuel keys backend coupons = StillRunning.
Proof.
  intros Hlist Hkeys. induction fuel as [|fuel IH]; cbn [loop]; [reflexivity|].
  unfold body, lpop. rewrite Hlist. cbn [bind fst snd].
  destruct keys as [|key keys]; [contradiction|]. exact IH.
Qed.

Lemma no_keys_empty (backend : gmap string value) :
  List.map fst (map_to_list backend) = [] -> backend = ∅.
Proof.
  intros H. apply map_to_list_empty_iff.
  destruct (map_to_list backend); [reflexivity|discriminate].
Qed.

End LpopLoop.

(** X25. The revision of [getAllCoupons] that pops the list [keys]
    returns on the empty backend only, and then the empty list: on every
    other backend it throws or runs on, however many iterations it is
    given, and on a backend that holds stored coupons and no list it runs
    on for ever. *)
Theorem getAllCoupons_lpop_returns_on_the_empty_backend_only :
  (forall fuel,
     GetAllCouponsLpop.getAllCoupons (S fuel) ∅
     = GetAllCouponsLpop.Finished (Returns ([], ∅)))
  /\ (forall fuel backend result,
        GetAllCouponsLpop.getAllCoupons fuel backend
        = GetAllCouponsLpop.Finished (Returns result) ->
        backend = ∅ /\ result = ([], ∅))
  /\ (forall fuel (store : gmap string Coupon.t),
        store <> ∅ ->
        store !! "keys" = None ->
        GetAllCouponsLpop.getAllCoupons fuel
          (GetAllCouponsLpop.StringValue <$> store)
        = GetAllCouponsLpop.StillRunning).
Proof.
  assert (Hempty : forall fuel,
    GetAllCouponsLpop.getAllCoupons (S fuel) ∅
    = GetAllCouponsLpop.Finished (Returns ([], ∅))).
  { intros fuel. unfold GetAllCouponsLpop.getAllCoupons.
    rewrite map_to_list_empty. cbn [List.map GetAllCouponsLpop.loop].
    unfold GetAllCouponsLpop.body, GetAllCouponsLpop.lpop.
    rewrite lookup_empty. reflexivity. }
  split; [exact Hempty|]. split.
  - intros fuel backend result Hrun.
    assert (backend = ∅) as ->.
    { apply no_keys_empty.
      now apply (loop_returns_without_keys fuel _ backend [] result). }
    split; [reflexivity|]. destruct fuel as [|fuel]; [discriminate|].
    rewrite Hempty in Hrun. congruence.
  - intros fuel store Hstore Hlist.
    apply loop_spins.
    + now rewrite lookup_fmap, Hlist.
    + intros Hkeys. apply no_keys_empty in Hkeys.
      apply fmap_empty_iff in Hkeys. contradiction.
Qed.
